(** * The reward and feedback engine of [marble/feedback/feedback_provider.py]

    A shallow embedding of [FeedbackProvider]: the contribution ratio, the
    latest-score normalisation, the per-agent reward loop, the contribution
    ranking and the early exit of [generate_reward_explanation].

    Python values are modelled as the interpreter has them:
    - [float] is IEEE-754 binary64, through the executable specification
      [SpecFloat] of the Standard Library (precision 53, [emax] 1024), with
      round-to-nearest-even on every operation;
    - [int] is [Z]; [int / int] is Python's true division, the correctly
      rounded quotient, raising [ZeroDivisionError] and [OverflowError];
    - [dict] is an insertion-ordered association list: iteration order is
      what breaks ties in the ranking;
    - exceptions are a [result] type, and the methods that mutate [self]
      run in a state-and-exception monad over the provider record.

    The calls of the logger are left out: they format floats and strings
    and change nothing the methods read.  The prompt templates and the
    completion service are parameters of [generate_reward_explanation].

    The methods that call the completion service,
    [generate_individual_feedback], [generate_team_feedback] and
    [get_full_feedback_package], run in the same kind of monad, with the
    state of the service beside the provider; the service and [str.format]
    are the fields of a record of collaborators.  The loop of
    [model_prompting] that cuts long messages is modelled on sequences of
    characters. *)

From Stdlib Require Import NArith Ascii DecimalString.
From Stdlib Require Import ZArith List String Bool Lia Permutation Sorted.
From Stdlib Require Import Floats.SpecFloat.
Import ListNotations.
Local Open Scope Z_scope.

(** ** Exceptions *)

Inductive exn : Type :=
| ZeroDivisionError
| OverflowError
| KeyError
| ExternalError (msg : string).

Inductive result (A : Type) : Type :=
| Ok (a : A)
| Raise (e : exn).

Arguments Ok {A} a.
Arguments Raise {A} e.

Definition is_ok {A} (r : result A) : bool :=
  match r with Ok _ => true | Raise _ => false end.

(** ** Python floats: binary64 *)

Module PyFloat.

Definition prec : Z := 53.
Definition emax : Z := 1024.

Definition float : Type := spec_float.

Definition mul : float -> float -> float := SFmul prec emax.
Definition add : float -> float -> float := SFadd prec emax.
Definition div : float -> float -> float := SFdiv prec emax.
Definition ltb : float -> float -> bool := SFltb.
Definition leb : float -> float -> bool := SFleb.
Definition eqb : float -> float -> bool := SFeqb.

(** The correctly rounded quotient of two integers ([b] is not [0]): the
    value of a decimal literal [a / 10^k], and of Python's [a / b] on
    [int]s when it fits. *)
Definition round_div (a b : Z) : float :=
  let '(q, e, l) := SFdiv_core_binary prec emax (Z.abs a) 0 (Z.abs b) 0 in
  binary_round_aux prec emax (xorb (a <? 0) (b <? 0)) q e l.

(** The float literals of the module, as the parser reads them. *)
Definition lit_0_0 : float := S754_zero false.
Definition lit_1_0 : float := Eval vm_compute in round_div 1 1.
Definition lit_3_0 : float := Eval vm_compute in round_div 3 1.
Definition lit_5_0 : float := Eval vm_compute in round_div 5 1.
Definition lit_0_3 : float := Eval vm_compute in round_div 3 10.
Definition lit_0_4 : float := Eval vm_compute in round_div 4 10.
Definition lit_0_6 : float := Eval vm_compute in round_div 6 10.
(** [-1] compared with a float: the float [-1.0]. *)
Definition minus_one : float := Eval vm_compute in round_div (-1) 1.

(** [min(a, b)] and [max(a, b)] of the builtins: the first argument is kept
    unless the second compares strictly below (above) it. *)
Definition py_min (a b : float) : float := if ltb b a then b else a.
Definition py_max (a b : float) : float := if ltb a b then b else a.

Definition is_nan (x : float) : bool :=
  match x with S754_nan => true | _ => false end.

Definition is_finite (x : float) : bool :=
  match x with S754_zero _ | S754_finite _ _ _ => true | _ => false end.

(** [0.0 <= x <= 1.0]. *)
Definition in_unit_interval (x : float) : bool :=
  leb lit_0_0 x && leb x lit_1_0.

End PyFloat.

Import PyFloat.

Declare Scope pyfloat_scope.
Delimit Scope pyfloat_scope with pyfloat.
Infix "*" := PyFloat.mul : pyfloat_scope.
Infix "+" := PyFloat.add : pyfloat_scope.
Infix "/" := PyFloat.div : pyfloat_scope.

(** [a / b] on Python [int]s: [ZeroDivisionError] on a zero divisor, the
    correctly rounded quotient otherwise, and [OverflowError] ("integer
    division result too large for a float") when that is not finite. *)
Definition py_int_truediv (a b : Z) : result float :=
  if b =? 0 then Raise ZeroDivisionError
  else
    match round_div a b with
    | S754_infinity _ => Raise OverflowError
    | q => Ok q
    end.

(** ** Python dicts: insertion-ordered association lists *)

Module PyDict.

Definition dict (V : Type) : Type := list (string * V).

Definition empty {V} : dict V := [].

Fixpoint get {V} (d : dict V) (k : string) : option V :=
  match d with
  | [] => None
  | (k', v) :: d' => if String.eqb k' k then Some v else get d' k
  end.

(** [k in d]. *)
Definition mem {V} (d : dict V) (k : string) : bool :=
  match get d k with Some _ => true | None => false end.

(** [d.get(k, default)]. *)
Definition get_default {V} (d : dict V) (k : string) (default : V) : V :=
  match get d k with Some v => v | None => default end.

(** [d[k] = v]: an existing key keeps its position, a new one goes last. *)
Fixpoint set {V} (d : dict V) (k : string) (v : V) : dict V :=
  match d with
  | [] => [(k, v)]
  | (k', v') :: d' =>
      if String.eqb k' k then (k', v) :: d' else (k', v') :: set d' k v
  end.

(** Iterating a dict yields its keys in insertion order. *)
Definition keys {V} (d : dict V) : list string := map fst d.

Definition items {V} (d : dict V) : list (string * V) := d.

Definition values {V} (d : dict V) : list V := map snd d.

(** A dict Python can build: no key twice. *)
Definition wf {V} (d : dict V) : Prop := NoDup (keys d).

End PyDict.

Import PyDict.

(** ** [sorted(iterable, key=..., reverse=...)]

    The builtin is a stable sort that compares keys with [<] only.  It is
    modelled by the stable insertion sort; with [reverse=True] the list is
    reversed, sorted and reversed again, as CPython does to keep equal keys
    in their original order.  On keys that are not NaN the result does not
    depend on the algorithm (lemma [py_sorted_unique]). *)

Fixpoint insert_by {A} (lt : A -> A -> bool) (x : A) (l : list A) : list A :=
  match l with
  | [] => [x]
  | y :: r => if lt y x then y :: insert_by lt x r else x :: y :: r
  end.

Fixpoint stable_sort {A} (lt : A -> A -> bool) (l : list A) : list A :=
  match l with
  | [] => []
  | x :: r => insert_by lt x (stable_sort lt r)
  end.

Definition py_sorted {A K} (lt : K -> K -> bool) (key : A -> K)
    (reverse : bool) (l : list A) : list A :=
  let by_key x y := lt (key x) (key y) in
  if reverse then rev (stable_sort by_key (rev l)) else stable_sort by_key l.

(** ** The evaluator's metrics and the provider *)

(** Modelled from the spec: the [Evaluator] class is not among the sources;
    its [metrics] dict holds [agent_kpis] (AgentId to int), [total_milestones]
    (int) and the float sequences [planning_score] and [communication_score].
    The provider reads each with [.get(key, default)]: a key that is missing
    is [None]. *)
Record Metrics : Type := {
  agent_kpis : option (dict Z);
  total_milestones : option Z;
  planning_score : option (list float);
  communication_score : option (list float)
}.

(** [metrics.get(key, default)]. *)
Definition metrics_get {A} (entry : option A) (default : A) : A :=
  match entry with Some v => v | None => default end.

Record RewardWeights : Type := {
  planning : float;
  communication : float;
  contribution : float
}.

Definition REWARD_WEIGHTS : RewardWeights :=
  {| planning := lit_0_4; communication := lit_0_3; contribution := lit_0_3 |}.

Record FeedbackProvider : Type := {
  task : string;
  agent_profiles : dict string;
  is_feedback : bool;
  evaluator_metrics : Metrics;
  llm : string;
  feedback_prompts : dict (dict string);
  individual_feedbacks : dict string;
  team_feedback : string;
  agent_rewards : dict float
}.

(** [__init__]: the three result stores start empty. *)
Definition init (task : string) (agent_profiles : dict string)
    (metrics : Metrics) (is_feedback : bool) (llm : string)
    (feedback_prompts : dict (dict string)) : FeedbackProvider :=
  {| task := task;
     agent_profiles := agent_profiles;
     is_feedback := is_feedback;
     evaluator_metrics := metrics;
     llm := llm;
     feedback_prompts := feedback_prompts;
     individual_feedbacks := empty;
     team_feedback := ""%string;
     agent_rewards := empty |}.

Definition with_agent_rewards (self : FeedbackProvider) (d : dict float)
    : FeedbackProvider :=
  {| task := task self;
     agent_profiles := agent_profiles self;
     is_feedback := is_feedback self;
     evaluator_metrics := evaluator_metrics self;
     llm := llm self;
     feedback_prompts := feedback_prompts self;
     individual_feedbacks := individual_feedbacks self;
     team_feedback := team_feedback self;
     agent_rewards := d |}.

(** [self.evaluator.metrics.get("agent_kpis", {})]. *)
Definition kpis_of (self : FeedbackProvider) : dict Z :=
  metrics_get (agent_kpis (evaluator_metrics self)) empty.

(** ** The state-and-exception monad of the methods

    A method takes [self] and gives back its outcome together with [self] as
    it has left it; an exception keeps the mutations made before it. *)

Definition M (A : Type) : Type := FeedbackProvider -> result A * FeedbackProvider.

Definition ret {A} (a : A) : M A := fun self => (Ok a, self).

Definition bind {A B} (c : M A) (k : A -> M B) : M B :=
  fun self =>
    match c self with
    | (Ok a, self') => k a self'
    | (Raise e, self') => (Raise e, self')
    end.

Notation "x <- c ;; k" := (bind c (fun x => k))
  (at level 61, c at next level, right associativity).
Notation "c ;; k" := (bind c (fun _ => k))
  (at level 61, right associativity).

(** Reading [self]; a read that may raise. *)
Definition read {A} (f : FeedbackProvider -> A) : M A :=
  fun self => (Ok (f self), self).

Definition try_read {A} (f : FeedbackProvider -> result A) : M A :=
  fun self => (f self, self).

(** [self.agent_rewards[agent_id] = agent_reward]. *)
Definition set_agent_reward (agent_id : string) (agent_reward : float) : M unit :=
  fun self =>
    (Ok tt, with_agent_rewards self (set (agent_rewards self) agent_id agent_reward)).

(** ** The methods *)

Definition _calculate_agent_contribution_ratio (self : FeedbackProvider)
    (agent_id : string) : result float :=
  let agent_kpis := kpis_of self in
  let agent_milestones := get_default agent_kpis agent_id 0 in
  let total_milestones :=
    metrics_get (total_milestones (evaluator_metrics self)) agent_milestones in
  if 0 <? total_milestones
  then py_int_truediv agent_milestones total_milestones
  else Ok lit_0_0.

(** [scores[-1] if scores else default]. *)
Definition latest_or (scores : list float) (default : float) : float :=
  match scores with
  | [] => default
  | _ :: _ => last scores default
  end.

Definition _get_latest_scores (self : FeedbackProvider) : float * float :=
  let planning_scores :=
    metrics_get (planning_score (evaluator_metrics self)) [] in
  let communication_scores :=
    metrics_get (communication_score (evaluator_metrics self)) [] in
  let latest_planning := latest_or planning_scores lit_3_0 in
  let latest_communication := latest_or communication_scores lit_3_0 in
  let latest_planning :=
    if eqb latest_planning minus_one then lit_0_0 else latest_planning in
  let latest_communication :=
    if eqb latest_communication minus_one then lit_0_0 else latest_communication in
  (latest_planning, latest_communication).

(** [1.0 / 5.0]: a float division by the non-zero literal [5.0]. *)
Definition score_normalize_factor : float := (lit_1_0 / lit_5_0)%pyfloat.

(** [latest * score_normalize_factor], the normalisation of a latest score. *)
Definition normalized (latest : float) : float :=
  (latest * score_normalize_factor)%pyfloat.

(** Steps 2 and 3 of the loop body: the weighted sum, then
    [max(0.0, min(1.0, agent_reward))]. *)
Definition agent_reward_of (latest_planning latest_communication
    contribution_ratio : float) : float :=
  let normalized_planning := normalized latest_planning in
  let normalized_communication := normalized latest_communication in
  let agent_reward :=
    (planning REWARD_WEIGHTS * normalized_planning
     + communication REWARD_WEIGHTS * normalized_communication
     + contribution REWARD_WEIGHTS * contribution_ratio)%pyfloat in
  py_max lit_0_0 (py_min lit_1_0 agent_reward).

(** The body of [for agent_id in self.agent_profiles]. *)
Fixpoint rewards_loop (latest_planning latest_communication : float)
    (kpis : dict Z) (agent_ids : list string) : M unit :=
  match agent_ids with
  | [] => ret tt
  | agent_id :: rest =>
      contribution_ratio <-
        (if mem kpis agent_id
         then try_read (fun self => _calculate_agent_contribution_ratio self agent_id)
         else ret lit_0_0) ;;
      set_agent_reward agent_id
        (agent_reward_of latest_planning latest_communication contribution_ratio) ;;
      rewards_loop latest_planning latest_communication kpis rest
  end.

Definition calculate_agent_rewards : M (dict float) :=
  scores <- read _get_latest_scores ;;
  kpis <- read kpis_of ;;
  agent_ids <- read (fun self => keys (agent_profiles self)) ;;
  rewards_loop (fst scores) (snd scores) kpis agent_ids ;;
  read agent_rewards.

(** The dict comprehension of [sorted_agent_contribution]. *)
Fixpoint agent_contribution (self : FeedbackProvider) (agent_ids : list string)
    (acc : dict float) : result (dict float) :=
  match agent_ids with
  | [] => Ok acc
  | agent_id :: rest =>
      match _calculate_agent_contribution_ratio self agent_id with
      | Ok ratio => agent_contribution self rest (set acc agent_id ratio)
      | Raise e => Raise e
      end
  end.

Definition sorted_agent_contribution (self : FeedbackProvider)
    : result (list (string * float)) :=
  match agent_contribution self (keys (kpis_of self)) empty with
  | Ok d => Ok (py_sorted ltb snd true (items d))
  | Raise e => Raise e
  end.

(** [generate_reward_explanation]: the prompt formatting and the completion
    service are collaborators outside the module. *)
Section RewardExplanation.

(** [prompt_template.format(planning_score=..., communication_score=...,
    contribution_ratio=..., agent_reward=...)]. *)
Variable str_format : string -> float -> float -> float -> float -> result string.
(** [model_prompting(llm_model=..., messages=[...], ...)[0].content]. *)
Variable model_prompting : string -> string -> result string.
(** [str(e)]. *)
Variable str_of_exn : exn -> string.

Definition error_msg (agent_id : string) : string :=
  ("Agent " ++ agent_id ++ " No or valid data")%string.

(** [d[k]]: [KeyError] on a missing key. *)
Definition subscript {V} (d : dict V) (k : string) : result V :=
  match get d k with Some v => Ok v | None => Raise KeyError end.

Definition reward_explanation_prompt (self : FeedbackProvider) : result string :=
  match subscript (feedback_prompts self) "reward_explanation"%string with
  | Ok entry => subscript entry "prompt"%string
  | Raise e => Raise e
  end.

Definition generate_reward_explanation (agent_id : string) : M string :=
  known <- read (fun self => mem (agent_rewards self) agent_id) ;;
  (if known then ret tt else (calculate_agent_rewards ;; ret tt)) ;;
  known <- read (fun self => mem (agent_rewards self) agent_id) ;;
  if negb known then ret (error_msg agent_id)
  else
    scores <- read _get_latest_scores ;;
    agent_reward <- try_read (fun self => subscript (agent_rewards self) agent_id) ;;
    contribution_ratio <-
      try_read (fun self => _calculate_agent_contribution_ratio self agent_id) ;;
    prompt_template <- try_read reward_explanation_prompt ;;
    filled_prompt <-
      try_read (fun _ => str_format prompt_template (fst scores) (snd scores)
                           contribution_ratio agent_reward) ;;
    llm_model <- read llm ;;
    match model_prompting llm_model filled_prompt with
    | Ok content => ret content
    | Raise e => ret ("Reward explanation generation failed：" ++ str_of_exn e)%string
    end.

End RewardExplanation.

(** ** Definitions used to state the properties *)

(** [clamp(x, lo, hi)] as the code computes it: [max(lo, min(hi, x))]. *)
Definition clamp (x lo hi : float) : float := py_max lo (py_min hi x).

(** A milestone count whose quotient cannot overflow the floats: in
    absolute value, below [2^1023] or at most [total_milestones]. *)
Definition count_fits (self : FeedbackProvider) (n : Z) : Prop :=
  Z.abs n < 2 ^ 1023 \/
  exists t, total_milestones (evaluator_metrics self) = Some t /\ Z.abs n <= t.

Definition counts_fit (self : FeedbackProvider) : Prop :=
  Forall (count_fits self) (values (kpis_of self)).

(** The snapshots of the data model: [total_milestones] is there, and every
    milestone count is a natural number that is not above it.  Their counts
    fit (lemma [data_model_counts_fit]). *)
Definition data_model (self : FeedbackProvider) : Prop :=
  exists t,
    total_milestones (evaluator_metrics self) = Some t /\
    Forall (fun n => 0 <= n <= t) (values (kpis_of self)).

(** The reward the loop stores for one agent, or the exception of its
    contribution ratio. *)
Definition reward_in_loop (self : FeedbackProvider)
    (latest_planning latest_communication : float) (kpis : dict Z)
    (agent_id : string) : result float :=
  match
    (if mem kpis agent_id
     then _calculate_agent_contribution_ratio self agent_id
     else Ok lit_0_0)
  with
  | Ok ratio => Ok (agent_reward_of latest_planning latest_communication ratio)
  | Raise e => Raise e
  end.

(** The loop of [calculate_agent_rewards] seen on the store alone. *)
Fixpoint rewards_store (reward : string -> result float)
    (agent_ids : list string) (store : dict float) : result unit * dict float :=
  match agent_ids with
  | [] => (Ok tt, store)
  | agent_id :: rest =>
      match reward agent_id with
      | Ok r => rewards_store reward rest (set store agent_id r)
      | Raise e => (Raise e, store)
      end
  end.

(** The outcome of the loop of [calculate_agent_rewards] on [self]: what it
    raises, if anything, and the store it leaves. *)
Definition store_after (self : FeedbackProvider) : result unit * dict float :=
  rewards_store
    (reward_in_loop self (fst (_get_latest_scores self)) (snd (_get_latest_scores self))
       (kpis_of self))
    (keys (agent_profiles self)) (agent_rewards self).

(** The ratio of an agent, [0.0] standing for an exception. *)
Definition ratio_or_zero (self : FeedbackProvider) (agent_id : string) : float :=
  match _calculate_agent_contribution_ratio self agent_id with
  | Ok ratio => ratio
  | Raise _ => lit_0_0
  end.

(** The agent's ratio compares equal ([==]) to [r]. *)
Definition ratio_is (self : FeedbackProvider) (r : float) (agent_id : string) : bool :=
  eqb (ratio_or_zero self agent_id) r.

(** [ratio(p) >= ratio(q)]: the order of a descending ranking. *)
Definition ratio_ge (p q : string * float) : Prop := leb (snd q) (snd p) = true.

(** The stored rewards name agents of the roster only. *)
Definition store_within_roster (self : FeedbackProvider) : Prop :=
  forall k, In k (keys (agent_rewards self)) -> In k (keys (agent_profiles self)).

(** Every stored reward is within [0.0, 1.0]. *)
Definition rewards_in_range (store : dict float) : Prop :=
  Forall (fun r => in_unit_interval r = true) (values store).

(** ** Concrete snapshots *)

Definition lit_4_0 : float := Eval vm_compute in round_div 4 1.
Definition lit_0_75 : float := Eval vm_compute in round_div 75 100.
Definition lit_0_25 : float := Eval vm_compute in round_div 25 100.
Definition lit_0_545 : float := Eval vm_compute in round_div 545 1000.
Definition lit_0_395 : float := Eval vm_compute in round_div 395 1000.
(** [0.39500000000000007], the float next above [0.395]. *)
Definition lit_0_39500000000000007 : float :=
  Eval vm_compute in round_div 39500000000000007 100000000000000000.
(** [0.6000000000000001], the float next above [0.6]. *)
Definition lit_0_6000000000000001 : float :=
  Eval vm_compute in round_div 6000000000000001 10000000000000000.
(** [0.2], the value of [1.0 / 5.0]. *)
Definition lit_0_2 : float := Eval vm_compute in round_div 2 10.

Definition provider_of (agent_profiles : dict string) (metrics : Metrics)
    : FeedbackProvider :=
  init "task" agent_profiles metrics true "gpt-3.5-turbo" empty.

(** Roster [{A, B}], milestones [{A: 3, B: 1}] out of [4], planning [[4.0]],
    communication [[-1]]. *)
Definition scenario_metrics : Metrics :=
  {| agent_kpis := Some [("A"%string, 3); ("B"%string, 1)];
     total_milestones := Some 4;
     planning_score := Some [lit_4_0];
     communication_score := Some [minus_one] |}.

Definition scenario_roster : dict string :=
  [("A"%string, "planner"%string); ("B"%string, "coder"%string)].

Definition scenario : FeedbackProvider := provider_of scenario_roster scenario_metrics.

(** The same snapshot without its [total_milestones] entry. *)
Definition scenario_without_total : FeedbackProvider :=
  provider_of scenario_roster
    {| agent_kpis := Some [("A"%string, 3); ("B"%string, 1)];
       total_milestones := None;
       planning_score := Some [lit_4_0];
       communication_score := Some [minus_one] |}.

(** A milestone count of [2^1024], beyond every float and, over a total of
    [1], outside the data model. *)
Definition huge_count : FeedbackProvider :=
  provider_of [("A"%string, "planner"%string)]
    {| agent_kpis := Some [("A"%string, 2 ^ 1024)];
       total_milestones := Some 1;
       planning_score := Some [lit_4_0];
       communication_score := Some [lit_4_0] |}.

(** No score yet: both sequences empty. *)
Definition no_scores : FeedbackProvider :=
  provider_of scenario_roster
    {| agent_kpis := Some [("A"%string, 3); ("B"%string, 1)];
       total_milestones := Some 4;
       planning_score := Some [];
       communication_score := Some [] |}.

(** An empty roster beside a snapshot that counts a milestone for [A]. *)
Definition empty_roster : FeedbackProvider :=
  provider_of empty
    {| agent_kpis := Some [("A"%string, 1)];
       total_milestones := Some 1;
       planning_score := Some [lit_4_0];
       communication_score := Some [lit_4_0] |}.

(** [total_milestones = -1]. *)
Definition negative_total : FeedbackProvider :=
  provider_of scenario_roster
    {| agent_kpis := Some [("A"%string, 3); ("B"%string, 1)];
       total_milestones := Some (-1);
       planning_score := Some [lit_4_0];
       communication_score := Some [minus_one] |}.

(** ** Text: [str] of an index, [format(ratio, '.2%')] and [join] *)

(** [str(n)] for an [int] that is not negative. *)
Definition str_of_nonneg (n : Z) : string :=
  NilZero.string_of_uint (N.to_uint (Z.to_N n)).

(** The value [m * 2^e] counted in hundredths and rounded to the nearest
    integer, ties to even: the digits that [format(x, '.2f')] prints. *)
Definition hundredths (m : positive) (e : Z) : Z :=
  match e with
  | Zneg p =>
      let d := 2 ^ Zpos p in
      let q := (Zpos m * 100) / d in
      let r := (Zpos m * 100) mod d in
      match 2 * r ?= d with
      | Lt => q
      | Gt => q + 1
      | Eq => if Z.even q then q else q + 1
      end
  | _ => Zpos m * 100 * 2 ^ e
  end.

Definition two_digits (n : Z) : string :=
  if n <? 10 then ("0" ++ str_of_nonneg n)%string else str_of_nonneg n.

(** [format(x, '.2f')]. *)
Definition format_fixed_2 (x : float) : string :=
  match x with
  | S754_nan => "nan"%string
  | S754_infinity s => if s then "-inf"%string else "inf"%string
  | S754_zero s => ((if s then "-" else "") ++ "0.00")%string
  | S754_finite s m e =>
      let h := hundredths m e in
      ((if s then "-" else "") ++ str_of_nonneg (h / 100) ++ "."
       ++ two_digits (h mod 100))%string
  end.

Definition lit_100_0 : float := Eval vm_compute in round_div 100 1.

(** [format(x, '.2%')]: the float product [x * 100], in fixed notation with
    two decimals, then a percent sign. *)
Definition format_percent_2 (x : float) : string :=
  (format_fixed_2 (x * lit_100_0)%pyfloat ++ "%")%string.

Definition newline : string := String (ascii_of_nat 10) EmptyString.

(** [[f"{i + 1}. {agent_id}: {ratio:.2%}" for i, (agent_id, ratio) in
    enumerate(sorted_contribution)]], from index [i] on. *)
Fixpoint ranking_lines (i : Z) (sorted_contribution : list (string * float))
    : list string :=
  match sorted_contribution with
  | [] => []
  | (agent_id, ratio) :: rest =>
      (str_of_nonneg (i + 1) ++ ". " ++ agent_id ++ ": " ++ format_percent_2 ratio)%string
      :: ranking_lines (i + 1) rest
  end.

Definition no_contribution_data : string := "无有效贡献数据".

(** ["\n".join([...]) or "无有效贡献数据"]: the empty string is false. *)
Definition contribution_ranking (sorted_contribution : list (string * float)) : string :=
  match String.concat newline (ranking_lines 0 sorted_contribution) with
  | EmptyString => no_contribution_data
  | joined => joined
  end.

(** ** The methods that call the completion service *)

(** [self.feedback_prompts[name]["prompt"]]. *)
Definition prompt_of (name : string) (self : FeedbackProvider) : result string :=
  match subscript (feedback_prompts self) name with
  | Ok entry => subscript entry "prompt"%string
  | Raise e => Raise e
  end.

Definition with_individual_feedbacks (self : FeedbackProvider) (d : dict string)
    : FeedbackProvider :=
  {| task := task self;
     agent_profiles := agent_profiles self;
     is_feedback := is_feedback self;
     evaluator_metrics := evaluator_metrics self;
     llm := llm self;
     feedback_prompts := feedback_prompts self;
     individual_feedbacks := d;
     team_feedback := team_feedback self;
     agent_rewards := agent_rewards self |}.

Definition with_team_feedback (self : FeedbackProvider) (text : string)
    : FeedbackProvider :=
  {| task := task self;
     agent_profiles := agent_profiles self;
     is_feedback := is_feedback self;
     evaluator_metrics := evaluator_metrics self;
     llm := llm self;
     feedback_prompts := feedback_prompts self;
     individual_feedbacks := individual_feedbacks self;
     team_feedback := text;
     agent_rewards := agent_rewards self |}.

(** [self.individual_feedbacks[agent_id] = text]. *)
Definition set_individual_feedback (agent_id text : string) : M unit :=
  fun self =>
    (Ok tt,
     with_individual_feedbacks self (set (individual_feedbacks self) agent_id text)).

(** [self.team_feedback = text]. *)
Definition set_team_feedback (text : string) : M unit :=
  fun self => (Ok tt, with_team_feedback self text).

(** What the methods take from outside the module.  The completion service
    has a state of its own, [World]: it may answer a prompt once and fail on
    it the next time.  [iteration_task_data] is only passed on to the
    templates, so its type is left open. *)
Record Collaborators : Type := {
  World : Type;
  TaskData : Type;
  (** [model_prompting(llm_model=llm_model, messages=[{"role": "user",
      "content": filled_prompt}], return_num=1, max_token_num=max_token_num,
      temperature=0.1, top_p=None, stream=None)[0].content], with the check
      that the content is a [str]; [Raise] is any exception of the call or
      of the check. *)
  model_prompting : string -> string -> Z -> World -> result string * World;
  (** [prompt_template.format(task=..., agent_id=..., agent_profile=...,
      planning_score=..., communication_score=..., iteration_task_data=...,
      contribution_ratio=..., agent_reward=..., agent_milestones=...,
      total_milestones=...)]. *)
  format_individual :
    string -> string -> string -> string -> float -> float -> TaskData ->
    float -> float -> Z -> Z -> result string;
  (** [prompt_template.format(task=..., planning_score=...,
      communication_score=..., iteration_task_data=..., total_milestones=...,
      agent_contribution_ranking=...)]. *)
  format_team :
    string -> string -> float -> float -> TaskData -> Z -> string -> result string;
  (** [prompt_template.format(planning_score=..., communication_score=...,
      contribution_ratio=..., agent_reward=...)]. *)
  format_explanation : string -> float -> float -> float -> float -> result string;
  (** [str(e)]. *)
  str_of_exn : exn -> string
}.

(** The packages that [get_full_feedback_package] builds, with the keys of
    the dict literals as fields.  A field holds the value its expression has
    when the package is returned. *)
Module MetricsSummary.

Record t : Type := {
  latest_planning_score : float;
  latest_communication_score : float;
  total_milestones : Z;
  agent_kpis : option (dict Z);
  sorted_agent_contribution : list (string * float)
}.

End MetricsSummary.

Module FullFeedback.

Record t : Type := {
  team_feedback : string;
  individual_feedbacks : dict string;
  agent_rewards : dict float;
  reward_weights : RewardWeights;
  metrics_summary : MetricsSummary.t;
  agent_reward_explanations : dict string
}.

End FullFeedback.

Section Feedback.

Variable C : Collaborators.

(** A method that may call the service: the provider and the state of the
    service go in, and come out beside the outcome. *)
Definition IO (A : Type) : Type :=
  FeedbackProvider * World C -> result A * (FeedbackProvider * World C).

Definition io_ret {A} (a : A) : IO A := fun s => (Ok a, s).

Definition io_bind {A B} (c : IO A) (k : A -> IO B) : IO B :=
  fun s =>
    match c s with
    | (Ok a, s') => k a s'
    | (Raise e, s') => (Raise e, s')
    end.

(** A method of the provider alone leaves the service as it is. *)
Definition lift {A} (c : M A) : IO A :=
  fun s => let '(r, self') := c (fst s) in (r, (self', snd s)).

(** [try: model_prompting(...)[0].content  except Exception as e: ...]: the
    call inside its handler; the exception is a value for the handler. *)
Definition try_model_prompting (llm_model filled_prompt : string)
    (max_token_num : Z) : IO (result string) :=
  fun s =>
    let '(outcome, w') := model_prompting C llm_model filled_prompt max_token_num (snd s) in
    (Ok outcome, (fst s, w')).

(** What is kept of the outcome of the call: the content, or the handler's
    text, [f"{prefix}{str(e)}"]. *)
Definition content_or (prefix : string) (outcome : result string) : string :=
  match outcome with
  | Ok content => content
  | Raise e => (prefix ++ str_of_exn C e)%string
  end.

Declare Scope io_scope.
Delimit Scope io_scope with io.
Notation "x <- c ;; k" := (io_bind c (fun x => k))
  (at level 61, c at next level, right associativity) : io_scope.
Notation "c ;; k" := (io_bind c (fun _ => k))
  (at level 61, right associativity) : io_scope.

(** The body of [for agent_id, agent_reward in self.agent_rewards.items()]. *)
Fixpoint individual_loop (iteration_task_data : TaskData C)
    (latest_planning latest_communication : float) (total_milestones : Z)
    (prompt_template : string) (rewards : list (string * float)) : IO unit :=
  match rewards with
  | [] => io_ret tt
  | (agent_id, agent_reward) :: rest =>
      (agent_profile <-
         lift (read (fun self =>
                 get_default (agent_profiles self) agent_id "未配置角色简介"%string)) ;;
       agent_milestones <-
         lift (read (fun self => get_default (kpis_of self) agent_id 0)) ;;
       contribution_ratio <-
         lift (try_read (fun self => _calculate_agent_contribution_ratio self agent_id)) ;;
       filled_prompt <-
         lift (try_read (fun self =>
                 format_individual C prompt_template (task self) agent_id agent_profile
                   latest_planning latest_communication iteration_task_data
                   contribution_ratio agent_reward agent_milestones total_milestones)) ;;
       llm_model <- lift (read llm) ;;
       outcome <- try_model_prompting llm_model filled_prompt 1024 ;;
       lift (set_individual_feedback agent_id
               (content_or "feedbackGenerationFailed:" outcome)) ;;
       individual_loop iteration_task_data latest_planning latest_communication
         total_milestones prompt_template rest)%io
  end.

Definition generate_individual_feedback (iteration_task_data : TaskData C)
    : IO (dict string) :=
  (rewards <- lift (read agent_rewards) ;;
   match rewards with
   | [] => lift calculate_agent_rewards ;; io_ret tt
   | _ :: _ => io_ret tt
   end ;;
   scores <- lift (read _get_latest_scores) ;;
   total_milestones <-
     lift (read (fun self => metrics_get (total_milestones (evaluator_metrics self)) 0)) ;;
   prompt_template <- lift (try_read (prompt_of "agent_individual_feedback")) ;;
   rewards <- lift (read (fun self => items (agent_rewards self))) ;;
   individual_loop iteration_task_data (fst scores) (snd scores) total_milestones
     prompt_template rewards ;;
   lift (read individual_feedbacks))%io.

Definition generate_team_feedback (iteration_task_data : TaskData C) : IO string :=
  (scores <- lift (read _get_latest_scores) ;;
   total_milestones <-
     lift (read (fun self => metrics_get (total_milestones (evaluator_metrics self)) 0)) ;;
   sorted_contribution <- lift (try_read sorted_agent_contribution) ;;
   prompt_template <- lift (try_read (prompt_of "team_collective_feedback")) ;;
   filled_prompt <-
     lift (try_read (fun self =>
             format_team C prompt_template (task self) (fst scores) (snd scores)
               iteration_task_data total_milestones
               (contribution_ranking sorted_contribution))) ;;
   llm_model <- lift (read llm) ;;
   outcome <- try_model_prompting llm_model filled_prompt 1024 ;;
   lift (set_team_feedback (content_or "teamFeedbackGenerationFailed：" outcome)) ;;
   lift (read team_feedback))%io.

(** [generate_reward_explanation] with the service as it is called: the
    method of the section above, the state of the service threaded through
    its one call (lemma [generate_reward_explanation_io_agrees]). *)
Definition generate_reward_explanation_io (agent_id : string) : IO string :=
  (known <- lift (read (fun self => mem (agent_rewards self) agent_id)) ;;
   (if known then io_ret tt else (lift calculate_agent_rewards ;; io_ret tt)) ;;
   known <- lift (read (fun self => mem (agent_rewards self) agent_id)) ;;
   if negb known then io_ret (error_msg agent_id)
   else
     scores <- lift (read _get_latest_scores) ;;
     agent_reward <- lift (try_read (fun self => subscript (agent_rewards self) agent_id)) ;;
     contribution_ratio <-
       lift (try_read (fun self => _calculate_agent_contribution_ratio self agent_id)) ;;
     prompt_template <- lift (try_read (prompt_of "reward_explanation")) ;;
     filled_prompt <-
       lift (try_read (fun _ =>
               format_explanation C prompt_template (fst scores) (snd scores)
                 contribution_ratio agent_reward)) ;;
     llm_model <- lift (read llm) ;;
     outcome <- try_model_prompting llm_model filled_prompt 512 ;;
     io_ret (content_or "Reward explanation generation failed：" outcome))%io.

(** [{agent_id: self.generate_reward_explanation(agent_id) for agent_id in
    self.agent_rewards}]: the keys are those the store has when the
    comprehension starts; a call for a key of the store leaves the store as
    it is (lemma [generate_reward_explanation_io_frame]). *)
Fixpoint explanations_loop (agent_ids : list string) (acc : dict string)
    : IO (dict string) :=
  match agent_ids with
  | [] => io_ret acc
  | agent_id :: rest =>
      (explanation <- generate_reward_explanation_io agent_id ;;
       explanations_loop rest (set acc agent_id explanation))%io
  end.

Definition get_full_feedback_package (iteration_task_data : TaskData C)
    : IO (option FullFeedback.t) :=
  (enabled <- lift (read is_feedback) ;;
   if negb enabled then io_ret None
   else
     generate_individual_feedback iteration_task_data ;;
     generate_team_feedback iteration_task_data ;;
     scores <- lift (read _get_latest_scores) ;;
     team <- lift (read team_feedback) ;;
     individual <- lift (read individual_feedbacks) ;;
     rewards <- lift (read agent_rewards) ;;
     total <-
       lift (read (fun self => metrics_get (total_milestones (evaluator_metrics self)) 0)) ;;
     kpis <- lift (read (fun self => agent_kpis (evaluator_metrics self))) ;;
     sorted_contribution <- lift (try_read sorted_agent_contribution) ;;
     explanations <- explanations_loop (keys rewards) empty ;;
     io_ret (Some
       {| FullFeedback.team_feedback := team;
          FullFeedback.individual_feedbacks := individual;
          FullFeedback.agent_rewards := rewards;
          FullFeedback.reward_weights := REWARD_WEIGHTS;
          FullFeedback.metrics_summary :=
            {| MetricsSummary.latest_planning_score := fst scores;
               MetricsSummary.latest_communication_score := snd scores;
               MetricsSummary.total_milestones := total;
               MetricsSummary.agent_kpis := kpis;
               MetricsSummary.sorted_agent_contribution := sorted_contribution |};
          FullFeedback.agent_reward_explanations := explanations |}))%io.

End Feedback.

(** ** The compression loop of [model_prompting]

    A [str] is a sequence of characters; [len] and the slice count
    characters. *)
Section Compression.

Variable char : Type.
(** The character ['.']. *)
Variable dot : char.

Record Message : Type := {
  role : list char;
  content : list char
}.

Definition max_length : nat := Z.to_nat 350000.

(** [msg["content"][:max_length] + '...'] when [len(msg["content"]) >
    max_length]. *)
Definition compress (text : list char) : list char :=
  if (max_length <? List.length text)%nat
  then firstn max_length text ++ [dot; dot; dot]
  else text.

(** [for msg in messages: ...]: every message of the caller's list is
    rewritten in place. *)
Definition compress_messages (messages : list Message) : list Message :=
  map (fun msg => {| role := role msg; content := compress (content msg) |}) messages.

End Compression.

(** ** Definitions used to state the properties of the feedback methods *)

(** The template of [name] is there, and filling it raises nothing. *)
Definition individual_template_fills (C : Collaborators) (self : FeedbackProvider)
    : Prop :=
  exists t,
    prompt_of "agent_individual_feedback" self = Ok t /\
    forall task agent_id agent_profile lp lc data ratio reward milestones total,
      is_ok (format_individual C t task agent_id agent_profile lp lc data ratio
               reward milestones total) = true.

Definition team_template_fills (C : Collaborators) (self : FeedbackProvider) : Prop :=
  exists t,
    prompt_of "team_collective_feedback" self = Ok t /\
    forall task lp lc data total ranking,
      is_ok (format_team C t task lp lc data total ranking) = true.

Definition explanation_template_fills (C : Collaborators) (self : FeedbackProvider)
    : Prop :=
  exists t,
    prompt_of "reward_explanation" self = Ok t /\
    forall lp lc ratio reward, is_ok (format_explanation C t lp lc ratio reward) = true.

(** [text] is what is kept of a call of the service for the model of
    [self] with [max_token_num]: the content of its answer, or [prefix]
    before the text of its exception. *)
Definition answered (C : Collaborators) (self : FeedbackProvider)
    (max_token_num : Z) (prefix text : string) : Prop :=
  exists filled_prompt w,
    text = content_or C prefix
             (fst (model_prompting C (llm self) filled_prompt max_token_num w)).

(** The collaborators [C] with a count of the calls of the service beside
    its state. *)
Definition counting (C : Collaborators) : Collaborators :=
  {| World := World C * nat;
     TaskData := TaskData C;
     model_prompting := fun llm_model filled_prompt max_token_num w =>
       (fst (model_prompting C llm_model filled_prompt max_token_num (fst w)),
        (snd (model_prompting C llm_model filled_prompt max_token_num (fst w)),
         S (snd w)));
     format_individual := format_individual C;
     format_team := format_team C;
     format_explanation := format_explanation C;
     str_of_exn := str_of_exn C |}.

(** The inputs of the methods: all of [self] but the three result stores. *)
Definition same_inputs (self self' : FeedbackProvider) : Prop :=
  task self' = task self /\
  agent_profiles self' = agent_profiles self /\
  is_feedback self' = is_feedback self /\
  evaluator_metrics self' = evaluator_metrics self /\
  llm self' = llm self /\
  feedback_prompts self' = feedback_prompts self.

(** The store that [generate_individual_feedback] goes through: the stored
    rewards, computed first when there is none. *)
Definition rewards_for_feedback (self : FeedbackProvider) : dict float :=
  match agent_rewards self with
  | [] => snd (store_after self)
  | _ :: _ => agent_rewards self
  end.

(** ** More concrete snapshots *)

(** The scenario with a planning score that is not a number. *)
Definition nan_planning : FeedbackProvider :=
  provider_of scenario_roster
    {| agent_kpis := Some [("A"%string, 3); ("B"%string, 1)];
       total_milestones := Some 4;
       planning_score := Some [S754_nan];
       communication_score := Some [lit_4_0] |}.

(** A service that is down: every call raises. *)
Definition offline : Collaborators :=
  {| World := unit;
     TaskData := unit;
     model_prompting := fun _ _ _ w => (Raise (ExternalError "service unavailable"), w);
     format_individual := fun t _ agent_id _ _ _ _ _ _ _ _ => Ok (t ++ agent_id)%string;
     format_team := fun t _ _ _ _ _ ranking => Ok (t ++ ranking)%string;
     format_explanation := fun t _ _ _ _ => Ok t;
     str_of_exn := fun e =>
       match e with
       | ExternalError msg => msg
       | ZeroDivisionError => "division by zero"%string
       | OverflowError => "integer division result too large for a float"%string
       | KeyError => "KeyError"%string
       end |}.

(** A service that answers with the prompt it is sent and counts its
    calls. *)
Definition echo : Collaborators :=
  {| World := nat;
     TaskData := unit;
     model_prompting := fun _ filled_prompt _ calls => (Ok filled_prompt, S calls);
     format_individual := fun t _ agent_id _ _ _ _ _ _ _ _ => Ok (t ++ agent_id)%string;
     format_team := fun t _ _ _ _ _ ranking => Ok (t ++ ranking)%string;
     format_explanation := fun t _ _ _ _ => Ok t;
     str_of_exn := fun _ => ""%string |}.

Definition scenario_prompts : dict (dict string) :=
  [("agent_individual_feedback"%string, [("prompt"%string, "individual: "%string)]);
   ("team_collective_feedback"%string, [("prompt"%string, "team: "%string)]);
   ("reward_explanation"%string, [("prompt"%string, "explain"%string)])].

(** The scenario with its three templates. *)
Definition scenario_with_prompts : FeedbackProvider :=
  init "task" scenario_roster scenario_metrics true "gpt-3.5-turbo" scenario_prompts.

(** The scenario without the template of the explanations. *)
Definition scenario_without_explanation : FeedbackProvider :=
  init "task" scenario_roster scenario_metrics true "gpt-3.5-turbo"
    [("agent_individual_feedback"%string, [("prompt"%string, "individual: "%string)]);
     ("team_collective_feedback"%string, [("prompt"%string, "team: "%string)])].

(** The scenario with its templates and the feedback switched off. *)
Definition scenario_disabled : FeedbackProvider :=
  init "task" scenario_roster scenario_metrics false "gpt-3.5-turbo" scenario_prompts.

(** The scenario holding a reward for [A] alone, from an earlier cycle. *)
Definition scenario_stale : FeedbackProvider :=
  with_agent_rewards scenario_with_prompts [("A"%string, lit_0_0)].

(** ** The literals

    Each literal has the bits that [float.hex] prints for it: [0.4] is
    [0x1.999999999999ap-2], [0.3] is [0x1.3333333333333p-2], [0.6] is
    [0x1.3333333333333p-1], [0.6000000000000001] is [0x1.3333333333334p-1],
    [0.2] is [0x1.999999999999ap-3]. *)

Lemma literal_bits :
  lit_0_4 = S754_finite false 0x1999999999999a (-54) /\
  lit_0_3 = S754_finite false 0x13333333333333 (-54) /\
  lit_0_6 = S754_finite false 0x13333333333333 (-53) /\
  lit_0_6000000000000001 = S754_finite false 0x13333333333334 (-53) /\
  lit_0_2 = S754_finite false 0x1999999999999a (-55) /\
  lit_1_0 = S754_finite false 0x10000000000000 (-52) /\
  lit_3_0 = S754_finite false 0x18000000000000 (-51) /\
  lit_5_0 = S754_finite false 0x14000000000000 (-50) /\
  minus_one = S754_finite true 0x10000000000000 (-52).
Proof. repeat split. Qed.

(** ** Order facts on floats *)

Lemma compare_cont_Eq (m1 m2 : positive) : Pos.compare_cont Eq m1 m2 = (m1 ?= m2)%positive.
Proof. reflexivity. Qed.

Ltac float_cases :=
  repeat match goal with
  | x : float |- _ => destruct x as [[]|[]| |[] ? ?]
  | x : spec_float |- _ => destruct x as [[]|[]| |[] ? ?]
  end.

Ltac order_cases :=
  repeat match goal with
  | |- context [Z.compare ?a ?b] => destruct (Z.compare_spec a b)
  | H : context [Z.compare ?a ?b] |- _ => destruct (Z.compare_spec a b)
  | |- context [Pos.compare ?a ?b] => destruct (Pos.compare_spec a b)
  | H : context [Pos.compare ?a ?b] |- _ => destruct (Pos.compare_spec a b)
  end.

Ltac float_order :=
  unfold ltb, leb, eqb, SFltb, SFleb, SFeqb, SFcompare in *;
  float_cases; simpl in *; try congruence;
  rewrite ?compare_cont_Eq in *;
  order_cases; simpl in *; subst; try congruence; try lia.

Lemma ltb_leb (x y : float) : ltb x y = true -> leb x y = true.
Proof. unfold ltb, leb, SFltb, SFleb. destruct (SFcompare x y) as [[]|]; congruence. Qed.

Lemma not_ltb_leb (x y : float) :
  is_nan x = false -> is_nan y = false -> ltb y x = false -> leb x y = true.
Proof. intros Hx Hy H. float_order. Qed.

Lemma leb_trans (x y z : float) :
  leb x y = true -> leb y z = true -> leb x z = true.
Proof. intros H1 H2. float_order. Qed.

Lemma leb_refl (x : float) : is_nan x = false -> leb x x = true.
Proof. intros H. float_order. Qed.

Lemma leb_antisym (x y : float) : leb x y = true -> leb y x = true -> eqb x y = true.
Proof. intros H1 H2. float_order. Qed.

Lemma ltb_eqb_class (x y r : float) :
  eqb x r = true -> ltb y x = true -> eqb y r = false.
Proof. intros H1 H2. float_order. Qed.

Lemma clamp_in_unit_interval (x : float) :
  in_unit_interval (py_max lit_0_0 (py_min lit_1_0 x)) = true.
Proof.
  unfold in_unit_interval, py_max, py_min.
  destruct (ltb x lit_1_0) eqn:Hhi.
  - destruct (ltb lit_0_0 x) eqn:Hlo.
    + now rewrite (ltb_leb _ _ Hlo), (ltb_leb _ _ Hhi).
    + reflexivity.
  - reflexivity.
Qed.

Lemma agent_reward_in_unit_interval (lp lc cr : float) :
  in_unit_interval (agent_reward_of lp lc cr) = true.
Proof. apply clamp_in_unit_interval. Qed.

(** ** The stable sort *)

Section StableSort.

Context {A : Type}.
Variable lt : A -> A -> bool.

Lemma insert_by_perm (x : A) (l : list A) : Permutation (insert_by lt x l) (x :: l).
Proof.
  induction l as [|y r IH]; simpl.
  - reflexivity.
  - destruct (lt y x).
    + rewrite IH. apply perm_swap.
    + reflexivity.
Qed.

Lemma stable_sort_perm (l : list A) : Permutation (stable_sort lt l) l.
Proof.
  induction l as [|x r IH]; simpl.
  - reflexivity.
  - rewrite insert_by_perm. now apply perm_skip.
Qed.

(** Inserting keeps a list sorted for any transitive relation [le] that
    holds where [lt] does and, on the elements the order compares
    ([comparable]), where the converse of [lt] fails. *)
Variable le : A -> A -> Prop.
Variable comparable : A -> Prop.
Hypothesis lt_le : forall x y, lt x y = true -> le x y.
Hypothesis not_lt_le :
  forall x y, comparable x -> comparable y -> lt y x = false -> le x y.
Hypothesis le_trans : forall x y z, le x y -> le y z -> le x z.

Lemma insert_by_sorted (x : A) (l : list A) :
  comparable x -> Forall comparable l ->
  StronglySorted le l -> StronglySorted le (insert_by lt x l).
Proof.
  intros Hx Hl Hs. induction Hs as [|y r Hr IH Hy]; simpl.
  - repeat constructor.
  - inversion Hl as [|? ? Hcy Hcr]; subst.
    destruct (lt y x) eqn:E.
    + constructor; [now apply IH|].
      apply (Permutation_Forall (Permutation_sym (insert_by_perm x r))).
      constructor; auto.
    + assert (le x y) by now apply not_lt_le.
      constructor.
      * now constructor.
      * constructor; [assumption|].
        eapply Forall_impl; [|exact Hy]. intros z Hz. eapply le_trans; eauto.
Qed.

Lemma stable_sort_sorted (l : list A) :
  Forall comparable l -> StronglySorted le (stable_sort lt l).
Proof.
  induction 1 as [|x r Hx Hr IH]; simpl.
  - constructor.
  - apply insert_by_sorted; auto.
    apply (Permutation_Forall (Permutation_sym (stable_sort_perm r))). exact Hr.
Qed.

End StableSort.

Section Stability.

Context {A : Type}.
Variable lt : A -> A -> bool.
(** A class of elements that the order does not tell apart: nothing
    strictly below a member is a member. *)
Variable P : A -> bool.
Hypothesis below_class : forall x y, P x = true -> lt y x = true -> P y = false.

Lemma insert_by_filter (x : A) (l : list A) :
  filter P (insert_by lt x l) = filter P (x :: l).
Proof.
  induction l as [|y r IH]; simpl.
  - reflexivity.
  - destruct (lt y x) eqn:E; simpl.
    + rewrite IH. simpl.
      destruct (P x) eqn:Px.
      * now rewrite (below_class x y Px E).
      * reflexivity.
    + reflexivity.
Qed.

Lemma stable_sort_filter (l : list A) : filter P (stable_sort lt l) = filter P l.
Proof.
  induction l as [|x r IH]; simpl.
  - reflexivity.
  - rewrite insert_by_filter. simpl. now rewrite IH.
Qed.

End Stability.

Lemma StronglySorted_snoc {A} (R : A -> A -> Prop) (l : list A) (x : A) :
  StronglySorted R l -> Forall (fun y => R y x) l -> StronglySorted R (l ++ [x]).
Proof.
  induction 1 as [|y r Hr IH Hy]; intros Hx; simpl.
  - repeat constructor.
  - inversion Hx; subst. constructor.
    + now apply IH.
    + apply Forall_app. split; [exact Hy|]. now constructor.
Qed.

Lemma StronglySorted_rev {A} (R : A -> A -> Prop) (l : list A) :
  StronglySorted R l -> StronglySorted (fun x y => R y x) (rev l).
Proof.
  induction 1 as [|y r Hr IH Hy]; simpl.
  - constructor.
  - apply StronglySorted_snoc; [exact IH|].
    apply Forall_rev. exact Hy.
Qed.

(** ** Rounding: the mantissa through [shr] *)

Lemma shr_record_of_loc_m (m : Z) (l : location) : shr_m (shr_record_of_loc m l) = m.
Proof. now destruct l as [|[]]. Qed.

Lemma shr_1_m (mrs : shr_record) :
  0 <= shr_m mrs -> shr_m (shr_1 mrs) = shr_m mrs / 2.
Proof.
  destruct mrs as [m r s]; simpl. intros Hm.
  rewrite <- Z.div2_div.
  destruct m as [|[p|p|]|p]; try reflexivity; lia.
Qed.

Lemma pow2_pos (n : Z) : 0 <= n -> 0 < 2 ^ n.
Proof. intros. apply Z.pow_pos_nonneg; lia. Qed.

Lemma iter_shr_1_m (p : positive) (mrs : shr_record) :
  0 <= shr_m mrs -> shr_m (iter_pos shr_1 p mrs) = shr_m mrs / 2 ^ Zpos p.
Proof.
  revert mrs. induction p as [p IH|p IH|]; intros mrs Hm; simpl iter_pos.
  - assert (H1 : 0 <= shr_m (shr_1 mrs)).
    { rewrite shr_1_m by assumption. apply Z.div_pos; lia. }
    assert (H2 : 0 <= shr_m (iter_pos shr_1 p (shr_1 mrs))).
    { rewrite IH by assumption. apply Z.div_pos; [lia|]. apply pow2_pos; lia. }
    pose proof (pow2_pos (Zpos p) ltac:(lia)) as Hp.
    rewrite IH, IH, shr_1_m by assumption.
    rewrite !Z.div_div by lia.
    f_equal. replace (Zpos p~1) with (2 * Zpos p + 1) by lia.
    rewrite Z.pow_add_r, Z.pow_twice_r by lia.
    change (2 ^ 1) with 2. ring.
  - assert (H2 : 0 <= shr_m (iter_pos shr_1 p mrs)).
    { rewrite IH by assumption. apply Z.div_pos; [lia|]. apply pow2_pos; lia. }
    pose proof (pow2_pos (Zpos p) ltac:(lia)) as Hp.
    rewrite IH, IH by assumption.
    rewrite !Z.div_div by lia.
    f_equal. replace (Zpos p~0) with (2 * Zpos p) by lia.
    now rewrite Z.pow_twice_r.
  - now rewrite shr_1_m.
Qed.

(** What [shr_fexp] returns: the exponent is raised to [fexp] of the
    magnitude when that is above it, and the mantissa shifted to match. *)
Lemma shr_fexp_spec (m e : Z) (l : location) :
  0 <= m ->
  let n := fexp prec emax (Zdigits2 m + e) - e in
  let '(mrs, e') := shr_fexp prec emax m e l in
  (0 < n -> shr_m mrs = m / 2 ^ n /\ e' = e + n) /\
  (n <= 0 -> shr_m mrs = m /\ e' = e).
Proof.
  intros Hm n. unfold shr_fexp, shr. fold n.
  destruct n as [|p|p] eqn:En.
  - rewrite shr_record_of_loc_m. split; [lia|auto].
  - split; [intros _|lia].
    rewrite iter_shr_1_m by (rewrite shr_record_of_loc_m; exact Hm).
    now rewrite shr_record_of_loc_m.
  - rewrite shr_record_of_loc_m. split; [lia|auto].
Qed.

Lemma round_nearest_even_bounds (m : Z) (l : location) :
  m <= round_nearest_even m l <= m + 1.
Proof. destruct l as [|[]]; simpl; try lia. destruct (Z.even m); lia. Qed.

(** Rounding a non-negative mantissa never makes a NaN. *)
Lemma binary_round_aux_not_nan (s : bool) (m e : Z) (l : location) :
  0 <= m -> is_nan (binary_round_aux prec emax s m e l) = false.
Proof.
  intros Hm. unfold binary_round_aux.
  pose proof (shr_fexp_spec m e l Hm) as H1. cbv zeta in H1.
  destruct (shr_fexp prec emax m e l) as [mrs1 e1].
  assert (Hm1 : 0 <= shr_m mrs1).
  { destruct (Z.lt_ge_cases 0 (fexp prec emax (Zdigits2 m + e) - e)) as [Hn|Hn].
    - destruct H1 as [H1 _]. destruct (H1 Hn) as [-> _].
      apply Z.div_pos; [lia|]. apply pow2_pos; lia.
    - destruct H1 as [_ H1]. destruct (H1 Hn) as [-> _]. exact Hm. }
  set (m2 := round_nearest_even (shr_m mrs1) (loc_of_shr_record mrs1)).
  assert (Hm2 : 0 <= m2).
  { pose proof (round_nearest_even_bounds (shr_m mrs1) (loc_of_shr_record mrs1)).
    unfold m2. lia. }
  pose proof (shr_fexp_spec m2 e1 loc_Exact Hm2) as H2. cbv zeta in H2.
  destruct (shr_fexp prec emax m2 e1 loc_Exact) as [mrs2 e2].
  assert (Hm3 : 0 <= shr_m mrs2).
  { destruct (Z.lt_ge_cases 0 (fexp prec emax (Zdigits2 m2 + e1) - e1)) as [Hn|Hn].
    - destruct H2 as [H2 _]. destruct (H2 Hn) as [-> _].
      apply Z.div_pos; [lia|]. apply pow2_pos; lia.
    - destruct H2 as [_ H2]. destruct (H2 Hn) as [-> _]. exact Hm2. }
  destruct (shr_m mrs2) as [|p|p]; try reflexivity; [|lia].
  now destruct (e2 <=? emax - prec).
Qed.

(** ** Rounding: the magnitude *)

Lemma fexp_eq (x : Z) : fexp prec emax x = Z.max (x - 53) (-1074).
Proof. reflexivity. Qed.

Lemma digits2_pos_size (p : positive) : digits2_pos p = Pos.size p.
Proof. induction p; simpl; congruence. Qed.

Lemma Zdigits2_nonneg (m : Z) : 0 <= Zdigits2 m.
Proof. destruct m; simpl; lia. Qed.

Lemma Zdigits2_gt (m : Z) : 0 <= m -> m < 2 ^ Zdigits2 m.
Proof.
  destruct m as [|p|p]; simpl Zdigits2; intros Hm; try lia.
  rewrite digits2_pos_size, <- Pos2Z.inj_pow. apply Pos2Z.pos_lt_pos, Pos.size_gt.
Qed.

Lemma Zdigits2_le (m k : Z) : 0 <= m -> 0 <= k -> m < 2 ^ k -> Zdigits2 m <= k.
Proof.
  destruct m as [|p|p]; simpl Zdigits2; intros Hm Hk Hlt; try lia.
  rewrite digits2_pos_size.
  destruct (Z.le_gt_cases (Zpos (Pos.size p)) k) as [|Hgt]; [assumption|exfalso].
  pose proof (Pos.size_le p) as Hle.
  apply Pos2Z.pos_le_pos in Hle. rewrite Pos2Z.inj_pow in Hle.
  change (Zpos p~0) with (2 * Zpos p) in Hle.
  assert (H : 2 ^ (k + 1) <= 2 ^ Zpos (Pos.size p)) by (apply Z.pow_le_mono_r; lia).
  rewrite Z.pow_add_r, Z.pow_1_r in H by lia.
  lia.
Qed.

(** A mantissa and an exponent whose magnitude stays below [2^1023] round
    to a finite float: no overflow to infinity. *)
Lemma binary_round_aux_finite (s : bool) (m e : Z) (l : location) :
  0 <= m -> e <= 970 -> Zdigits2 m + e <= 1023 ->
  is_finite (binary_round_aux prec emax s m e l) = true.
Proof.
  intros Hm He Hd. unfold binary_round_aux.
  pose proof (shr_fexp_spec m e l Hm) as H1. cbv zeta in H1.
  pose proof (Zdigits2_gt m Hm) as Hlt.
  pose proof (Zdigits2_nonneg m) as Hd0.
  destruct (shr_fexp prec emax m e l) as [mrs1 e1].
  set (m2 := round_nearest_even (shr_m mrs1) (loc_of_shr_record mrs1)).
  pose proof (round_nearest_even_bounds (shr_m mrs1) (loc_of_shr_record mrs1)) as Hr.
  fold m2 in Hr.
  assert (H : 0 <= m2 /\ e1 <= 970 /\ Zdigits2 m2 + e1 <= 1024).
  { rewrite fexp_eq in H1. set (n := Z.max (Zdigits2 m + e - 53) (-1074) - e) in *.
    destruct (Z.lt_ge_cases 0 n) as [Hn|Hn].
    - destruct H1 as [H1 _]. destruct (H1 Hn) as [E1 E2]. clear H1.
      pose proof (pow2_pos n ltac:(lia)) as Hp.
      assert (0 <= shr_m mrs1) by (rewrite E1; apply Z.div_pos; lia).
      set (k := Z.max (Zdigits2 m - n) 0).
      assert (Hk : shr_m mrs1 < 2 ^ k).
      { rewrite E1. apply Z.div_lt_upper_bound; [lia|].
        rewrite <- Z.pow_add_r by lia.
        eapply Z.lt_le_trans; [exact Hlt|]. apply Z.pow_le_mono_r; lia. }
      assert (Zdigits2 m2 <= k + 1).
      { apply Zdigits2_le; try lia. rewrite Z.pow_add_r, Z.pow_1_r by lia. lia. }
      lia.
    - destruct H1 as [_ H1]. destruct (H1 Hn) as [E1 E2]. clear H1.
      assert (Zdigits2 m2 <= Zdigits2 m + 1).
      { apply Zdigits2_le; try lia. rewrite Z.pow_add_r, Z.pow_1_r by lia. lia. }
      lia. }
  destruct H as (Hm2 & He1 & Hd2).
  pose proof (shr_fexp_spec m2 e1 loc_Exact Hm2) as H2. cbv zeta in H2.
  rewrite fexp_eq in H2.
  destruct (shr_fexp prec emax m2 e1 loc_Exact) as [mrs2 e2].
  assert (He2 : e2 <= 971).
  { destruct (Z.lt_ge_cases 0 (Z.max (Zdigits2 m2 + e1 - 53) (-1074) - e1)) as [Hn|Hn].
    - destruct H2 as [H2 _]. destruct (H2 Hn) as [_ ->]. lia.
    - destruct H2 as [_ H2]. destruct (H2 Hn) as [_ ->]. lia. }
  destruct (shr_m mrs2) as [|p|p] eqn:E3; try reflexivity.
  - replace (e2 <=? emax - prec) with true; [reflexivity|].
    symmetry. apply Z.leb_le. unfold emax, prec. lia.
  - exfalso.
    destruct (Z.lt_ge_cases 0 (Z.max (Zdigits2 m2 + e1 - 53) (-1074) - e1)) as [Hn|Hn].
    + destruct H2 as [H2 _]. destruct (H2 Hn) as [E _].
      pose proof (pow2_pos _ (Z.lt_le_incl _ _ Hn)).
      assert (0 <= m2 / 2 ^ (Z.max (Zdigits2 m2 + e1 - 53) (-1074) - e1))
        by (apply Z.div_pos; lia).
      lia.
    + destruct H2 as [_ H2]. destruct (H2 Hn) as [E _]. lia.
Qed.

(** ** The quotient of two integers *)

Lemma div_eucl_div_mod (a b : Z) : Z.div_eucl a b = (a / b, a mod b).
Proof. unfold Z.div, Z.modulo. now destruct (Z.div_eucl a b). Qed.

(** The mantissa, exponent and location that [round_div] rounds. *)
Lemma SFdiv_core_binary_ints (a b : Z) :
  0 <= a -> 0 < b ->
  let e := Z.min (fexp prec emax (Zdigits2 a - Zdigits2 b)) 0 in
  SFdiv_core_binary prec emax a 0 b 0 =
    ((a * 2 ^ (- e)) / b, e, new_location b ((a * 2 ^ (- e)) mod b)).
Proof.
  intros Ha Hb e. unfold SFdiv_core_binary.
  rewrite !Z.add_0_r. change (0 - 0) with 0. fold e.
  assert (He : e <= 0) by (unfold e; lia).
  replace (0 - e) with (- e) by lia.
  assert (Hm : match - e with
               | 0 => a
               | Z.pos _ => Z.shiftl a (- e)
               | Z.neg _ => 0
               end = a * 2 ^ (- e)).
  { destruct (- e) as [|p|p] eqn:E; try lia.
    now rewrite Z.shiftl_mul_pow2 by lia. }
  rewrite Hm. now rewrite div_eucl_div_mod.
Qed.

Lemma new_location_0 (b : Z) : new_location b 0 = loc_Exact.
Proof. unfold new_location. now destruct (Z.even b). Qed.

Lemma iter_shr_1_zero (p : positive) :
  iter_pos shr_1 p (Build_shr_record 0 false false) = Build_shr_record 0 false false.
Proof. induction p as [p IH|p IH|]; simpl; now rewrite ?IH. Qed.

Lemma binary_round_aux_zero (s : bool) (e : Z) :
  binary_round_aux prec emax s 0 e loc_Exact = S754_zero s.
Proof.
  assert (H : forall e', exists e'',
             shr_fexp prec emax 0 e' loc_Exact = (Build_shr_record 0 false false, e'')).
  { intros e'. unfold shr_fexp, shr. simpl shr_record_of_loc.
    destruct (fexp prec emax (Zdigits2 0 + e') - e'); eauto.
    rewrite iter_shr_1_zero. eauto. }
  unfold binary_round_aux.
  destruct (H e) as [e1 ->]. simpl round_nearest_even.
  destruct (H e1) as [e2 ->]. reflexivity.
Qed.

(** [0 / b] is a zero, signed as the divisor. *)
Lemma round_div_0 (b : Z) : b <> 0 -> round_div 0 b = S754_zero (b <? 0).
Proof.
  intros Hb. unfold round_div. change (Z.abs 0) with 0.
  rewrite SFdiv_core_binary_ints by lia. cbv zeta.
  rewrite Z.mul_0_l, Z.div_0_l, Z.mod_0_l, new_location_0 by lia.
  apply binary_round_aux_zero.
Qed.

(** [a / a] is [1.0]. *)
Lemma round_div_diag (a : Z) : a <> 0 -> round_div a a = lit_1_0.
Proof.
  intros Ha. unfold round_div.
  rewrite SFdiv_core_binary_ints by lia. cbv zeta.
  rewrite Z.sub_diag, xorb_nilpotent.
  change (Z.min (fexp prec emax 0) 0) with (-53). change (- -53) with 53.
  rewrite (Z.mul_comm (Z.abs a)), Z.div_mul, Z.mod_mul, new_location_0 by lia.
  reflexivity.
Qed.

(** No overflow while the quotient stays below [2^1023] in magnitude. *)
Lemma round_div_finite (a b : Z) :
  b <> 0 -> Z.abs a < Z.abs b * 2 ^ 1023 -> is_finite (round_div a b) = true.
Proof.
  intros Hb Hab. unfold round_div.
  rewrite SFdiv_core_binary_ints by lia. cbv zeta.
  set (e := Z.min (fexp prec emax (Zdigits2 (Z.abs a) - Zdigits2 (Z.abs b))) 0).
  assert (He : e <= 0) by (unfold e; lia).
  pose proof (pow2_pos (- e) ltac:(lia)) as Hp.
  assert (Hq : 0 <= Z.abs a * 2 ^ (- e) / Z.abs b).
  { apply Z.div_pos; [|lia]. apply Z.mul_nonneg_nonneg; lia. }
  apply binary_round_aux_finite; [exact Hq|lia|].
  assert (Zdigits2 (Z.abs a * 2 ^ (- e) / Z.abs b) <= 1023 - e); [|lia].
  apply Zdigits2_le; [exact Hq|lia|].
  apply Z.div_lt_upper_bound; [lia|].
  replace (1023 - e) with (1023 + - e) by lia.
  rewrite Z.pow_add_r by lia.
  set (x := 2 ^ 1023) in *. set (y := 2 ^ (- e)) in *. nia.
Qed.

Lemma round_div_not_nan (a b : Z) : b <> 0 -> is_nan (round_div a b) = false.
Proof.
  intros Hb. unfold round_div.
  rewrite SFdiv_core_binary_ints by lia. cbv zeta.
  apply binary_round_aux_not_nan.
  apply Z.div_pos; [|lia].
  apply Z.mul_nonneg_nonneg; [lia|]. apply Z.pow_nonneg. lia.
Qed.

Lemma is_finite_not_nan (x : float) : is_finite x = true -> is_nan x = false.
Proof. now destruct x. Qed.

(** What [a / b] can do: a finite quotient, or one of two exceptions. *)
Lemma py_int_truediv_cases (a b : Z) :
  (b = 0 /\ py_int_truediv a b = Raise ZeroDivisionError) \/
  (b <> 0 /\ py_int_truediv a b = Raise OverflowError /\ is_finite (round_div a b) = false) \/
  (b <> 0 /\ py_int_truediv a b = Ok (round_div a b) /\ is_finite (round_div a b) = true).
Proof.
  unfold py_int_truediv. destruct (Z.eqb_spec b 0) as [->|Hb]; [now left|right].
  pose proof (round_div_not_nan a b Hb) as Hn.
  destruct (round_div a b); simpl in *; auto; discriminate.
Qed.

Lemma py_int_truediv_ok_finite (a b : Z) (q : float) :
  py_int_truediv a b = Ok q -> is_finite q = true.
Proof.
  destruct (py_int_truediv_cases a b) as [[_ E]|[(_ & E & _)|(_ & E & F)]];
    rewrite E; intros [= <-]. exact F.
Qed.

Lemma py_int_truediv_total (a b : Z) :
  b <> 0 -> Z.abs a < Z.abs b * 2 ^ 1023 ->
  py_int_truediv a b = Ok (round_div a b) /\ is_finite (round_div a b) = true.
Proof.
  intros Hb Hab. pose proof (round_div_finite a b Hb Hab) as F.
  destruct (py_int_truediv_cases a b) as [[? _]|[(_ & _ & F')|(_ & E & _)]];
    [contradiction|congruence|auto].
Qed.

(** ** Dicts *)

Section DictFacts.

Context {V : Type}.
Implicit Types (d : dict V) (k : string) (v : V).

Lemma get_set_eq d k v : get (set d k v) k = Some v.
Proof.
  induction d as [|[k' v'] d IH]; simpl.
  - now rewrite String.eqb_refl.
  - destruct (String.eqb k' k) eqn:E; simpl; now rewrite E.
Qed.

Lemma get_set_neq d k k' v : k <> k' -> get (set d k v) k' = get d k'.
Proof.
  intros Hk. induction d as [|[k0 v0] d IH]; simpl.
  - destruct (String.eqb_spec k k'); [contradiction|reflexivity].
  - destruct (String.eqb_spec k0 k) as [->|H0]; simpl.
    + now destruct (String.eqb_spec k k').
    + now rewrite IH.
Qed.

Lemma set_same d k v : get d k = Some v -> set d k v = d.
Proof.
  induction d as [|[k' v'] d IH]; simpl; [discriminate|].
  destruct (String.eqb k' k); [now intros [= ->]|].
  intros H. now rewrite IH.
Qed.

Lemma keys_set d k v k' : In k' (keys (set d k v)) <-> k' = k \/ In k' (keys d).
Proof.
  unfold keys. induction d as [|[k0 v0] d IH]; simpl.
  - intuition.
  - destruct (String.eqb_spec k0 k) as [->|H0]; simpl.
    + intuition.
    + rewrite IH. intuition.
Qed.

Lemma values_set (P : V -> Prop) d k v :
  Forall P (values d) -> P v -> Forall P (values (set d k v)).
Proof.
  unfold values. intros Hd Hv. induction d as [|[k0 v0] d IH]; simpl.
  - now repeat constructor.
  - inversion Hd; subst. destruct (String.eqb k0 k); simpl; constructor; auto.
Qed.

Lemma get_None d k : get d k = None <-> ~ In k (keys d).
Proof.
  unfold keys. induction d as [|[k0 v0] d IH]; simpl.
  - intuition.
  - destruct (String.eqb_spec k0 k) as [->|H0].
    + split; [discriminate|]. intros H. exfalso. auto.
    + rewrite IH. intuition.
Qed.

Lemma mem_In d k : mem d k = true <-> In k (keys d).
Proof.
  unfold mem. pose proof (get_None d k) as H.
  destruct (get d k) eqn:E.
  - split; [intros _|reflexivity].
    destruct (in_dec string_dec k (keys d)) as [|Hn]; [assumption|].
    apply H in Hn. discriminate.
  - split; [discriminate|]. intros Hin. now apply H in Hin.
Qed.

Lemma get_In_values d k v : get d k = Some v -> In v (values d).
Proof.
  unfold values. induction d as [|[k0 v0] d IH]; simpl; [discriminate|].
  destruct (String.eqb k0 k); [intros [= ->]; now left|auto].
Qed.

Lemma set_fresh d k v : ~ In k (keys d) -> set d k v = d ++ [(k, v)].
Proof.
  unfold keys. induction d as [|[k0 v0] d IH]; simpl; intros H.
  - reflexivity.
  - destruct (String.eqb_spec k0 k) as [->|H0]; [exfalso; auto|].
    rewrite IH; auto.
Qed.

End DictFacts.

(** ** The reward loop on the store *)

Section RewardsStore.

Variable reward : string -> result float.

Lemma rewards_store_get_out (ids : list string) (d : dict float) (a : string) :
  ~ In a ids -> get (snd (rewards_store reward ids d)) a = get d a.
Proof.
  revert d. induction ids as [|b ids IH]; intros d Ha; simpl.
  - reflexivity.
  - destruct (reward b) as [r|e]; [|reflexivity].
    rewrite IH by (simpl in Ha; tauto).
    apply get_set_neq. simpl in Ha. intros ->. tauto.
Qed.

(** A value once stored for [a] is what the loop would store again. *)
Lemma rewards_store_keeps (ids : list string) (d : dict float) (a : string) (r : float) :
  reward a = Ok r -> get d a = Some r ->
  get (snd (rewards_store reward ids d)) a = Some r.
Proof.
  intros Hr. revert d. induction ids as [|b ids IH]; intros d Hd; simpl.
  - exact Hd.
  - destruct (reward b) as [rb|e] eqn:Eb; [|exact Hd].
    apply IH. destruct (string_dec b a) as [->|Hne].
    + rewrite Hr in Eb. injection Eb as <-. apply get_set_eq.
    + now rewrite get_set_neq.
Qed.

Lemma rewards_store_get_in (ids : list string) (d : dict float) (a : string) :
  fst (rewards_store reward ids d) = Ok tt -> In a ids ->
  exists r, reward a = Ok r /\ get (snd (rewards_store reward ids d)) a = Some r.
Proof.
  revert d. induction ids as [|b ids IH]; intros d Hok Ha; simpl in *.
  - contradiction.
  - destruct (reward b) as [rb|e] eqn:Eb; [|discriminate].
    destruct (string_dec b a) as [->|Hne].
    + exists rb. split; [assumption|].
      apply rewards_store_keeps; [assumption|apply get_set_eq].
    + apply IH; [assumption|]. destruct Ha; [contradiction|assumption].
Qed.

Lemma rewards_store_ok (ids : list string) (d : dict float) :
  (forall a, In a ids -> is_ok (reward a) = true) ->
  fst (rewards_store reward ids d) = Ok tt.
Proof.
  revert d. induction ids as [|b ids IH]; intros d H; simpl.
  - reflexivity.
  - pose proof (H b (or_introl eq_refl)) as Hb.
    destruct (reward b) as [rb|e]; [|discriminate].
    apply IH. intros a Ha. apply H. now right.
Qed.

Lemma rewards_store_raise (ids : list string) (d : dict float) (a : string) :
  In a ids -> is_ok (reward a) = false ->
  exists e, fst (rewards_store reward ids d) = Raise e.
Proof.
  revert d. induction ids as [|b ids IH]; intros d Ha Hr; simpl in *.
  - contradiction.
  - destruct (reward b) as [rb|e] eqn:Eb; [|eexists; reflexivity].
    apply IH; [|assumption]. destruct Ha as [->|]; [|assumption].
    rewrite Eb in Hr. discriminate.
Qed.

Lemma rewards_store_raised (ids : list string) (d : dict float) (e : exn) :
  fst (rewards_store reward ids d) = Raise e ->
  exists a, In a ids /\ reward a = Raise e.
Proof.
  revert d. induction ids as [|b ids IH]; intros d; simpl.
  - discriminate.
  - destruct (reward b) as [rb|e'] eqn:Eb.
    + intros H. destruct (IH _ H) as (a & Ha & Hr). eauto.
    + intros [= ->]. eauto.
Qed.

Lemma rewards_store_values (P : float -> Prop) (ids : list string) (d : dict float) :
  (forall a r, reward a = Ok r -> P r) ->
  Forall P (values d) -> Forall P (values (snd (rewards_store reward ids d))).
Proof.
  intros HP. revert d. induction ids as [|b ids IH]; intros d Hd; simpl.
  - exact Hd.
  - destruct (reward b) as [rb|e] eqn:Eb; [|exact Hd].
    apply IH. apply values_set; eauto.
Qed.

Lemma rewards_store_keys (ids : list string) (d : dict float) (k : string) :
  In k (keys (snd (rewards_store reward ids d))) -> In k (keys d) \/ In k ids.
Proof.
  revert d. induction ids as [|b ids IH]; intros d; simpl.
  - auto.
  - destruct (reward b) as [rb|e]; [|auto].
    intros H. apply IH in H. rewrite keys_set in H.
    intuition.
Qed.

(** Running the loop again on the store it has left changes nothing. *)
Lemma rewards_store_idem (ids : list string) (d : dict float) :
  rewards_store reward ids (snd (rewards_store reward ids d))
  = rewards_store reward ids d.
Proof.
  revert d. induction ids as [|b ids IH]; intros d; simpl.
  - reflexivity.
  - destruct (reward b) as [rb|e] eqn:Eb; simpl; [|reflexivity].
    rewrite set_same; [apply IH|].
    apply rewards_store_keeps; [assumption|apply get_set_eq].
Qed.

End RewardsStore.

(** ** The monadic loop is the loop on the store *)

Lemma with_agent_rewards_same (self : FeedbackProvider) :
  with_agent_rewards self (agent_rewards self) = self.
Proof. now destruct self. Qed.

Lemma rewards_loop_store (lp lc : float) (kpis : dict Z) (ids : list string)
    (self : FeedbackProvider) :
  rewards_loop lp lc kpis ids self =
    (fst (rewards_store (reward_in_loop self lp lc kpis) ids (agent_rewards self)),
     with_agent_rewards self
       (snd (rewards_store (reward_in_loop self lp lc kpis) ids (agent_rewards self)))).
Proof.
  revert self. induction ids as [|a ids IH]; intros self; simpl.
  - unfold ret. now rewrite with_agent_rewards_same.
  - unfold bind at 1. unfold reward_in_loop at 1 3.
    destruct (mem kpis a).
    + unfold try_read.
      destruct (_calculate_agent_contribution_ratio self a) as [cr|e];
        [|simpl; now rewrite with_agent_rewards_same].
      unfold bind, set_agent_reward. rewrite IH. reflexivity.
    + unfold ret at 1. unfold bind, set_agent_reward. rewrite IH. reflexivity.
Qed.

Lemma calculate_agent_rewards_store (self : FeedbackProvider) :
  calculate_agent_rewards self =
    (match fst (store_after self) with
     | Ok _ => Ok (snd (store_after self))
     | Raise e => Raise e
     end,
     with_agent_rewards self (snd (store_after self))).
Proof.
  unfold calculate_agent_rewards, bind, read. rewrite rewards_loop_store.
  fold (store_after self). simpl.
  now destruct (fst (store_after self)).
Qed.

(** ** The contribution ratio *)

Lemma ratio_unfold (self : FeedbackProvider) (agent_id : string) :
  _calculate_agent_contribution_ratio self agent_id =
    let n := get_default (kpis_of self) agent_id 0 in
    let t := metrics_get (total_milestones (evaluator_metrics self)) n in
    if 0 <? t then py_int_truediv n t else Ok lit_0_0.
Proof. reflexivity. Qed.

Lemma py_int_truediv_0 (t : Z) : 0 < t -> py_int_truediv 0 t = Ok lit_0_0.
Proof.
  intros Ht. unfold py_int_truediv.
  destruct (Z.eqb_spec t 0); [lia|].
  rewrite round_div_0 by assumption.
  destruct (Z.ltb_spec t 0); [lia|reflexivity].
Qed.

Lemma py_int_truediv_diag (n : Z) : 0 < n -> py_int_truediv n n = Ok lit_1_0.
Proof.
  intros Hn. unfold py_int_truediv.
  destruct (Z.eqb_spec n 0); [lia|].
  now rewrite round_div_diag.
Qed.

Lemma ratio_absent (self : FeedbackProvider) (agent_id : string) :
  get (kpis_of self) agent_id = None ->
  _calculate_agent_contribution_ratio self agent_id = Ok lit_0_0.
Proof.
  intros H. rewrite ratio_unfold. unfold get_default. rewrite H. cbv zeta.
  destruct (Z.ltb_spec 0 (metrics_get (total_milestones (evaluator_metrics self)) 0));
    [now apply py_int_truediv_0|reflexivity].
Qed.

Lemma ratio_ok_finite (self : FeedbackProvider) (agent_id : string) (q : float) :
  _calculate_agent_contribution_ratio self agent_id = Ok q -> is_finite q = true.
Proof.
  rewrite ratio_unfold. cbv zeta.
  destruct (0 <? _).
  - apply py_int_truediv_ok_finite.
  - now intros [= <-].
Qed.

(** The method raises nothing but the [OverflowError] of the division. *)
Lemma ratio_raises_overflow (self : FeedbackProvider) (agent_id : string) (e : exn) :
  _calculate_agent_contribution_ratio self agent_id = Raise e -> e = OverflowError.
Proof.
  rewrite ratio_unfold. cbv zeta.
  destruct (Z.ltb_spec 0 (metrics_get (total_milestones (evaluator_metrics self))
                            (get_default (kpis_of self) agent_id 0))) as [Ht|Ht];
    [|discriminate].
  destruct (py_int_truediv_cases (get_default (kpis_of self) agent_id 0)
              (metrics_get (total_milestones (evaluator_metrics self))
                 (get_default (kpis_of self) agent_id 0)))
    as [[? _]|[(_ & -> & _)|(_ & -> & _)]]; [lia|now intros [= <-]|discriminate].
Qed.

Lemma ratio_not_zero_division (self : FeedbackProvider) (agent_id : string) :
  _calculate_agent_contribution_ratio self agent_id <> Raise ZeroDivisionError.
Proof. intros H. apply ratio_raises_overflow in H. discriminate. Qed.

Lemma counts_fit_get (self : FeedbackProvider) (agent_id : string) :
  counts_fit self -> count_fits self (get_default (kpis_of self) agent_id 0).
Proof.
  unfold counts_fit, get_default. intros H.
  destruct (get (kpis_of self) agent_id) as [n|] eqn:E; [|now left].
  rewrite Forall_forall in H. apply H. eapply get_In_values; eauto.
Qed.

Lemma ratio_fit (self : FeedbackProvider) (agent_id : string) :
  count_fits self (get_default (kpis_of self) agent_id 0) ->
  exists q, _calculate_agent_contribution_ratio self agent_id = Ok q
            /\ is_finite q = true.
Proof.
  intros H. rewrite ratio_unfold. cbv zeta.
  destruct (Z.ltb_spec 0 (metrics_get (total_milestones (evaluator_metrics self))
                            (get_default (kpis_of self) agent_id 0))) as [Ht|Ht];
    [|now exists lit_0_0].
  eexists. apply py_int_truediv_total; [lia|].
  assert (1 < 2 ^ 1023) by reflexivity.
  destruct H as [H|(t & Et & H)]; [nia|].
  rewrite Et in *. simpl metrics_get in *. nia.
Qed.

(** In the loop the guard [agent_id in agent_kpis] changes nothing: the
    method already gives [0.0] to an agent without an entry. *)
Lemma reward_in_loop_ratio (self : FeedbackProvider) (lp lc : float) (agent_id : string) :
  reward_in_loop self lp lc (kpis_of self) agent_id =
    match _calculate_agent_contribution_ratio self agent_id with
    | Ok ratio => Ok (agent_reward_of lp lc ratio)
    | Raise e => Raise e
    end.
Proof.
  unfold reward_in_loop, mem.
  destruct (get (kpis_of self) agent_id) eqn:E; [reflexivity|].
  now rewrite ratio_absent.
Qed.

(** ** The ranking *)

(** [sorted(..., key=lambda x: x[1], reverse=True)] on pairs whose ratios
    are not NaN. *)
Section SortedByRatio.

Variable l : list (string * float).
Hypothesis no_nan : Forall (fun p => is_nan (snd p) = false) l.

Let ranking := py_sorted ltb (@snd string float) true l.

Lemma py_sorted_perm : Permutation ranking l.
Proof.
  unfold ranking, py_sorted.
  rewrite <- Permutation_rev, stable_sort_perm. symmetry. apply Permutation_rev.
Qed.

Lemma py_sorted_descending : StronglySorted ratio_ge ranking.
Proof.
  unfold ranking, py_sorted.
  apply (StronglySorted_rev (fun p q => leb (snd p) (snd q) = true)).
  apply (stable_sort_sorted _ _ (fun p => is_nan (snd p) = false)).
  - intros x y. apply ltb_leb.
  - intros x y Hx Hy. now apply not_ltb_leb.
  - intros x y z. apply leb_trans.
  - apply Forall_rev. exact no_nan.
Qed.

Lemma py_sorted_stable (r : float) :
  filter (fun p => eqb (snd p) r) ranking = filter (fun p => eqb (snd p) r) l.
Proof.
  unfold ranking, py_sorted.
  rewrite filter_rev, stable_sort_filter, filter_rev, rev_involutive; [reflexivity|].
  intros x y Hx Hy. eapply ltb_eqb_class; eauto.
Qed.

End SortedByRatio.

(** A descending stable sort has one result: two lists with the same
    elements, both in descending order of ratio, and with the elements of
    each ratio in the same order, are the same list. *)
Lemma stable_descending_unique (l1 l2 : list (string * float)) :
  Forall (fun p => is_nan (snd p) = false) l1 ->
  Permutation l1 l2 ->
  StronglySorted ratio_ge l1 -> StronglySorted ratio_ge l2 ->
  (forall r, filter (fun p => eqb (snd p) r) l1 = filter (fun p => eqb (snd p) r) l2) ->
  l1 = l2.
Proof.
  revert l2. induction l1 as [|x t1 IH]; intros l2 Hnan Hperm Hs1 Hs2 Hf.
  - now apply Permutation_nil in Hperm.
  - destruct l2 as [|y t2]; [now apply Permutation_sym, Permutation_nil in Hperm|].
    inversion Hnan as [|? ? Hx Hnan']; subst.
    inversion Hs1 as [|? ? Hs1' Hx1]; subst.
    inversion Hs2 as [|? ? Hs2' Hy2]; subst.
    rewrite Forall_forall in Hx1, Hy2.
    assert (Hy : is_nan (snd y) = false).
    { assert (In y (x :: t1)) as [<-|Hin].
      { apply (Permutation_in _ (Permutation_sym Hperm)). now left. }
      - exact Hx.
      - rewrite Forall_forall in Hnan'. now apply Hnan'. }
    assert (Hxy : ratio_ge x y).
    { assert (In y (x :: t1)) as [<-|Hin].
      { apply (Permutation_in _ (Permutation_sym Hperm)). now left. }
      - now apply leb_refl.
      - now apply Hx1. }
    assert (Hyx : ratio_ge y x).
    { assert (In x (y :: t2)) as [<-|Hin].
      { apply (Permutation_in _ Hperm). now left. }
      - now apply leb_refl.
      - now apply Hy2. }
    assert (E : eqb (snd y) (snd x) = true) by now apply leb_antisym.
    assert (Exy : x = y).
    { specialize (Hf (snd x)). simpl in Hf.
      rewrite E, (leb_antisym _ _ (leb_refl _ Hx) (leb_refl _ Hx)) in Hf.
      now injection Hf. }
    subst y. f_equal. apply IH; auto.
    + now apply Permutation_cons_inv in Hperm.
    + intros r. specialize (Hf r). simpl in Hf.
      destruct (eqb (snd x) r); [now injection Hf|exact Hf].
Qed.

(** The model of [sorted] is therefore not a choice of algorithm: whatever
    sorts [l] by descending ratio and keeps equal ratios in their order
    returns [py_sorted ltb snd true l]. *)
Lemma py_sorted_unique (l ranking : list (string * float)) :
  Forall (fun p => is_nan (snd p) = false) l ->
  Permutation ranking l ->
  StronglySorted ratio_ge ranking ->
  (forall r, filter (fun p => eqb (snd p) r) ranking = filter (fun p => eqb (snd p) r) l) ->
  ranking = py_sorted ltb snd true l.
Proof.
  intros Hnan Hperm Hsorted Hstable. apply stable_descending_unique.
  - apply (Permutation_Forall (Permutation_sym Hperm)). exact Hnan.
  - rewrite Hperm. symmetry. apply py_sorted_perm.
  - exact Hsorted.
  - now apply py_sorted_descending.
  - intros r. rewrite Hstable. symmetry. apply py_sorted_stable.
Qed.

(** The dict comprehension, key by key. *)
Lemma agent_contribution_items (self : FeedbackProvider) (ids : list string)
    (acc : dict float) :
  NoDup ids -> (forall a, In a ids -> ~ In a (keys acc)) ->
  (forall a, In a ids -> is_ok (_calculate_agent_contribution_ratio self a) = true) ->
  agent_contribution self ids acc
  = Ok (acc ++ map (fun a => (a, ratio_or_zero self a)) ids).
Proof.
  revert acc. induction ids as [|a ids IH]; intros acc Hnd Hfresh Hok; simpl.
  - now rewrite app_nil_r.
  - inversion Hnd as [|? ? Ha Hnd']; subst.
    pose proof (Hok a (or_introl eq_refl)) as Hr. unfold ratio_or_zero at 1.
    destruct (_calculate_agent_contribution_ratio self a) as [q|e]; [|discriminate].
    rewrite set_fresh by (apply Hfresh; now left).
    rewrite IH; auto.
    + now rewrite <- app_assoc.
    + intros b Hb. unfold keys. rewrite map_app, in_app_iff. simpl.
      intros [H|[<-|[]]]; [|contradiction].
      apply (Hfresh b); [now right|exact H].
    + intros b Hb. apply Hok. now right.
Qed.

Lemma agent_contribution_raise (self : FeedbackProvider) (ids : list string)
    (acc : dict float) (a : string) :
  In a ids -> is_ok (_calculate_agent_contribution_ratio self a) = false ->
  exists e, agent_contribution self ids acc = Raise e.
Proof.
  revert acc. induction ids as [|b ids IH]; intros acc Ha Hr; simpl in *.
  - contradiction.
  - destruct (_calculate_agent_contribution_ratio self b) as [q|e] eqn:Eb;
      [|eexists; reflexivity].
    apply IH; [|assumption]. destruct Ha as [->|]; [|assumption].
    rewrite Eb in Hr. discriminate.
Qed.

Lemma agent_contribution_raised (self : FeedbackProvider) (ids : list string)
    (acc : dict float) (e : exn) :
  agent_contribution self ids acc = Raise e ->
  exists a, In a ids /\ _calculate_agent_contribution_ratio self a = Raise e.
Proof.
  revert acc. induction ids as [|b ids IH]; intros acc; simpl.
  - discriminate.
  - destruct (_calculate_agent_contribution_ratio self b) as [q|e'] eqn:Eb.
    + intros H. destruct (IH _ H) as (a & Ha & Hr). eauto.
    + intros [= ->]. eauto.
Qed.

Lemma agent_contribution_keys (self : FeedbackProvider) (ids : list string)
    (acc d : dict float) (k : string) :
  agent_contribution self ids acc = Ok d ->
  In k (keys acc) \/ In k ids -> In k (keys d).
Proof.
  revert acc. induction ids as [|b ids IH]; intros acc; simpl.
  - intros [= <-] [H|[]]. exact H.
  - destruct (_calculate_agent_contribution_ratio self b) as [q|e]; [|discriminate].
    intros Hd Hk. apply (IH _ Hd). rewrite keys_set.
    destruct Hk as [H|[->|H]]; auto.
Qed.

Lemma map_fst_ratios (self : FeedbackProvider) (ids : list string) :
  map fst (map (fun a => (a, ratio_or_zero self a)) ids) = ids.
Proof. rewrite map_map. simpl. apply map_id. Qed.

Lemma filter_ratios (self : FeedbackProvider) (r : float) (ids : list string) :
  map fst (filter (fun p => eqb (snd p) r) (map (fun a => (a, ratio_or_zero self a)) ids))
  = filter (ratio_is self r) ids.
Proof.
  induction ids as [|a ids IH]; simpl; [reflexivity|].
  unfold ratio_is at 1. destruct (eqb (ratio_or_zero self a) r); simpl; now rewrite IH.
Qed.

Lemma ratios_no_nan (self : FeedbackProvider) (ids : list string) :
  Forall (fun p : string * float => is_nan (snd p) = false)
    (map (fun a => (a, ratio_or_zero self a)) ids).
Proof.
  apply Forall_forall. intros p Hp. apply in_map_iff in Hp.
  destruct Hp as (a & <- & _). simpl. unfold ratio_or_zero.
  destruct (_calculate_agent_contribution_ratio self a) as [q|e] eqn:E; [|reflexivity].
  apply is_finite_not_nan. eapply ratio_ok_finite; eauto.
Qed.

(** ** What [calculate_agent_rewards] returns *)

Lemma calculate_agent_rewards_ok (self : FeedbackProvider) :
  (forall a, In a (keys (agent_profiles self)) ->
     is_ok (_calculate_agent_contribution_ratio self a) = true) ->
  calculate_agent_rewards self
  = (Ok (snd (store_after self)), with_agent_rewards self (snd (store_after self)))
  /\ fst (store_after self) = Ok tt.
Proof.
  intros H. rewrite calculate_agent_rewards_store.
  assert (E : fst (store_after self) = Ok tt).
  { apply rewards_store_ok. intros a Ha. rewrite reward_in_loop_ratio.
    specialize (H a Ha). now destruct (_calculate_agent_contribution_ratio self a). }
  now rewrite E.
Qed.

Lemma fit_ratios_ok (self : FeedbackProvider) :
  counts_fit self ->
  forall a, is_ok (_calculate_agent_contribution_ratio self a) = true.
Proof.
  intros H a. destruct (ratio_fit self a) as (q & -> & _); [|reflexivity].
  now apply counts_fit_get.
Qed.

(** The counts of the data model fit, so what holds when the counts fit
    holds on every snapshot of the data model. *)
Lemma data_model_counts_fit (self : FeedbackProvider) :
  data_model self -> counts_fit self.
Proof.
  intros (t & Et & H). unfold counts_fit.
  eapply Forall_impl; [|exact H].
  intros n Hn. cbv beta in Hn. right. exists t. split; [exact Et|].
  rewrite Z.abs_eq; lia.
Qed.

Lemma data_model_scenario : data_model scenario.
Proof. exists 4. split; [reflexivity|]. repeat constructor; discriminate. Qed.

Lemma stored_reward (self : FeedbackProvider) (agent_id : string) :
  fst (store_after self) = Ok tt -> In agent_id (keys (agent_profiles self)) ->
  exists ratio,
    _calculate_agent_contribution_ratio self agent_id = Ok ratio /\
    get (snd (store_after self)) agent_id
    = Some (agent_reward_of (fst (_get_latest_scores self))
              (snd (_get_latest_scores self)) ratio).
Proof.
  intros Hok Ha.
  destruct (rewards_store_get_in _ _ _ _ Hok Ha) as (r & Hr & Hg).
  rewrite reward_in_loop_ratio in Hr.
  destruct (_calculate_agent_contribution_ratio self agent_id) as [q|e]; [|discriminate].
  injection Hr as <-. eauto.
Qed.

(** The one error path of [calculate_agent_rewards]: the [OverflowError] of
    the contribution ratio of an agent of the roster. *)
Lemma calculate_agent_rewards_raises (self : FeedbackProvider) (e : exn) :
  fst (calculate_agent_rewards self) = Raise e ->
  e = OverflowError /\
  exists agent_id,
    In agent_id (keys (agent_profiles self)) /\
    _calculate_agent_contribution_ratio self agent_id = Raise OverflowError.
Proof.
  rewrite calculate_agent_rewards_store. simpl.
  destruct (fst (store_after self)) as [[]|e'] eqn:E; [discriminate|].
  intros [= ->]. apply rewards_store_raised in E. destruct E as (a & Ha & Hr).
  rewrite reward_in_loop_ratio in Hr.
  destruct (_calculate_agent_contribution_ratio self a) as [q|e'] eqn:Ea; [discriminate|].
  injection Hr as ->. pose proof (ratio_raises_overflow _ _ _ Ea) as ->. eauto.
Qed.

Lemma calculate_agent_rewards_overflows (self : FeedbackProvider) (agent_id : string) :
  In agent_id (keys (agent_profiles self)) ->
  is_ok (_calculate_agent_contribution_ratio self agent_id) = false ->
  fst (calculate_agent_rewards self) = Raise OverflowError.
Proof.
  intros Ha Hr.
  destruct (rewards_store_raise
              (reward_in_loop self (fst (_get_latest_scores self))
                 (snd (_get_latest_scores self)) (kpis_of self))
              (keys (agent_profiles self)) (agent_rewards self) agent_id Ha) as [e He].
  { rewrite reward_in_loop_ratio.
    now destruct (_calculate_agent_contribution_ratio self agent_id). }
  assert (E : fst (calculate_agent_rewards self) = Raise e).
  { rewrite calculate_agent_rewards_store. simpl. unfold store_after. now rewrite He. }
  rewrite E. f_equal. now apply calculate_agent_rewards_raises in E.
Qed.

(** The scenario of the specification: roster [{A, B}], milestones
    [{A: 3, B: 1}] out of [4], planning [[4.0]], communication [[-1]].  The
    reward of [A] is [0.545]; that of [B] is [0.39500000000000007], one float
    above [0.395]; the ranking is [[(A, 0.75), (B, 0.25)]]. *)
Example scenario_rewards :
  fst (calculate_agent_rewards scenario)
  = Ok [("A"%string, lit_0_545); ("B"%string, lit_0_39500000000000007)] /\
  ltb lit_0_395 lit_0_39500000000000007 = true /\
  sorted_agent_contribution scenario
  = Ok [("A"%string, lit_0_75); ("B"%string, lit_0_25)].
Proof. repeat split. Qed.

(** C1.  On every snapshot of the data model (lemma
    [data_model_counts_fit]), and more generally whenever every milestone
    count is, in absolute value, at most [total_milestones] or below
    [2^1023], the computation has no error path:
    [calculate_agent_rewards] returns a mapping, the one it has stored, with
    an entry for every agent of the roster, also for the agents without an
    entry in [agent_kpis]; the entry is
    [clamp(0.4 * normalized_planning + 0.3 * normalized_communication
           + 0.3 * contribution_ratio(agent_id), 0.0, 1.0)], where the two
    normalised scores are the same for every agent and the ratio is the one
    [_calculate_agent_contribution_ratio] gives, [0.0] for an agent without
    an entry; entries of agents outside the roster are left as they were. *)
Theorem calculate_agent_rewards_formula (self : FeedbackProvider) :
  counts_fit self ->
  exists rewards,
    calculate_agent_rewards self = (Ok rewards, with_agent_rewards self rewards) /\
    let normalized_planning := normalized (fst (_get_latest_scores self)) in
    let normalized_communication := normalized (snd (_get_latest_scores self)) in
    (forall agent_id, In agent_id (keys (agent_profiles self)) ->
       exists ratio,
         _calculate_agent_contribution_ratio self agent_id = Ok ratio /\
         (get (kpis_of self) agent_id = None -> ratio = lit_0_0) /\
         get rewards agent_id
         = Some (clamp (lit_0_4 * normalized_planning
                        + lit_0_3 * normalized_communication
                        + lit_0_3 * ratio)%pyfloat lit_0_0 lit_1_0)) /\
    (forall agent_id, ~ In agent_id (keys (agent_profiles self)) ->
       get rewards agent_id = get (agent_rewards self) agent_id).
Proof.
  intros Hfit.
  destruct (calculate_agent_rewards_ok self) as [E Hok].
  { intros a _. now apply fit_ratios_ok. }
  exists (snd (store_after self)). split; [exact E|]. cbv zeta. split.
  - intros agent_id Ha.
    destruct (stored_reward self agent_id Hok Ha) as (ratio & Hr & Hg).
    exists ratio. repeat split; [exact Hr| |exact Hg].
    intros Hnone. rewrite (ratio_absent _ _ Hnone) in Hr. now injection Hr.
  - intros agent_id Ha. now apply rewards_store_get_out.
Qed.

Lemma counts_fit_scenario : counts_fit scenario.
Proof. repeat constructor. Qed.

(** In the scenario the theorem gives [A] the reward [0.545]. *)
Lemma calculate_agent_rewards_formula_witness :
  counts_fit scenario /\
  exists rewards,
    fst (calculate_agent_rewards scenario) = Ok rewards /\
    get rewards "A" = Some lit_0_545.
Proof.
  split; [exact counts_fit_scenario|].
  destruct (calculate_agent_rewards_formula scenario counts_fit_scenario)
    as (rewards & E & Hin & _).
  exists rewards. split; [now rewrite E|].
  destruct (Hin "A"%string) as (ratio & Hr & _ & ->); [now left|].
  vm_compute in Hr. injection Hr as <-. reflexivity.
Defined.

(** Outside the data model, a count of [2^1024] over a total of [1] makes
    the division raise [OverflowError], and the computation returns no
    mapping. *)
Lemma calculate_agent_rewards_overflow :
  fst (calculate_agent_rewards huge_count) = Raise OverflowError.
Proof. vm_compute. reflexivity. Qed.

(** C2.  Whatever the roster, the scores (NaN and infinities included) and
    the milestone counts, a call of [calculate_agent_rewards] on a store
    whose rewards are within [0.0, 1.0], the empty store of a new provider
    for one, leaves a store whose rewards are within [0.0, 1.0], and so is
    every value of the mapping it returns; and it does return a mapping
    whenever the counts are, in absolute value, at most [total_milestones]
    or below [2^1023]. *)
Theorem rewards_within_unit_interval (self : FeedbackProvider) :
  rewards_in_range (agent_rewards self) ->
  rewards_in_range (agent_rewards (snd (calculate_agent_rewards self))) /\
  (forall rewards,
     fst (calculate_agent_rewards self) = Ok rewards ->
     forall agent_id r,
       get rewards agent_id = Some r -> leb lit_0_0 r = true /\ leb r lit_1_0 = true) /\
  (counts_fit self -> is_ok (fst (calculate_agent_rewards self)) = true).
Proof.
  intros Hin.
  assert (Hret : counts_fit self ->
                 is_ok (fst (calculate_agent_rewards self)) = true).
  { intros Hfit. destruct (calculate_agent_rewards_ok self) as [-> _]; [|reflexivity].
    intros a _. now apply fit_ratios_ok. }
  revert Hret. rewrite calculate_agent_rewards_store. simpl. intros Hret.
  assert (H : rewards_in_range (snd (store_after self))).
  { apply rewards_store_values; [|exact Hin].
    intros a r. unfold reward_in_loop.
    destruct (if mem _ a then _ else _); [|discriminate].
    intros [= <-]. apply agent_reward_in_unit_interval. }
  split; [exact H|]. split; [|exact Hret].
  intros rewards E agent_id r Hg.
  destruct (fst (store_after self)); [|discriminate]. injection E as <-.
  unfold rewards_in_range in H. rewrite Forall_forall in H.
  apply get_In_values, H in Hg. now apply andb_prop in Hg.
Qed.

(** The new provider of the scenario: its store is empty, and within range
    after the call. *)
Lemma rewards_within_unit_interval_witness :
  rewards_in_range (agent_rewards scenario) /\
  rewards_in_range (agent_rewards (snd (calculate_agent_rewards scenario))).
Proof.
  split; [constructor|].
  apply (rewards_within_unit_interval scenario). constructor.
Defined.

(** ** The latest scores *)

Lemma latest_or_snoc (scores : list float) (x default : float) :
  latest_or (scores ++ [x]) default = x.
Proof.
  unfold latest_or. destruct (scores ++ [x]) eqn:E.
  - now destruct scores.
  - rewrite <- E. apply last_last.
Qed.

(** C3 (amended).  Each latest score is the last element of its sequence,
    or [3.0] when the sequence is empty or missing; a last element equal to
    the sentinel [-1] becomes [0.0]; the score is then multiplied by
    [1.0 / 5.0], the float [0.2].  The sentinel normalises to [0.0] exactly;
    the default normalises to [3.0 * 0.2], which in binary64 is
    [0.6000000000000001], the float next above [0.6].  The method has no
    error path: it returns a pair for every snapshot. *)
Theorem latest_scores_normalization (self : FeedbackProvider) :
  let m := evaluator_metrics self in
  let sentinel_to_zero x := if eqb x minus_one then lit_0_0 else x in
  (forall scores x, planning_score m = Some (scores ++ [x]) ->
     fst (_get_latest_scores self) = sentinel_to_zero x) /\
  (planning_score m = None \/ planning_score m = Some [] ->
     fst (_get_latest_scores self) = lit_3_0) /\
  (forall scores x, communication_score m = Some (scores ++ [x]) ->
     snd (_get_latest_scores self) = sentinel_to_zero x) /\
  (communication_score m = None \/ communication_score m = Some [] ->
     snd (_get_latest_scores self) = lit_3_0) /\
  sentinel_to_zero minus_one = lit_0_0 /\
  (forall x, normalized x = (x * (lit_1_0 / lit_5_0))%pyfloat) /\
  (lit_1_0 / lit_5_0)%pyfloat = lit_0_2 /\
  normalized lit_0_0 = lit_0_0 /\
  normalized lit_3_0 = lit_0_6000000000000001 /\
  ltb lit_0_6 (normalized lit_3_0) = true.
Proof.
  cbv zeta. unfold _get_latest_scores. simpl fst. simpl snd.
  repeat split.
  - intros scores x ->. simpl metrics_get. now rewrite latest_or_snoc.
  - now intros [-> | ->].
  - intros scores x ->. simpl metrics_get. now rewrite latest_or_snoc.
  - now intros [-> | ->].
Qed.

(** In the scenario the latest scores are [4.0] and, for the sentinel,
    [0.0]; without scores they are [3.0]. *)
Lemma latest_scores_normalization_witness :
  planning_score (evaluator_metrics scenario) = Some ([] ++ [lit_4_0]) /\
  fst (_get_latest_scores scenario) = lit_4_0 /\
  communication_score (evaluator_metrics scenario) = Some ([] ++ [minus_one]) /\
  snd (_get_latest_scores scenario) = lit_0_0 /\
  fst (_get_latest_scores no_scores) = lit_3_0.
Proof.
  pose proof (latest_scores_normalization scenario) as (Hp & _ & Hc & _).
  pose proof (latest_scores_normalization no_scores) as (_ & Hd & _).
  split; [reflexivity|]. split; [exact (Hp [] lit_4_0 eq_refl)|].
  split; [reflexivity|]. split; [exact (Hc [] minus_one eq_refl)|].
  apply Hd. now right.
Defined.

(** C3 (as stated) fails: with both sequences empty the normalised scores
    are [0.6000000000000001], which does not compare equal to [0.6]. *)
Lemma default_score_is_not_0_6 :
  normalized (fst (_get_latest_scores no_scores)) = lit_0_6000000000000001 /\
  normalized (snd (_get_latest_scores no_scores)) = lit_0_6000000000000001 /\
  eqb (normalized (fst (_get_latest_scores no_scores))) lit_0_6 = false /\
  eqb (normalized (snd (_get_latest_scores no_scores))) lit_0_6 = false.
Proof. repeat split. Qed.

(** ** The guard of the contribution ratio *)

(** C4.  With a [total_milestones] entry [t], the ratio of an agent is
    Python's [agent_milestones.get(agent_id, 0) / t] when [t > 0] and [0.0]
    otherwise, for every milestone map; an agent without an entry gets
    [0.0]; the guard keeps the division from a zero divisor, so
    [ZeroDivisionError] is never raised.  No exception is raised at all on
    the data model, where the count is not above [t], and more generally
    whenever the count is, in absolute value, at most [t] or below
    [2^1023]: the one exception the division has left is [OverflowError],
    for a quotient too large for a float. *)
Theorem contribution_ratio_guarded (self : FeedbackProvider) (agent_id : string)
    (t : Z) :
  total_milestones (evaluator_metrics self) = Some t ->
  let n := get_default (kpis_of self) agent_id 0 in
  let ratio := _calculate_agent_contribution_ratio self agent_id in
  (0 < t -> ratio = py_int_truediv n t) /\
  (t <= 0 -> ratio = Ok lit_0_0) /\
  (get (kpis_of self) agent_id = None -> ratio = Ok lit_0_0) /\
  ratio <> Raise ZeroDivisionError /\
  (forall e, ratio = Raise e -> e = OverflowError) /\
  (count_fits self n -> exists q, ratio = Ok q /\ is_finite q = true).
Proof.
  intros Ht n ratio.
  assert (E : ratio = if 0 <? t then py_int_truediv n t else Ok lit_0_0).
  { unfold ratio. rewrite ratio_unfold. cbv zeta. now rewrite Ht. }
  repeat split.
  - intros H. rewrite E. now destruct (Z.ltb_spec 0 t); [|lia].
  - intros H. rewrite E. now destruct (Z.ltb_spec 0 t); [lia|].
  - apply ratio_absent.
  - apply ratio_not_zero_division.
  - intros e. apply ratio_raises_overflow.
  - apply ratio_fit.
Qed.

(** In the scenario [A] has the ratio [3 / 4], and an unknown agent [0.0]. *)
Lemma contribution_ratio_guarded_witness :
  total_milestones (evaluator_metrics scenario) = Some 4 /\
  _calculate_agent_contribution_ratio scenario "A" = py_int_truediv 3 4 /\
  _calculate_agent_contribution_ratio scenario "Z" = Ok lit_0_0.
Proof.
  split; [reflexivity|].
  pose proof (contribution_ratio_guarded scenario "A" 4 eq_refl) as (HA & _).
  pose proof (contribution_ratio_guarded scenario "Z" 4 eq_refl) as (_ & _ & HZ & _).
  split; [apply HA; lia|apply HZ; reflexivity].
Defined.

(** Outside the data model, with [total_milestones = 1] and a count of
    [2^1024], the quotient is too large for a float and the method raises. *)
Lemma contribution_ratio_overflow :
  total_milestones (evaluator_metrics huge_count) = Some 1 /\
  _calculate_agent_contribution_ratio huge_count "A" = Raise OverflowError.
Proof. split; [reflexivity|]. vm_compute. reflexivity. Qed.

(** ** The ranking of [sorted_agent_contribution] *)

Lemma sorted_agent_contribution_ok (self : FeedbackProvider) :
  wf (kpis_of self) ->
  (forall a, In a (keys (kpis_of self)) ->
     is_ok (_calculate_agent_contribution_ratio self a) = true) ->
  sorted_agent_contribution self
  = Ok (py_sorted ltb snd true
          (map (fun a => (a, ratio_or_zero self a)) (keys (kpis_of self)))).
Proof.
  intros Hwf Hok. unfold sorted_agent_contribution.
  rewrite agent_contribution_items; auto.
Qed.

(** The one error path of the ranking: the [OverflowError] of the
    contribution ratio of a key of [agent_kpis]. *)
Lemma sorted_agent_contribution_raises (self : FeedbackProvider) (e : exn) :
  sorted_agent_contribution self = Raise e ->
  e = OverflowError /\
  exists agent_id,
    In agent_id (keys (kpis_of self)) /\
    _calculate_agent_contribution_ratio self agent_id = Raise OverflowError.
Proof.
  unfold sorted_agent_contribution.
  destruct (agent_contribution self (keys (kpis_of self)) empty) as [d|e'] eqn:E;
    [discriminate|].
  intros [= ->]. apply agent_contribution_raised in E. destruct E as (a & Ha & Hr).
  pose proof (ratio_raises_overflow _ _ _ Hr) as ->. eauto.
Qed.

Lemma sorted_agent_contribution_overflows (self : FeedbackProvider) (agent_id : string) :
  In agent_id (keys (kpis_of self)) ->
  is_ok (_calculate_agent_contribution_ratio self agent_id) = false ->
  sorted_agent_contribution self = Raise OverflowError.
Proof.
  intros Ha Hr.
  destruct (agent_contribution_raise self (keys (kpis_of self)) empty agent_id Ha Hr)
    as [e He].
  assert (E : sorted_agent_contribution self = Raise e).
  { unfold sorted_agent_contribution. now rewrite He. }
  rewrite E. f_equal. now apply sorted_agent_contribution_raises in E.
Qed.

(** C5.  On every snapshot of the data model (lemma
    [data_model_counts_fit]), and more generally whenever every milestone
    count is, in absolute value, at most [total_milestones] or below
    [2^1023], the operation is total: [sorted_agent_contribution] returns
    a list of pairs [(agent_id, ratio)], one for each key of [agent_kpis] and
    for nothing else, whatever the roster; each ratio is the agent's
    contribution ratio; the list is in descending order of ratio; and the
    agents whose ratios compare equal come in the order in which
    [agent_kpis] iterates. *)
Theorem sorted_agent_contribution_ranking (self : FeedbackProvider) :
  wf (kpis_of self) -> counts_fit self ->
  exists ranking,
    sorted_agent_contribution self = Ok ranking /\
    Permutation (map fst ranking) (keys (kpis_of self)) /\
    (forall agent_id ratio, In (agent_id, ratio) ranking ->
       _calculate_agent_contribution_ratio self agent_id = Ok ratio) /\
    StronglySorted ratio_ge ranking /\
    (forall r, map fst (filter (fun p => eqb (snd p) r) ranking)
               = filter (ratio_is self r) (keys (kpis_of self))).
Proof.
  intros Hwf Hfit.
  pose proof (fit_ratios_ok self Hfit) as Hok.
  eexists. split; [apply sorted_agent_contribution_ok; auto|].
  pose proof (ratios_no_nan self (keys (kpis_of self))) as Hnan.
  repeat split.
  - rewrite py_sorted_perm. now rewrite map_fst_ratios.
  - intros agent_id ratio Hin.
    apply (Permutation_in _ (py_sorted_perm _)) in Hin.
    apply in_map_iff in Hin. destruct Hin as (a & [= -> <-] & _).
    unfold ratio_or_zero. specialize (Hok agent_id).
    now destruct (_calculate_agent_contribution_ratio self agent_id).
  - now apply py_sorted_descending.
  - intros r. rewrite py_sorted_stable. apply filter_ratios.
Qed.

Lemma wf_scenario : wf (kpis_of scenario).
Proof.
  repeat constructor; simpl; intuition discriminate.
Qed.

(** The ranking of the scenario. *)
Lemma sorted_agent_contribution_ranking_witness :
  wf (kpis_of scenario) /\ counts_fit scenario /\
  sorted_agent_contribution scenario
  = Ok [("A"%string, lit_0_75); ("B"%string, lit_0_25)].
Proof.
  split; [exact wf_scenario|]. split; [exact counts_fit_scenario|].
  destruct (sorted_agent_contribution_ranking scenario wf_scenario counts_fit_scenario)
    as (ranking & E & _).
  rewrite E. vm_compute in E. now injection E as <-.
Defined.

(** Outside the data model, a count of [2^1024] over a total of [1] makes
    the operation raise [OverflowError]. *)
Lemma sorted_agent_contribution_overflow :
  sorted_agent_contribution huge_count = Raise OverflowError.
Proof. vm_compute. reflexivity. Qed.

(** ** The empty roster *)

(** The two invariants of the store: they hold in a new provider, and
    [calculate_agent_rewards] keeps the stored names within the roster (as
    it keeps the stored values within range). *)
Lemma init_store_invariants (task : string) (agent_profiles : dict string)
    (metrics : Metrics) (is_feedback : bool) (llm : string)
    (feedback_prompts : dict (dict string)) :
  let self := init task agent_profiles metrics is_feedback llm feedback_prompts in
  store_within_roster self /\ rewards_in_range (agent_rewards self).
Proof. split; [intros k []|constructor]. Qed.

Lemma calculate_agent_rewards_within_roster (self : FeedbackProvider) :
  store_within_roster self ->
  store_within_roster (snd (calculate_agent_rewards self)).
Proof.
  intros H k. rewrite calculate_agent_rewards_store. simpl.
  intros Hk. apply rewards_store_keys in Hk. destruct Hk; auto.
Qed.

(** C6 (amended).  With an empty roster [calculate_agent_rewards] raises
    nothing and returns the stored mapping untouched: the empty mapping, as
    the stored rewards name agents of the roster only.  The ranking does not
    read the roster: it is empty exactly when [agent_kpis] is empty or
    missing, and it never divides by zero. *)
Theorem empty_roster_rewards_and_ranking (self : FeedbackProvider) :
  agent_profiles self = empty ->
  calculate_agent_rewards self = (Ok (agent_rewards self), self) /\
  (store_within_roster self -> fst (calculate_agent_rewards self) = Ok empty) /\
  (sorted_agent_contribution self = Ok [] <-> kpis_of self = empty) /\
  sorted_agent_contribution self <> Raise ZeroDivisionError.
Proof.
  intros Hroster.
  assert (E : calculate_agent_rewards self = (Ok (agent_rewards self), self)).
  { rewrite calculate_agent_rewards_store. unfold store_after. rewrite Hroster.
    simpl. now rewrite with_agent_rewards_same. }
  split; [exact E|]. split; [|split].
  - intros Hstore. rewrite E. simpl. f_equal.
    unfold store_within_roster in Hstore. rewrite Hroster in Hstore.
    destruct (agent_rewards self) as [|[k r] d]; [reflexivity|].
    destruct (Hstore k). now left.
  - unfold sorted_agent_contribution. split.
    + destruct (kpis_of self) as [|[a n] kpis] eqn:Ek; [reflexivity|].
      destruct (agent_contribution self (keys ((a, n) :: kpis)) empty) as [d|e] eqn:Ed;
        [|discriminate].
      intros H. exfalso.
      assert (Hnil : py_sorted ltb snd true (items d) = []) by congruence.
      assert (Ha : In a (keys d)).
      { eapply agent_contribution_keys; [exact Ed|]. right. now left. }
      pose proof (py_sorted_perm (items d)) as Hp. rewrite Hnil in Hp.
      apply Permutation_nil in Hp. unfold items in Hp. now rewrite Hp in Ha.
    + now intros ->.
  - intros H. apply sorted_agent_contribution_raises in H. now destruct H.
Qed.

(** The snapshot of the scenario beside an empty roster. *)
Lemma empty_roster_rewards_and_ranking_witness :
  agent_profiles (provider_of empty scenario_metrics) = empty /\
  fst (calculate_agent_rewards (provider_of empty scenario_metrics)) = Ok empty.
Proof.
  split; [reflexivity|].
  apply (empty_roster_rewards_and_ranking (provider_of empty scenario_metrics));
    [reflexivity|intros k []].
Defined.

(** C6 (as stated) fails: with an empty roster and a snapshot that counts a
    milestone for [A], the ranking has one pair. *)
Lemma empty_roster_ranking_not_empty :
  agent_profiles empty_roster = empty /\
  sorted_agent_contribution empty_roster = Ok [("A"%string, lit_1_0)].
Proof. split; reflexivity. Qed.

(** ** A negative total *)

(** C7 (amended).  A negative [total_milestones] raises no fault: the guard
    [total_milestones > 0] fails, the contribution ratio of every agent is
    [0.0], the ranking is returned, and [calculate_agent_rewards] returns
    the rewards of the two team scores alone for every agent of the roster. *)
Theorem negative_total_is_silent (self : FeedbackProvider) (t : Z) :
  total_milestones (evaluator_metrics self) = Some t -> t < 0 ->
  (forall agent_id, _calculate_agent_contribution_ratio self agent_id = Ok lit_0_0) /\
  is_ok (sorted_agent_contribution self) = true /\
  exists rewards,
    calculate_agent_rewards self = (Ok rewards, with_agent_rewards self rewards) /\
    forall agent_id, In agent_id (keys (agent_profiles self)) ->
      get rewards agent_id
      = Some (clamp (lit_0_4 * normalized (fst (_get_latest_scores self))
                     + lit_0_3 * normalized (snd (_get_latest_scores self))
                     + lit_0_3 * lit_0_0)%pyfloat lit_0_0 lit_1_0).
Proof.
  intros Ht Hneg.
  assert (Hr : forall a, _calculate_agent_contribution_ratio self a = Ok lit_0_0).
  { intros a. rewrite ratio_unfold. cbv zeta. rewrite Ht. simpl metrics_get.
    now destruct (Z.ltb_spec 0 t); [lia|]. }
  split; [exact Hr|]. split.
  { destruct (sorted_agent_contribution self) as [ranking|e] eqn:Es; [reflexivity|].
    apply sorted_agent_contribution_raises in Es.
    destruct Es as (_ & a & _ & Ha). rewrite Hr in Ha. discriminate. }
  destruct (calculate_agent_rewards_ok self) as [E Hok].
  { intros a _. now rewrite Hr. }
  exists (snd (store_after self)). split; [exact E|].
  intros agent_id Ha.
  destruct (stored_reward self agent_id Hok Ha) as (ratio & Hratio & Hg).
  rewrite Hr in Hratio. injection Hratio as <-. exact Hg.
Qed.

(** The scenario with [total_milestones = -1]. *)
Lemma negative_total_is_silent_witness :
  total_milestones (evaluator_metrics negative_total) = Some (-1) /\ -1 < 0 /\
  _calculate_agent_contribution_ratio negative_total "A" = Ok lit_0_0.
Proof.
  split; [reflexivity|]. split; [lia|].
  apply (negative_total_is_silent negative_total (-1)); [reflexivity|lia].
Defined.

(** C7 (as stated) fails: with [total_milestones = -1] nothing is raised;
    the ratio of [A], who has 3 milestones, is [0.0], and the rewards and
    the ranking are returned. *)
Lemma negative_total_returns :
  total_milestones (evaluator_metrics negative_total) = Some (-1) /\
  _calculate_agent_contribution_ratio negative_total "A" = Ok lit_0_0 /\
  is_ok (fst (calculate_agent_rewards negative_total)) = true /\
  sorted_agent_contribution negative_total
  = Ok [("A"%string, lit_0_0); ("B"%string, lit_0_0)].
Proof. repeat split. Qed.

(** ** Calling twice *)

Lemma store_after_idem (self : FeedbackProvider) :
  store_after (with_agent_rewards self (snd (store_after self))) = store_after self.
Proof. unfold store_after at 1. simpl. apply rewards_store_idem. Qed.

(** The ranking reads the snapshot and nothing of the stored rewards. *)
Lemma sorted_agent_contribution_frame (self : FeedbackProvider) (d : dict float) :
  sorted_agent_contribution (with_agent_rewards self d) = sorted_agent_contribution self.
Proof.
  unfold sorted_agent_contribution. change (kpis_of (with_agent_rewards self d)) with (kpis_of self).
  replace (agent_contribution (with_agent_rewards self d) (keys (kpis_of self)) empty)
    with (agent_contribution self (keys (kpis_of self)) empty); [reflexivity|].
  generalize (@empty float). induction (keys (kpis_of self)) as [|a ids IH]; intros acc; simpl.
  - reflexivity.
  - change (_calculate_agent_contribution_ratio (with_agent_rewards self d) a)
      with (_calculate_agent_contribution_ratio self a).
    destruct (_calculate_agent_contribution_ratio self a); [apply IH|reflexivity].
Qed.

(** C8.  A second call of [calculate_agent_rewards], on the provider as the
    first call has left it, returns what the first returned and leaves the
    provider as it was: the same mapping, entry by entry and bit by bit (or
    the same exception).  The call changes neither the snapshot nor the
    roster, and the ranking, which reads nothing but the snapshot, is the
    same before and after. *)
Theorem engine_idempotent (self : FeedbackProvider) :
  let first := calculate_agent_rewards self in
  let second := calculate_agent_rewards (snd first) in
  second = first /\
  evaluator_metrics (snd first) = evaluator_metrics self /\
  agent_profiles (snd first) = agent_profiles self /\
  sorted_agent_contribution (snd first) = sorted_agent_contribution self.
Proof.
  cbv zeta. rewrite (calculate_agent_rewards_store self). simpl snd.
  split; [|split; [reflexivity|split; [reflexivity|apply sorted_agent_contribution_frame]]].
  rewrite calculate_agent_rewards_store, store_after_idem. reflexivity.
Qed.

(** ** Without a total *)

(** C9.  Without a [total_milestones] entry the divisor is the agent's own
    count: an agent with a positive count gets exactly [1.0], an agent with
    a count of [0] (or below) or with no entry gets [0.0].  The ratio is then
    not the share of a team total: in the snapshot [{A: 3, B: 1}] agent [B]
    gets [1.0] without the entry and [0.25] with the entry [4]. *)
Theorem ratio_without_total (self : FeedbackProvider) (agent_id : string) :
  total_milestones (evaluator_metrics self) = None ->
  (forall n, get (kpis_of self) agent_id = Some n -> 0 < n ->
     _calculate_agent_contribution_ratio self agent_id = Ok lit_1_0) /\
  (forall n, get (kpis_of self) agent_id = Some n -> n <= 0 ->
     _calculate_agent_contribution_ratio self agent_id = Ok lit_0_0) /\
  (get (kpis_of self) agent_id = None ->
     _calculate_agent_contribution_ratio self agent_id = Ok lit_0_0) /\
  _calculate_agent_contribution_ratio scenario_without_total "B" = Ok lit_1_0 /\
  _calculate_agent_contribution_ratio scenario "B" = Ok lit_0_25.
Proof.
  intros Ht. rewrite ratio_unfold. cbv zeta. rewrite Ht. simpl metrics_get.
  unfold get_default. repeat split.
  - intros n -> Hn. destruct (Z.ltb_spec 0 n); [|lia]. now apply py_int_truediv_diag.
  - intros n -> Hn. now destruct (Z.ltb_spec 0 n); [lia|].
  - now intros ->.
Qed.

(** The scenario without its [total_milestones] entry. *)
Lemma ratio_without_total_witness :
  total_milestones (evaluator_metrics scenario_without_total) = None /\
  _calculate_agent_contribution_ratio scenario_without_total "A" = Ok lit_1_0 /\
  _calculate_agent_contribution_ratio scenario_without_total "Z" = Ok lit_0_0.
Proof.
  split; [reflexivity|].
  pose proof (ratio_without_total scenario_without_total "A" eq_refl) as (HA & _).
  pose proof (ratio_without_total scenario_without_total "Z" eq_refl) as (_ & _ & HZ & _).
  split; [apply (HA 3); [reflexivity|lia]|apply HZ; reflexivity].
Defined.

(** ** [generate_reward_explanation] *)

(** C10.  For an agent outside the roster, on a provider whose stored
    rewards name agents of the roster only (as they do from construction
    on) and whose snapshot is of the data model (lemma
    [data_model_counts_fit]) or, more generally, has every milestone count,
    in absolute value, at most [total_milestones] or below [2^1023],
    [generate_reward_explanation] raises nothing: it recomputes the rewards
    once, the agent is still absent from them, and it returns
    ["Agent {agent_id} No or valid data"], leaving a stored mapping whose
    keys are exactly the roster. *)
Theorem reward_explanation_unknown_agent
    (str_format : string -> float -> float -> float -> float -> result string)
    (model_prompting : string -> string -> result string)
    (str_of_exn : exn -> string)
    (self : FeedbackProvider) (agent_id : string) :
  ~ In agent_id (keys (agent_profiles self)) ->
  store_within_roster self ->
  counts_fit self ->
  exists rewards,
    fst (calculate_agent_rewards self) = Ok rewards /\
    get rewards agent_id = None /\
    generate_reward_explanation str_format model_prompting str_of_exn agent_id self
    = (Ok ("Agent " ++ agent_id ++ " No or valid data")%string,
       with_agent_rewards self rewards) /\
    (forall k, In k (keys rewards) <-> In k (keys (agent_profiles self))).
Proof.
  intros Hout Hstore Hfit.
  destruct (calculate_agent_rewards_ok self) as [E Hok].
  { intros a _. now apply fit_ratios_ok. }
  set (rewards := snd (store_after self)) in *.
  assert (Hkeys : forall k, In k (keys rewards) <-> In k (keys (agent_profiles self))).
  { intros k. split.
    - intros H. apply rewards_store_keys in H. destruct H; auto.
    - intros H. destruct (rewards_store_get_in _ _ _ _ Hok H) as (r & _ & Hg).
      apply mem_In. unfold mem, rewards, store_after. now rewrite Hg. }
  assert (Hnone : get rewards agent_id = None).
  { apply get_None. now rewrite Hkeys. }
  assert (Hnone0 : get (agent_rewards self) agent_id = None).
  { apply get_None. intros H. apply Hout. now apply Hstore. }
  exists rewards. split; [now rewrite E|]. split; [exact Hnone|]. split; [|exact Hkeys].
  unfold generate_reward_explanation, bind, read, mem. rewrite Hnone0.
  rewrite E. simpl. rewrite Hnone. reflexivity.
Qed.

(** Agent [Z] is not in the roster of the scenario; the collaborators are
    never reached. *)
Lemma reward_explanation_unknown_agent_witness :
  ~ In "Z"%string (keys (agent_profiles scenario)) /\
  fst (generate_reward_explanation (fun _ _ _ _ _ => Raise KeyError)
         (fun _ _ => Raise KeyError) (fun _ => ""%string) "Z" scenario)
  = Ok "Agent Z No or valid data"%string.
Proof.
  assert (Hout : ~ In "Z"%string (keys (agent_profiles scenario))).
  { simpl. intuition discriminate. }
  split; [exact Hout|].
  destruct (reward_explanation_unknown_agent (fun _ _ _ _ _ => Raise KeyError)
              (fun _ _ => Raise KeyError) (fun _ => ""%string) scenario "Z" Hout)
    as (rewards & _ & _ & E & _).
  - intros k [].
  - exact counts_fit_scenario.
  - now rewrite E.
Defined.

(** Outside the data model, when an agent of the roster has a count of
    [2^1024] over a total of [1], the recomputation raises [OverflowError]
    and so does [generate_reward_explanation] for an agent outside the
    roster. *)
Lemma reward_explanation_overflow :
  mem (agent_profiles huge_count) "Z" = false /\
  fst (generate_reward_explanation (fun _ _ _ _ _ => Ok ""%string)
         (fun _ _ => Ok ""%string) (fun _ => ""%string) "Z" huge_count)
  = Raise OverflowError.
Proof. split; [reflexivity|]. vm_compute. reflexivity. Qed.

(** ** The contribution ratio within the data model *)

Lemma leb_one (m : positive) (e : Z) :
  e <= -52 -> Zpos m <= 2 ^ (- e) -> leb (S754_finite false m e) lit_1_0 = true.
Proof.
  intros He Hm. unfold leb, SFleb, lit_1_0, SFcompare.
  destruct (Z.compare_spec e (-52)) as [->|Hlt|Hgt]; [|reflexivity|lia].
  change (2 ^ (- -52)) with 4503599627370496 in Hm.
  rewrite compare_cont_Eq.
  destruct (Pos.compare_spec m 4503599627370496) as [->|H|H]; try reflexivity; lia.
Qed.

(** A mantissa below [2^(-e)], a value below one, rounds into [0.0, 1.0]. *)
Lemma binary_round_aux_unit (m e : Z) (l : location) :
  0 <= m -> e <= -53 -> m < 2 ^ (- e) ->
  in_unit_interval (binary_round_aux prec emax false m e l) = true.
Proof.
  intros Hm He Hlt. unfold binary_round_aux.
  pose proof (shr_fexp_spec m e l Hm) as H1. cbv zeta in H1. rewrite fexp_eq in H1.
  pose proof (Zdigits2_nonneg m) as Hd0.
  assert (Hd : Zdigits2 m <= - e) by (apply Zdigits2_le; lia).
  destruct (shr_fexp prec emax m e l) as [mrs1 e1].
  set (m2 := round_nearest_even (shr_m mrs1) (loc_of_shr_record mrs1)).
  pose proof (round_nearest_even_bounds (shr_m mrs1) (loc_of_shr_record mrs1)) as Hr.
  fold m2 in Hr.
  assert (H : 0 <= shr_m mrs1 /\ e1 <= -53 /\ shr_m mrs1 < 2 ^ (- e1)).
  { set (n := Z.max (Zdigits2 m + e - 53) (-1074) - e) in *.
    destruct (Z.lt_ge_cases 0 n) as [Hn|Hn].
    - destruct H1 as [H1 _]. destruct (H1 Hn) as [E1 E2]. clear H1.
      pose proof (pow2_pos n ltac:(lia)) as Hp.
      rewrite E1. split; [apply Z.div_pos; lia|]. split; [lia|].
      apply Z.div_lt_upper_bound; [lia|].
      rewrite <- Z.pow_add_r by lia.
      replace (n + - e1) with (- e) by lia. exact Hlt.
    - destruct H1 as [_ H1]. destruct (H1 Hn) as [E1 E2]. subst e1.
      rewrite E1. auto. }
  destruct H as (Hm1 & He1 & Hlt1).
  assert (Hm2 : 0 <= m2) by lia.
  assert (Hle2 : m2 <= 2 ^ (- e1)) by lia.
  pose proof (shr_fexp_spec m2 e1 loc_Exact Hm2) as H2. cbv zeta in H2.
  rewrite fexp_eq in H2.
  assert (Hd2 : Zdigits2 m2 <= - e1 + 1).
  { apply Zdigits2_le; [lia|lia|].
    rewrite Z.pow_add_r, Z.pow_1_r by lia.
    pose proof (pow2_pos (- e1) ltac:(lia)). lia. }
  destruct (shr_fexp prec emax m2 e1 loc_Exact) as [mrs2 e2].
  assert (H : 0 <= shr_m mrs2 /\ e2 <= -52 /\ shr_m mrs2 <= 2 ^ (- e2)).
  { set (n := Z.max (Zdigits2 m2 + e1 - 53) (-1074) - e1) in *.
    destruct (Z.lt_ge_cases 0 n) as [Hn|Hn].
    - destruct H2 as [H2 _]. destruct (H2 Hn) as [E1 E2]. clear H2.
      pose proof (pow2_pos n ltac:(lia)) as Hp.
      rewrite E1. split; [apply Z.div_pos; lia|]. split; [lia|].
      apply Z.div_le_upper_bound; [lia|].
      rewrite <- Z.pow_add_r by lia.
      replace (n + - e2) with (- e1) by lia. exact Hle2.
    - destruct H2 as [_ H2]. destruct (H2 Hn) as [E1 E2]. subst e2.
      rewrite E1. split; [lia|]. split; [lia|exact Hle2]. }
  destruct H as (Hm3 & He2 & Hle3).
  destruct (shr_m mrs2) as [|p|p]; [reflexivity| |lia].
  replace (e2 <=? emax - prec) with true
    by (symmetry; apply Z.leb_le; unfold emax, prec; lia).
  unfold in_unit_interval. now rewrite leb_one.
Qed.

Lemma Zdigits2_mono (a b : Z) : 0 <= a <= b -> Zdigits2 a <= Zdigits2 b.
Proof.
  intros H. apply Zdigits2_le; [lia|apply Zdigits2_nonneg|].
  pose proof (Zdigits2_gt b ltac:(lia)). lia.
Qed.

(** A part of a whole, as a quotient, is within [0.0, 1.0]. *)
Lemma round_div_unit (n t : Z) :
  0 <= n <= t -> 0 < t -> in_unit_interval (round_div n t) = true.
Proof.
  intros Hn Ht.
  destruct (Z.eq_dec n t) as [->|Hne]; [now rewrite round_div_diag by lia|].
  unfold round_div. rewrite !Z.abs_eq by lia.
  rewrite SFdiv_core_binary_ints by lia. cbv zeta.
  replace (n <? 0) with false by (symmetry; apply Z.ltb_ge; lia).
  replace (t <? 0) with false by (symmetry; apply Z.ltb_ge; lia).
  simpl xorb.
  pose proof (Zdigits2_mono n t Hn) as Hd.
  rewrite fexp_eq.
  set (e := Z.min (Z.max (Zdigits2 n - Zdigits2 t - 53) (-1074)) 0).
  assert (He : e <= -53) by (unfold e; lia).
  pose proof (pow2_pos (- e) ltac:(lia)) as Hp.
  apply binary_round_aux_unit.
  - apply Z.div_pos; [|lia]. apply Z.mul_nonneg_nonneg; lia.
  - exact He.
  - apply Z.div_lt_upper_bound; [lia|]. nia.
Qed.

(** X1.  Within the data model, a milestone count that is not negative and
    not above [total_milestones], the contribution ratio is returned, raises
    nothing, and lies within [0.0, 1.0], as the docstring of
    [_calculate_agent_contribution_ratio] says; without a
    [total_milestones] entry every count that is not negative gives a ratio
    within [0.0, 1.0]. *)
Theorem contribution_ratio_within_unit_interval (self : FeedbackProvider)
    (agent_id : string) :
  let n := get_default (kpis_of self) agent_id 0 in
  0 <= n ->
  (forall t, total_milestones (evaluator_metrics self) = Some t -> n <= t) ->
  exists q,
    _calculate_agent_contribution_ratio self agent_id = Ok q /\
    leb lit_0_0 q = true /\ leb q lit_1_0 = true.
Proof.
  intros n Hn Ht. rewrite ratio_unfold. fold n. cbv zeta.
  assert (Hq : forall t, 0 <= n <= t ->
            exists q, (if 0 <? t then py_int_truediv n t else Ok lit_0_0) = Ok q /\
                      leb lit_0_0 q = true /\ leb q lit_1_0 = true).
  { intros t Hnt. destruct (Z.ltb_spec 0 t) as [Hpos|Hle].
    - destruct (py_int_truediv_total n t) as [E _]; [lia| |].
      + rewrite !Z.abs_eq by lia.
        assert (1 < 2 ^ 1023) by (apply Z.pow_gt_1; lia). nia.
      + exists (round_div n t). split; [exact E|].
        apply andb_prop. apply (round_div_unit n t); lia.
    - exists lit_0_0. repeat split. }
  destruct (total_milestones (evaluator_metrics self)) as [t|] eqn:Et; simpl.
  - apply Hq. split; [exact Hn|]. now apply Ht.
  - apply Hq. lia.
Qed.

(** Agent [A] of the scenario: 3 milestones out of 4. *)
Lemma contribution_ratio_within_unit_interval_witness :
  exists q,
    _calculate_agent_contribution_ratio scenario "A" = Ok q /\
    leb lit_0_0 q = true /\ leb q lit_1_0 = true.
Proof.
  apply (contribution_ratio_within_unit_interval scenario "A").
  - change (0 <= 3). lia.
  - intros t [= <-]. change (3 <= 4). lia.
Defined.

(** ** A latest score that is not a number *)

Lemma mul_nan_l (x : float) : (S754_nan * x)%pyfloat = S754_nan.
Proof. reflexivity. Qed.

Lemma mul_nan_r (x : float) : (x * S754_nan)%pyfloat = S754_nan.
Proof. now destruct x. Qed.

Lemma add_nan_l (x : float) : (S754_nan + x)%pyfloat = S754_nan.
Proof. reflexivity. Qed.

Lemma add_nan_r (x : float) : (x + S754_nan)%pyfloat = S754_nan.
Proof. now destruct x. Qed.

Lemma is_nan_eq (x : float) : is_nan x = true -> x = S754_nan.
Proof. now destruct x. Qed.

(** [max(0.0, min(1.0, nan))] is [1.0]: [min] keeps its first argument when
    the comparison with the second is false. *)
Lemma agent_reward_of_nan (lp lc cr : float) :
  is_nan lp = true \/ is_nan lc = true -> agent_reward_of lp lc cr = lit_1_0.
Proof.
  intros H. unfold agent_reward_of, normalized.
  assert (E : (planning REWARD_WEIGHTS * (lp * score_normalize_factor)
               + communication REWARD_WEIGHTS * (lc * score_normalize_factor)
               + contribution REWARD_WEIGHTS * cr)%pyfloat = S754_nan).
  { destruct H as [H|H]; apply is_nan_eq in H; subst.
    - now rewrite mul_nan_l, mul_nan_r, !add_nan_l.
    - now rewrite mul_nan_l, mul_nan_r, add_nan_r, add_nan_l. }
  rewrite E. reflexivity.
Qed.

(** X2.  When the latest planning score or the latest communication score
    is NaN and the milestone counts fit (as they do on the data model),
    [calculate_agent_rewards] gives every agent of the roster the reward
    [1.0], whatever its contribution: the weighted sum is NaN, and
    [max(0.0, min(1.0, nan))] is [1.0]. *)
Theorem nan_score_gives_full_reward (self : FeedbackProvider) :
  is_nan (fst (_get_latest_scores self)) = true \/
  is_nan (snd (_get_latest_scores self)) = true ->
  counts_fit self ->
  exists rewards,
    fst (calculate_agent_rewards self) = Ok rewards /\
    forall agent_id, In agent_id (keys (agent_profiles self)) ->
      get rewards agent_id = Some lit_1_0.
Proof.
  intros Hnan Hfit.
  destruct (calculate_agent_rewards_ok self) as [E Hok].
  { intros a _. now apply fit_ratios_ok. }
  exists (snd (store_after self)). split; [now rewrite E|].
  intros agent_id Hin.
  destruct (stored_reward self agent_id Hok Hin) as (ratio & _ & Hg).
  now rewrite Hg, agent_reward_of_nan.
Qed.

Lemma nan_score_gives_full_reward_witness :
  exists rewards,
    fst (calculate_agent_rewards nan_planning) = Ok rewards /\
    forall agent_id, In agent_id (keys (agent_profiles nan_planning)) ->
      get rewards agent_id = Some lit_1_0.
Proof.
  apply (nan_score_gives_full_reward nan_planning).
  - left. reflexivity.
  - repeat constructor.
Defined.

(** ** The ranking text *)

Lemma append_nil_l (s t : string) : (s ++ t)%string = EmptyString -> s = EmptyString.
Proof. destruct s; [reflexivity|discriminate]. Qed.



Lemma contribution_ranking_nil : contribution_ranking [] = no_contribution_data.
Proof. reflexivity. Qed.






Lemma fit_sorted_ok (self : FeedbackProvider) :
  counts_fit self -> exists ranking, sorted_agent_contribution self = Ok ranking.
Proof.
  intros Hfit. destruct (sorted_agent_contribution self) as [l|e] eqn:E; [eauto|].
  apply sorted_agent_contribution_raises in E. destruct E as (_ & a & _ & E).
  pose proof (fit_ratios_ok self Hfit a) as H. rewrite E in H. discriminate.
Qed.



(** The ranking text of the scenario, and what [format(ratio, '.2%')] prints
    for a few ratios: [0.125] and [0.375] are ties, rounded to the even
    digit; [1/3] and [2/3] are not exact. *)
Example scenario_ranking_text :
  contribution_ranking [("A"%string, lit_0_75); ("B"%string, lit_0_25)]
  = ("1. A: 75.00%" ++ newline ++ "2. B: 25.00%")%string /\
  format_percent_2 lit_0_0 = "0.00%"%string /\
  format_percent_2 lit_1_0 = "100.00%"%string /\
  format_percent_2 (round_div 1 3) = "33.33%"%string /\
  format_percent_2 (round_div 2 3) = "66.67%"%string /\
  format_percent_2 (round_div 1 8000) = "0.01%"%string /\
  format_percent_2 (round_div 3 8000) = "0.04%"%string /\
  format_percent_2 (round_div 3 2) = "150.00%"%string /\
  format_percent_2 S754_nan = "nan%"%string.
Proof. repeat split; vm_compute; reflexivity. Qed.

(** ** Steps of the methods that call the service *)

Lemma with_individual_feedbacks_same (self : FeedbackProvider) :
  with_individual_feedbacks self (individual_feedbacks self) = self.
Proof. now destruct self. Qed.

Lemma with_team_feedback_same (self : FeedbackProvider) :
  with_team_feedback self (team_feedback self) = self.
Proof. now destruct self. Qed.

Lemma same_inputs_refl (self : FeedbackProvider) : same_inputs self self.
Proof. repeat split. Qed.

Lemma same_inputs_trans (a b c : FeedbackProvider) :
  same_inputs a b -> same_inputs b c -> same_inputs a c.
Proof. unfold same_inputs. intuition congruence. Qed.

(** What the methods read of the inputs depends on the inputs alone. *)
Lemma ratio_same_inputs (self self' : FeedbackProvider) (agent_id : string) :
  evaluator_metrics self' = evaluator_metrics self ->
  _calculate_agent_contribution_ratio self' agent_id
  = _calculate_agent_contribution_ratio self agent_id.
Proof.
  intros H. unfold _calculate_agent_contribution_ratio, kpis_of. now rewrite H.
Qed.

Lemma agent_contribution_same_inputs (self self' : FeedbackProvider)
    (ids : list string) (acc : dict float) :
  evaluator_metrics self' = evaluator_metrics self ->
  agent_contribution self' ids acc = agent_contribution self ids acc.
Proof.
  intros H. revert acc. induction ids as [|a ids IH]; intros acc; simpl.
  - reflexivity.
  - rewrite (ratio_same_inputs self self' a H).
    destruct (_calculate_agent_contribution_ratio self a); auto.
Qed.

Lemma sorted_same_inputs (self self' : FeedbackProvider) :
  evaluator_metrics self' = evaluator_metrics self ->
  sorted_agent_contribution self' = sorted_agent_contribution self.
Proof.
  intros H. unfold sorted_agent_contribution, kpis_of.
  rewrite (agent_contribution_same_inputs self self' _ _ H). now rewrite H.
Qed.

Section FeedbackSteps.

Variable C : Collaborators.

Lemma io_bind_read {A B} (f : FeedbackProvider -> A) (k : A -> IO C B)
    (self : FeedbackProvider) (w : World C) :
  io_bind C (lift C (read f)) k (self, w) = k (f self) (self, w).
Proof. reflexivity. Qed.

Lemma io_bind_try_read {A B} (f : FeedbackProvider -> result A) (k : A -> IO C B)
    (self : FeedbackProvider) (w : World C) :
  io_bind C (lift C (try_read f)) k (self, w)
  = match f self with
    | Ok a => k a (self, w)
    | Raise e => (Raise e, (self, w))
    end.
Proof. unfold io_bind, lift, try_read. simpl. now destruct (f self). Qed.

Lemma io_bind_try_model_prompting {B} (llm_model filled_prompt : string)
    (max_token_num : Z) (k : result string -> IO C B)
    (self : FeedbackProvider) (w : World C) :
  io_bind C (try_model_prompting C llm_model filled_prompt max_token_num) k (self, w)
  = k (fst (model_prompting C llm_model filled_prompt max_token_num w))
      (self, snd (model_prompting C llm_model filled_prompt max_token_num w)).
Proof.
  unfold io_bind, try_model_prompting. simpl.
  now destruct (model_prompting C llm_model filled_prompt max_token_num w).
Qed.

Lemma io_bind_set_individual_feedback {B} (agent_id text : string)
    (k : unit -> IO C B) (self : FeedbackProvider) (w : World C) :
  io_bind C (lift C (set_individual_feedback agent_id text)) k (self, w)
  = k tt (with_individual_feedbacks self
            (set (individual_feedbacks self) agent_id text), w).
Proof. reflexivity. Qed.

Lemma io_bind_set_team_feedback {B} (text : string)
    (k : unit -> IO C B) (self : FeedbackProvider) (w : World C) :
  io_bind C (lift C (set_team_feedback text)) k (self, w)
  = k tt (with_team_feedback self text, w).
Proof. reflexivity. Qed.

Lemma io_bind_calculate_agent_rewards {B} (k : dict float -> IO C B)
    (self : FeedbackProvider) (w : World C) :
  io_bind C (lift C calculate_agent_rewards) k (self, w)
  = match fst (store_after self) with
    | Ok _ => k (snd (store_after self))
                (with_agent_rewards self (snd (store_after self)), w)
    | Raise e => (Raise e, (with_agent_rewards self (snd (store_after self)), w))
    end.
Proof.
  unfold io_bind, lift. simpl. rewrite calculate_agent_rewards_store.
  now destruct (fst (store_after self)).
Qed.

Lemma io_bind_ret {A B} (a : A) (k : A -> IO C B) (s : FeedbackProvider * World C) :
  io_bind C (io_ret C a) k s = k a s.
Proof. reflexivity. Qed.

Lemma io_bind_assoc {A B D} (c : IO C A) (k : A -> IO C B) (k' : B -> IO C D)
    (s : FeedbackProvider * World C) :
  io_bind C (io_bind C c k) k' s = io_bind C c (fun a => io_bind C (k a) k') s.
Proof. unfold io_bind. destruct (c s) as [[a|e] s']; reflexivity. Qed.

(** *** The loop of [generate_individual_feedback] *)

Section IndividualLoop.

Variable data : TaskData C.
Variables lp lc : float.
Variable total : Z.
Variable t : string.

Let loop := individual_loop C data lp lc total t.

(** Whatever happens in the loop, it writes to [individual_feedbacks]
    alone. *)
Lemma individual_loop_frame (rewards : list (string * float))
    (self : FeedbackProvider) (w : World C) :
  exists fb,
    fst (snd (loop rewards (self, w))) = with_individual_feedbacks self fb.
Proof.
  unfold loop. revert self w.
  induction rewards as [|[a rw] rest IH]; intros self w.
  - exists (individual_feedbacks self). simpl.
    now rewrite with_individual_feedbacks_same.
  - cbn [individual_loop]. rewrite !io_bind_read, io_bind_try_read.
    destruct (_calculate_agent_contribution_ratio self a) as [ratio|e].
    2: { exists (individual_feedbacks self). simpl.
         now rewrite with_individual_feedbacks_same. }
    rewrite io_bind_try_read.
    destruct (format_individual C t (task self) a _ lp lc data ratio rw _ total)
      as [filled|e].
    2: { exists (individual_feedbacks self). simpl.
         now rewrite with_individual_feedbacks_same. }
    rewrite io_bind_read, io_bind_try_model_prompting, io_bind_set_individual_feedback.
    match goal with
    | |- context [individual_loop C data lp lc total t rest (?s, ?w')] =>
        destruct (IH s w') as [fb Hfb]; exists fb; rewrite Hfb
    end.
    reflexivity.
Qed.

(** With ratios that are returned and a template that fills, the loop
    raises nothing, whatever the service does, and leaves an entry of the
    service for every agent it goes through. *)
Lemma individual_loop_ok (rewards : list (string * float))
    (self : FeedbackProvider) (w : World C) :
  (forall a, is_ok (_calculate_agent_contribution_ratio self a) = true) ->
  (forall task agent_id agent_profile lp lc data ratio reward milestones total,
     is_ok (format_individual C t task agent_id agent_profile lp lc data ratio
              reward milestones total) = true) ->
  exists fb w',
    loop rewards (self, w) = (Ok tt, (with_individual_feedbacks self fb, w')) /\
    (forall k, In k (keys fb) <->
               In k (keys (individual_feedbacks self)) \/ In k (keys rewards)) /\
    (forall k, In k (keys rewards) ->
       exists text,
         get fb k = Some text /\
         answered C self 1024 "feedbackGenerationFailed:" text) /\
    (forall k, ~ In k (keys rewards) -> get fb k = get (individual_feedbacks self) k).
Proof.
  intros Hr Hf. unfold loop. revert self w Hr.
  induction rewards as [|[a rw] rest IH]; intros self w Hr.
  - exists (individual_feedbacks self), w. simpl.
    rewrite with_individual_feedbacks_same. unfold io_ret.
    repeat split; try tauto.
  - cbn [individual_loop]. rewrite !io_bind_read, io_bind_try_read.
    pose proof (Hr a) as Ha.
    destruct (_calculate_agent_contribution_ratio self a) as [ratio|e];
      [clear Ha|discriminate].
    rewrite io_bind_try_read.
    match goal with
    | |- context [format_individual C t ?x1 ?x2 ?x3 ?x4 ?x5 ?x6 ?x7 ?x8 ?x9 ?x10] =>
        pose proof (Hf x1 x2 x3 x4 x5 x6 x7 x8 x9 x10) as Hfa;
        destruct (format_individual C t x1 x2 x3 x4 x5 x6 x7 x8 x9 x10)
          as [filled|e]; [clear Hfa|discriminate]
    end.
    rewrite io_bind_read, io_bind_try_model_prompting, io_bind_set_individual_feedback.
    set (text := content_or C "feedbackGenerationFailed:"
                   (fst (model_prompting C (llm self) filled 1024 w))).
    set (self1 := with_individual_feedbacks self
                    (set (individual_feedbacks self) a text)).
    set (w1 := snd (model_prompting C (llm self) filled 1024 w)).
    destruct (IH self1 w1 Hr) as (fb & w' & E & Hkeys & Hin & Hout).
    exists fb, w'. split; [exact E|].
    change (individual_feedbacks self1)
      with (set (individual_feedbacks self) a text) in Hkeys, Hout.
    change (keys ((a, rw) :: rest)) with (a :: keys rest).
    split; [|split].
    + intros k. rewrite Hkeys, keys_set. simpl. intuition.
    + intros k Hk.
      destruct (in_dec string_dec k (keys rest)) as [Hrest|Hrest].
      * destruct (Hin k Hrest) as (text' & Hg & filled' & w0 & Ht).
        exists text'. split; [exact Hg|]. exists filled', w0. exact Ht.
      * destruct Hk as [<-|Hk]; [|contradiction].
        exists text. split.
        -- rewrite (Hout a Hrest). apply get_set_eq.
        -- exists filled, w. reflexivity.
    + intros k Hk. simpl in Hk.
      rewrite Hout by tauto. apply get_set_neq. tauto.
Qed.

End IndividualLoop.

End FeedbackSteps.

(** ** [generate_individual_feedback] *)

Section IndividualFeedback.

Variable C : Collaborators.
Variable data : TaskData C.

(** The method from [latest_planning, latest_communication = ...] on. *)
Let after_rewards : IO C (dict string) :=
  io_bind C (lift C (read _get_latest_scores)) (fun scores =>
  io_bind C (lift C (read (fun self =>
               metrics_get (total_milestones (evaluator_metrics self)) 0)))
    (fun total_milestones =>
  io_bind C (lift C (try_read (prompt_of "agent_individual_feedback")))
    (fun prompt_template =>
  io_bind C (lift C (read (fun self => items (agent_rewards self)))) (fun rewards =>
  io_bind C (individual_loop C data (fst scores) (snd scores) total_milestones
               prompt_template rewards) (fun _ =>
  lift C (read individual_feedbacks)))))).

Lemma generate_individual_feedback_unfold (self : FeedbackProvider) (w : World C) :
  generate_individual_feedback C data (self, w)
  = match agent_rewards self with
    | [] =>
        match fst (store_after self) with
        | Ok _ => after_rewards (with_agent_rewards self (snd (store_after self)), w)
        | Raise e => (Raise e, (with_agent_rewards self (snd (store_after self)), w))
        end
    | _ :: _ => after_rewards (self, w)
    end.
Proof.
  unfold generate_individual_feedback. rewrite io_bind_read.
  destruct (agent_rewards self) as [|p d].
  - rewrite io_bind_assoc, io_bind_calculate_agent_rewards.
    destruct (fst (store_after self)); reflexivity.
  - reflexivity.
Qed.

Lemma after_rewards_frame (self : FeedbackProvider) (w : World C) :
  exists fb,
    fst (snd (after_rewards (self, w))) = with_individual_feedbacks self fb.
Proof.
  unfold after_rewards. rewrite !io_bind_read, io_bind_try_read.
  destruct (prompt_of "agent_individual_feedback" self) as [t|e].
  2: { exists (individual_feedbacks self). simpl.
       now rewrite with_individual_feedbacks_same. }
  rewrite io_bind_read. unfold io_bind at 1.
  match goal with
  | |- context [individual_loop C data ?lp ?lc ?tot t ?rs (self, w)] =>
      destruct (individual_loop_frame C data lp lc tot t rs self w) as [fb Hfb];
      cbv zeta in Hfb;
      destruct (individual_loop C data lp lc tot t rs (self, w)) as [[[]|e] [self' w']]
  end; simpl in Hfb; subst self'; exists fb; reflexivity.
Qed.

Lemma after_rewards_ok (self : FeedbackProvider) (w : World C) :
  counts_fit self -> individual_template_fills C self ->
  exists fb w',
    after_rewards (self, w) = (Ok fb, (with_individual_feedbacks self fb, w')) /\
    (forall k, In k (keys fb) <->
               In k (keys (individual_feedbacks self)) \/ In k (keys (agent_rewards self))) /\
    (forall k, In k (keys (agent_rewards self)) ->
       exists text,
         get fb k = Some text /\
         answered C self 1024 "feedbackGenerationFailed:" text) /\
    (forall k, ~ In k (keys (agent_rewards self)) ->
       get fb k = get (individual_feedbacks self) k).
Proof.
  intros Hfit (t & Ht & Hf).
  unfold after_rewards. rewrite !io_bind_read, io_bind_try_read, Ht, io_bind_read.
  match goal with
  | |- context [individual_loop C data ?lp ?lc ?tot t ?rs] =>
      destruct (individual_loop_ok C data lp lc tot t rs self w (fit_ratios_ok self Hfit) Hf)
        as (fb & w' & E & H)
  end.
  cbv zeta in E. exists fb, w'. split; [|exact H].
  unfold io_bind at 1. rewrite E. reflexivity.
Qed.

End IndividualFeedback.

Lemma counts_fit_same_inputs (self self' : FeedbackProvider) :
  evaluator_metrics self' = evaluator_metrics self -> counts_fit self -> counts_fit self'.
Proof.
  intros H. unfold counts_fit, count_fits, kpis_of. now rewrite H.
Qed.

Lemma generate_individual_feedback_ok (C : Collaborators) (data : TaskData C)
    (self : FeedbackProvider) (w : World C) :
  counts_fit self -> individual_template_fills C self ->
  exists fb w',
    generate_individual_feedback C data (self, w)
    = (Ok fb,
       (with_individual_feedbacks (with_agent_rewards self (rewards_for_feedback self)) fb,
        w')) /\
    (forall k, In k (keys fb) <->
               In k (keys (individual_feedbacks self)) \/
               In k (keys (rewards_for_feedback self))) /\
    (forall k, In k (keys (rewards_for_feedback self)) ->
       exists text,
         get fb k = Some text /\
         answered C self 1024 "feedbackGenerationFailed:" text) /\
    (forall k, ~ In k (keys (rewards_for_feedback self)) ->
       get fb k = get (individual_feedbacks self) k).
Proof.
  intros Hfit Ht. rewrite generate_individual_feedback_unfold.
  unfold rewards_for_feedback.
  destruct (agent_rewards self) as [|p d] eqn:Es.
  - destruct (calculate_agent_rewards_ok self) as [_ Hok].
    { intros a _. now apply fit_ratios_ok. }
    rewrite Hok.
    apply (after_rewards_ok C data (with_agent_rewards self (snd (store_after self))) w).
    + exact Hfit.
    + exact Ht.
  - rewrite <- Es.
    destruct (after_rewards_ok C data self w Hfit Ht) as (fb & w' & E & H).
    exists fb, w'. split; [|exact H].
    cbv zeta in E. rewrite E. now rewrite with_agent_rewards_same.
Qed.

(** X4.  With milestone counts that fit and an individual template that
    fills, [generate_individual_feedback] raises nothing, whatever the
    completion service does.  It returns the individual feedbacks as it
    leaves them; the rewards are computed only when none is stored; the
    team feedback and the inputs of the provider stay as they are.  Every
    agent with a stored reward gets an entry that is the answer of the
    service to a call with [max_token_num=1024], or
    ["feedbackGenerationFailed:"] before the text of its exception; the
    entries of other agents stay as they were. *)
Theorem generate_individual_feedback_total (C : Collaborators) (data : TaskData C)
    (self : FeedbackProvider) (w : World C) :
  counts_fit self -> individual_template_fills C self ->
  exists fb self' w',
    generate_individual_feedback C data (self, w) = (Ok fb, (self', w')) /\
    individual_feedbacks self' = fb /\
    agent_rewards self' = rewards_for_feedback self /\
    team_feedback self' = team_feedback self /\
    same_inputs self self' /\
    (forall k, In k (keys (agent_rewards self')) ->
       exists text,
         get fb k = Some text /\
         answered C self 1024 "feedbackGenerationFailed:" text) /\
    (forall k, ~ In k (keys (agent_rewards self')) ->
       get fb k = get (individual_feedbacks self) k).
Proof.
  intros Hfit Ht.
  destruct (generate_individual_feedback_ok C data self w Hfit Ht)
    as (fb & w' & E & _ & Hin & Hout).
  exists fb. eexists. exists w'. split; [exact E|].
  split; [reflexivity|]. split; [reflexivity|]. split; [reflexivity|].
  split; [repeat split|]. split; [exact Hin|exact Hout].
Qed.

Lemma generate_individual_feedback_total_witness :
  exists fb self' w',
    generate_individual_feedback offline tt (scenario_with_prompts, tt)
    = (Ok fb, (self', w')) /\
    get fb "A" = Some "feedbackGenerationFailed:service unavailable"%string.
Proof.
  destruct (generate_individual_feedback_total offline tt scenario_with_prompts tt)
    as (fb & self' & w' & E & _).
  - repeat constructor.
  - exists "individual: "%string. split; reflexivity.
  - exists fb, self', w'. split; [exact E|].
    assert (H : fst (generate_individual_feedback offline tt (scenario_with_prompts, tt))
                = Ok fb) by exact (f_equal fst E).
    vm_compute in H. injection H as <-. reflexivity.
Defined.

Lemma prompt_of_raises (name : string) (self : FeedbackProvider) (e : exn) :
  prompt_of name self = Raise e -> e = KeyError.
Proof.
  unfold prompt_of, subscript.
  destruct (get (feedback_prompts self) name) as [entry|]; [|congruence].
  destruct (get entry "prompt"); congruence.
Qed.

(** X5.  Without the individual template and with milestone counts that
    fit (as they do on the data model), [generate_individual_feedback]
    raises [KeyError] before any call of the service: no feedback is
    written, but the rewards it computed on the way stay stored. *)
Theorem generate_individual_feedback_without_template (C : Collaborators)
    (data : TaskData C) (self : FeedbackProvider) (w : World C) :
  is_ok (prompt_of "agent_individual_feedback" self) = false ->
  counts_fit self ->
  generate_individual_feedback C data (self, w)
  = (Raise KeyError, (with_agent_rewards self (rewards_for_feedback self), w)).
Proof.
  intros Ht Hfit.
  destruct (prompt_of "agent_individual_feedback" self) as [t|e] eqn:E; [discriminate|].
  apply prompt_of_raises in E as He. subst e.
  assert (Hafter : forall self1 : FeedbackProvider,
            feedback_prompts self1 = feedback_prompts self ->
            io_bind C (lift C (read _get_latest_scores)) (fun scores =>
            io_bind C (lift C (read (fun self =>
                         metrics_get (total_milestones (evaluator_metrics self)) 0)))
              (fun total_milestones =>
            io_bind C (lift C (try_read (prompt_of "agent_individual_feedback")))
              (fun prompt_template =>
            io_bind C (lift C (read (fun self => items (agent_rewards self))))
              (fun rewards =>
            io_bind C (individual_loop C data (fst scores) (snd scores) total_milestones
                         prompt_template rewards) (fun _ =>
            lift C (read individual_feedbacks)))))) (self1, w)
            = (Raise KeyError, (self1, w))).
  { intros self1 H1. rewrite !io_bind_read, io_bind_try_read.
    unfold prompt_of in *. rewrite H1, E. reflexivity. }
  rewrite generate_individual_feedback_unfold. cbv zeta.
  unfold rewards_for_feedback.
  destruct (agent_rewards self) as [|p d] eqn:Es.
  - destruct (calculate_agent_rewards_ok self) as [_ Hok].
    { intros a _. now apply fit_ratios_ok. }
    rewrite Hok. now rewrite Hafter.
  - rewrite Hafter by reflexivity. now rewrite <- Es, with_agent_rewards_same.
Qed.

(** The scenario as it is built without templates. *)
Lemma generate_individual_feedback_without_template_witness :
  generate_individual_feedback echo tt (scenario, 0%nat)
  = (Raise KeyError, (with_agent_rewards scenario (rewards_for_feedback scenario), 0%nat)).
Proof.
  apply (generate_individual_feedback_without_template echo tt scenario 0%nat).
  - reflexivity.
  - exact counts_fit_scenario.
Defined.

(** ** [generate_team_feedback] *)

Section TeamFeedback.

Variable C : Collaborators.
Variable data : TaskData C.

(** Whatever happens, the method writes to [team_feedback] alone. *)
Lemma generate_team_feedback_frame (self : FeedbackProvider) (w : World C) :
  exists text,
    fst (snd (generate_team_feedback C data (self, w))) = with_team_feedback self text.
Proof.
  assert (Hsame : exists text, self = with_team_feedback self text).
  { exists (team_feedback self). now rewrite with_team_feedback_same. }
  unfold generate_team_feedback. rewrite !io_bind_read, io_bind_try_read.
  destruct (sorted_agent_contribution self) as [ranking|e]; [|exact Hsame].
  rewrite io_bind_try_read.
  destruct (prompt_of "team_collective_feedback" self) as [t|e]; [|exact Hsame].
  rewrite io_bind_try_read.
  match goal with
  | |- context [format_team C t ?x1 ?x2 ?x3 ?x4 ?x5 ?x6] =>
      destruct (format_team C t x1 x2 x3 x4 x5 x6) as [filled|e]; [|exact Hsame]
  end.
  rewrite io_bind_read, io_bind_try_model_prompting, io_bind_set_team_feedback.
  eexists. reflexivity.
Qed.

Lemma generate_team_feedback_ok (self : FeedbackProvider) (w : World C) :
  counts_fit self -> team_template_fills C self ->
  exists text w',
    generate_team_feedback C data (self, w)
    = (Ok text, (with_team_feedback self text, w')) /\
    answered C self 1024 "teamFeedbackGenerationFailed：" text.
Proof.
  intros Hfit (t & Ht & Hf).
  destruct (fit_sorted_ok self Hfit) as [ranking Hs].
  unfold generate_team_feedback.
  rewrite !io_bind_read, io_bind_try_read, Hs, io_bind_try_read, Ht, io_bind_try_read.
  match goal with
  | |- context [format_team C t ?x1 ?x2 ?x3 ?x4 ?x5 ?x6] =>
      pose proof (Hf x1 x2 x3 x4 x5 x6) as Hfa;
      destruct (format_team C t x1 x2 x3 x4 x5 x6) as [filled|e];
        [clear Hfa|discriminate]
  end.
  rewrite io_bind_read, io_bind_try_model_prompting, io_bind_set_team_feedback.
  eexists. eexists. split; [reflexivity|].
  exists filled, w. reflexivity.
Qed.

End TeamFeedback.

(** X6.  With milestone counts that fit and a team template that fills,
    [generate_team_feedback] raises nothing, whatever the completion service
    does: it returns the text it stores in [team_feedback], the answer of
    the service to a call with [max_token_num=1024] or
    ["teamFeedbackGenerationFailed："] before the text of its exception, and
    it changes nothing else of the provider. *)
Theorem generate_team_feedback_total (C : Collaborators) (data : TaskData C)
    (self : FeedbackProvider) (w : World C) :
  counts_fit self -> team_template_fills C self ->
  exists text self' w',
    generate_team_feedback C data (self, w) = (Ok text, (self', w')) /\
    team_feedback self' = text /\
    individual_feedbacks self' = individual_feedbacks self /\
    agent_rewards self' = agent_rewards self /\
    same_inputs self self' /\
    answered C self 1024 "teamFeedbackGenerationFailed：" text.
Proof.
  intros Hfit Ht.
  destruct (generate_team_feedback_ok C data self w Hfit Ht) as (text & w' & E & Ha).
  exists text. eexists. exists w'. split; [exact E|].
  split; [reflexivity|]. split; [reflexivity|]. split; [reflexivity|].
  split; [repeat split|exact Ha].
Qed.

Lemma generate_team_feedback_total_witness :
  exists text self' w',
    generate_team_feedback offline tt (scenario_with_prompts, tt)
    = (Ok text, (self', w')) /\
    text = "teamFeedbackGenerationFailed：service unavailable"%string.
Proof.
  destruct (generate_team_feedback_total offline tt scenario_with_prompts tt)
    as (text & self' & w' & E & _).
  - repeat constructor.
  - exists "team: "%string. split; reflexivity.
  - exists text, self', w'. split; [exact E|].
    assert (H : fst (generate_team_feedback offline tt (scenario_with_prompts, tt))
                = Ok text) by exact (f_equal fst E).
    vm_compute in H. now injection H as <-.
Defined.

(** ** [generate_reward_explanation] for an agent with a stored reward *)

Lemma mem_get {V} (d : dict V) (k : string) :
  mem d k = true -> exists v, get d k = Some v.
Proof. unfold mem. destruct (get d k); [eauto|discriminate]. Qed.

Lemma bind_read {A B} (f : FeedbackProvider -> A) (k : A -> M B)
    (self : FeedbackProvider) :
  bind (read f) k self = k (f self) self.
Proof. reflexivity. Qed.

Lemma bind_try_read {A B} (f : FeedbackProvider -> result A) (k : A -> M B)
    (self : FeedbackProvider) :
  bind (try_read f) k self
  = match f self with
    | Ok a => k a self
    | Raise e => (Raise e, self)
    end.
Proof. unfold bind, try_read. now destruct (f self). Qed.

Lemma bind_ret {A B} (a : A) (k : A -> M B) (self : FeedbackProvider) :
  bind (ret a) k self = k a self.
Proof. reflexivity. Qed.

Lemma bind_assoc {A B D} (c : M A) (k : A -> M B) (k' : B -> M D)
    (self : FeedbackProvider) :
  bind (bind c k) k' self = bind c (fun a => bind (k a) k') self.
Proof. unfold bind. destruct (c self) as [[a|e] self']; reflexivity. Qed.

Lemma bind_calculate_agent_rewards {B} (k : dict float -> M B)
    (self : FeedbackProvider) :
  bind calculate_agent_rewards k self
  = match fst (store_after self) with
    | Ok _ => k (snd (store_after self))
                (with_agent_rewards self (snd (store_after self)))
    | Raise e => (Raise e, with_agent_rewards self (snd (store_after self)))
    end.
Proof.
  unfold bind. rewrite calculate_agent_rewards_store.
  now destruct (fst (store_after self)).
Qed.

Section RewardExplanationKnown.

Variable str_format : string -> float -> float -> float -> float -> result string.
Variable model_prompting : string -> string -> result string.
Variable str_of_exn : exn -> string.

Let explain := generate_reward_explanation str_format model_prompting str_of_exn.

Lemma generate_reward_explanation_known (self : FeedbackProvider)
    (agent_id : string) (reward : float) :
  get (agent_rewards self) agent_id = Some reward ->
  explain agent_id self
  = (match _calculate_agent_contribution_ratio self agent_id with
     | Raise e => Raise e
     | Ok ratio =>
         match reward_explanation_prompt self with
         | Raise e => Raise e
         | Ok t =>
             match str_format t (fst (_get_latest_scores self))
                     (snd (_get_latest_scores self)) ratio reward with
             | Raise e => Raise e
             | Ok filled_prompt =>
                 Ok (match model_prompting (llm self) filled_prompt with
                     | Ok content => content
                     | Raise e =>
                         ("Reward explanation generation failed：" ++ str_of_exn e)%string
                     end)
             end
         end
     end, self).
Proof.
  intros Hg. unfold explain, generate_reward_explanation.
  rewrite bind_read. unfold mem at 1. rewrite Hg.
  rewrite bind_ret, bind_read. unfold mem at 1. rewrite Hg. change (negb true) with false. cbv iota.
  rewrite bind_read, bind_try_read. unfold subscript at 1. rewrite Hg.
  rewrite bind_try_read.
  destruct (_calculate_agent_contribution_ratio self agent_id) as [ratio|e];
    [|reflexivity].
  rewrite bind_try_read.
  destruct (reward_explanation_prompt self) as [t|e]; [|reflexivity].
  rewrite bind_try_read.
  destruct (str_format t _ _ ratio reward) as [filled|e]; [|reflexivity].
  rewrite bind_read.
  now destruct (model_prompting (llm self) filled).
Qed.

End RewardExplanationKnown.

(** X7.  For an agent with a stored reward, [generate_reward_explanation]
    computes nothing anew and leaves the provider as it is.  When the ratio
    is returned, the template is there and filling it succeeds, the method
    raises nothing: it returns the answer of the service, or
    ["Reward explanation generation failed："] before the text of the
    exception of the service.  An exception of the ratio is not caught. *)
Theorem reward_explanation_known_agent
    (str_format : string -> float -> float -> float -> float -> result string)
    (model_prompting : string -> string -> result string)
    (str_of_exn : exn -> string)
    (self : FeedbackProvider) (agent_id : string) (reward : float) :
  get (agent_rewards self) agent_id = Some reward ->
  let explained :=
    generate_reward_explanation str_format model_prompting str_of_exn agent_id self in
  snd explained = self /\
  (forall ratio t filled_prompt,
     _calculate_agent_contribution_ratio self agent_id = Ok ratio ->
     reward_explanation_prompt self = Ok t ->
     str_format t (fst (_get_latest_scores self)) (snd (_get_latest_scores self))
       ratio reward = Ok filled_prompt ->
     fst explained
     = Ok (match model_prompting (llm self) filled_prompt with
           | Ok content => content
           | Raise e => ("Reward explanation generation failed：" ++ str_of_exn e)%string
           end)) /\
  (forall e, _calculate_agent_contribution_ratio self agent_id = Raise e ->
     fst explained = Raise e).
Proof.
  intros Hg explained. unfold explained.
  rewrite (generate_reward_explanation_known _ _ _ _ _ _ Hg).
  split; [reflexivity|]. split.
  - intros ratio t filled Hr Ht Hf. cbn [fst]. now rewrite Hr, Ht, Hf.
  - intros e Hr. cbn [fst]. now rewrite Hr.
Qed.

(** Agent [A] holds a reward; the service is down. *)
Lemma reward_explanation_known_agent_witness :
  get (agent_rewards scenario_stale) "A" = Some lit_0_0 /\
  generate_reward_explanation (fun t _ _ _ _ => Ok t)
    (fun _ _ => Raise (ExternalError "service unavailable"))
    (str_of_exn offline) "A" scenario_stale
  = (Ok "Reward explanation generation failed：service unavailable"%string,
     scenario_stale).
Proof.
  split; [reflexivity|].
  destruct (reward_explanation_known_agent (fun t _ _ _ _ => Ok t)
              (fun _ _ => Raise (ExternalError "service unavailable"))
              (str_of_exn offline) scenario_stale "A" lit_0_0 eq_refl)
    as (Hs & Hr & _).
  specialize (Hr lit_0_75 "explain"%string "explain"%string eq_refl eq_refl eq_refl).
  cbv zeta in Hs, Hr.
  destruct (generate_reward_explanation _ _ _ "A" scenario_stale) as [r s].
  simpl in Hs, Hr. now subst.
Defined.

(** ** [generate_reward_explanation] with the service as it is called *)

Section ExplanationSteps.

Variable C : Collaborators.

Let prefix : string := "Reward explanation generation failed：".

Lemma generate_reward_explanation_io_known (self : FeedbackProvider)
    (agent_id : string) (reward : float) (w : World C) :
  get (agent_rewards self) agent_id = Some reward ->
  generate_reward_explanation_io C agent_id (self, w)
  = match _calculate_agent_contribution_ratio self agent_id with
    | Raise e => (Raise e, (self, w))
    | Ok ratio =>
        match prompt_of "reward_explanation" self with
        | Raise e => (Raise e, (self, w))
        | Ok t =>
            match format_explanation C t (fst (_get_latest_scores self))
                    (snd (_get_latest_scores self)) ratio reward with
            | Raise e => (Raise e, (self, w))
            | Ok filled_prompt =>
                (Ok (content_or C prefix
                       (fst (model_prompting C (llm self) filled_prompt 512 w))),
                 (self, snd (model_prompting C (llm self) filled_prompt 512 w)))
            end
        end
    end.
Proof.
  intros Hg. unfold generate_reward_explanation_io.
  rewrite io_bind_read. unfold mem at 1. rewrite Hg.
  rewrite io_bind_ret, io_bind_read. unfold mem at 1. rewrite Hg. change (negb true) with false. cbv iota.
  rewrite io_bind_read, io_bind_try_read. unfold subscript at 1. rewrite Hg.
  rewrite io_bind_try_read.
  destruct (_calculate_agent_contribution_ratio self agent_id) as [ratio|e];
    [|reflexivity].
  rewrite io_bind_try_read.
  destruct (prompt_of "reward_explanation" self) as [t|e]; [|reflexivity].
  rewrite io_bind_try_read.
  destruct (format_explanation C t _ _ ratio reward) as [filled|e]; [|reflexivity].
  now rewrite io_bind_read, io_bind_try_model_prompting.
Qed.

(** The method of the section [RewardExplanation] and the method with the
    service threaded through agree on the outcome and on the provider. *)
Lemma generate_reward_explanation_io_agrees (self : FeedbackProvider)
    (agent_id : string) (w : World C) :
  let pure :=
    generate_reward_explanation (format_explanation C)
      (fun llm_model filled_prompt =>
         fst (model_prompting C llm_model filled_prompt 512 w))
      (str_of_exn C) agent_id self in
  exists w',
    generate_reward_explanation_io C agent_id (self, w) = (fst pure, (snd pure, w')).
Proof.
  cbv zeta.
  match goal with
  | |- context [generate_reward_explanation ?f ?m ?s agent_id self] =>
      destruct (generate_reward_explanation f m s agent_id self) as [r s'] eqn:E
  end.
  cbn [fst snd].
  destruct (get (agent_rewards self) agent_id) as [reward|] eqn:Hg.
  - rewrite (generate_reward_explanation_known _ _ _ _ _ _ Hg) in E.
    rewrite (generate_reward_explanation_io_known _ _ _ _ Hg).
    change (reward_explanation_prompt self)
      with (prompt_of "reward_explanation" self) in E.
    destruct (_calculate_agent_contribution_ratio self agent_id) as [ratio|e];
      [|injection E as <- <-; eexists; reflexivity].
    destruct (prompt_of "reward_explanation" self) as [t|e];
      [|injection E as <- <-; eexists; reflexivity].
    destruct (format_explanation C t _ _ ratio reward) as [filled|e];
      [|injection E as <- <-; eexists; reflexivity].
    injection E as <- <-. eexists. unfold content_or, prefix. reflexivity.
  - unfold generate_reward_explanation in E. unfold generate_reward_explanation_io.
    rewrite bind_read in E. rewrite io_bind_read.
    unfold mem at 1 in E. unfold mem at 1. rewrite Hg in E |- *. cbv iota in E |- *.
    rewrite bind_assoc, bind_calculate_agent_rewards in E.
    rewrite io_bind_assoc, io_bind_calculate_agent_rewards.
    destruct (fst (store_after self)) as [[]|e];
      [|injection E as <- <-; eexists; reflexivity].
    rewrite bind_ret, bind_read in E. rewrite io_bind_ret, io_bind_read.
    set (self1 := with_agent_rewards self (snd (store_after self))) in *.
    destruct (mem (agent_rewards self1) agent_id) eqn:Hm;
      [change (negb true) with false in E |- *
      |change (negb false) with true in E |- *]; cbv iota in E |- *.
    2: { injection E as <- <-. eexists. reflexivity. }
    destruct (mem_get _ _ Hm) as [reward Hg1].
    rewrite bind_read, bind_try_read in E. rewrite io_bind_read, io_bind_try_read.
    unfold subscript at 1 in E. unfold subscript at 1. rewrite Hg1 in E |- *.
    rewrite bind_try_read in E. rewrite io_bind_try_read.
    destruct (_calculate_agent_contribution_ratio self1 agent_id) as [ratio|e];
      [|injection E as <- <-; eexists; reflexivity].
    rewrite bind_try_read in E. rewrite io_bind_try_read.
    change (reward_explanation_prompt self1)
      with (prompt_of "reward_explanation" self1) in E.
    destruct (prompt_of "reward_explanation" self1) as [t|e];
      [|injection E as <- <-; eexists; reflexivity].
    rewrite bind_try_read in E. rewrite io_bind_try_read.
    destruct (format_explanation C t _ _ ratio reward) as [filled|e];
      [|injection E as <- <-; eexists; reflexivity].
    rewrite bind_read in E. rewrite io_bind_read, io_bind_try_model_prompting.
    change (llm self1) with (llm self) in E |- *.
    unfold io_ret, content_or.
    destruct (fst (model_prompting C (llm self) filled 512 w));
      injection E as <- <-; eexists; reflexivity.
Qed.

Lemma generate_reward_explanation_io_frame (self : FeedbackProvider)
    (agent_id : string) (w : World C) :
  mem (agent_rewards self) agent_id = true ->
  fst (snd (generate_reward_explanation_io C agent_id (self, w))) = self.
Proof.
  intros Hm. destruct (mem_get _ _ Hm) as [reward Hg].
  rewrite (generate_reward_explanation_io_known _ _ _ _ Hg).
  destruct (_calculate_agent_contribution_ratio self agent_id); [|reflexivity].
  destruct (prompt_of "reward_explanation" self); [|reflexivity].
  now destruct (format_explanation C _ _ _ _ _).
Qed.

Lemma generate_reward_explanation_io_ok (self : FeedbackProvider)
    (agent_id : string) (w : World C) :
  mem (agent_rewards self) agent_id = true ->
  counts_fit self -> explanation_template_fills C self ->
  exists text w',
    generate_reward_explanation_io C agent_id (self, w) = (Ok text, (self, w')) /\
    answered C self 512 prefix text.
Proof.
  intros Hm Hfit (t & Ht & Hf). destruct (mem_get _ _ Hm) as [reward Hg].
  rewrite (generate_reward_explanation_io_known _ _ _ _ Hg).
  pose proof (fit_ratios_ok self Hfit agent_id) as Hr.
  destruct (_calculate_agent_contribution_ratio self agent_id) as [ratio|e];
    [|discriminate].
  rewrite Ht.
  match goal with
  | |- context [format_explanation C t ?x1 ?x2 ?x3 ?x4] =>
      pose proof (Hf x1 x2 x3 x4) as Hfa;
      destruct (format_explanation C t x1 x2 x3 x4) as [filled|e];
        [clear Hfa|discriminate]
  end.
  eexists. eexists. split; [reflexivity|]. exists filled, w. reflexivity.
Qed.

(** The comprehension over the keys of the store. *)
Lemma explanations_loop_frame (ids : list string) (acc : dict string)
    (self : FeedbackProvider) (w : World C) :
  (forall a, In a ids -> mem (agent_rewards self) a = true) ->
  fst (snd (explanations_loop C ids acc (self, w))) = self.
Proof.
  revert acc w. induction ids as [|a ids IH]; intros acc w Hin; [reflexivity|].
  cbn [explanations_loop]. unfold io_bind.
  pose proof (generate_reward_explanation_io_frame self a w (Hin a (or_introl eq_refl)))
    as Hf.
  destruct (generate_reward_explanation_io C a (self, w)) as [[text|e] [self' w']];
    simpl in Hf; subst self'; [|reflexivity].
  apply IH. intros b Hb. apply Hin. now right.
Qed.

Lemma explanations_loop_ok (ids : list string) (acc : dict string)
    (self : FeedbackProvider) (w : World C) :
  (forall a, In a ids -> mem (agent_rewards self) a = true) ->
  counts_fit self -> explanation_template_fills C self ->
  exists d w',
    explanations_loop C ids acc (self, w) = (Ok d, (self, w')) /\
    (forall k, In k (keys d) <-> In k (keys acc) \/ In k ids) /\
    (forall k, In k ids ->
       exists text, get d k = Some text /\ answered C self 512 prefix text) /\
    (forall k, ~ In k ids -> get d k = get acc k).
Proof.
  intros Hin Hfit Ht. revert acc w.
  induction ids as [|a ids IH]; intros acc w.
  - exists acc, w. simpl. repeat split; try tauto.
  - cbn [explanations_loop]. unfold io_bind at 1.
    destruct (generate_reward_explanation_io_ok self a w
                (Hin a (or_introl eq_refl)) Hfit Ht) as (text & w1 & E & Ha).
    rewrite E.
    destruct IH with (acc := set acc a text) (w := w1)
      as (d & w' & E' & Hkeys & Hans & Hout).
    { intros b Hb. apply Hin. now right. }
    exists d, w'. split; [exact E'|]. split; [|split].
    + intros k. rewrite Hkeys, keys_set. simpl. intuition.
    + intros k Hk.
      destruct (in_dec string_dec k ids) as [Hrest|Hrest]; [now apply Hans|].
      destruct Hk as [<-|Hk]; [|contradiction].
      exists text. split; [|exact Ha].
      rewrite (Hout a Hrest). apply get_set_eq.
    + intros k Hk. simpl in Hk. rewrite Hout by tauto. apply get_set_neq. tauto.
Qed.

End ExplanationSteps.

(** ** [get_full_feedback_package] *)

Lemma rewards_for_feedback_fresh (self : FeedbackProvider) :
  agent_rewards self = [] -> fst (store_after self) = Ok tt ->
  (forall k, In k (keys (rewards_for_feedback self)) <-> In k (keys (agent_profiles self))) /\
  rewards_in_range (rewards_for_feedback self).
Proof.
  intros Es Hok. unfold rewards_for_feedback. rewrite Es. split.
  - intros k. split.
    + intros H. unfold store_after in H. apply rewards_store_keys in H.
      rewrite Es in H. destruct H as [[]|H]. exact H.
    + intros H. destruct (rewards_store_get_in _ _ _ _ Hok H) as (r & _ & Hg).
      apply mem_In. unfold mem, store_after. now rewrite Hg.
  - unfold rewards_in_range, store_after. apply rewards_store_values.
    + intros a r Hr. unfold reward_in_loop in Hr.
      destruct (if mem (kpis_of self) a
                then _calculate_agent_contribution_ratio self a
                else Ok lit_0_0) as [ratio|e]; [|discriminate].
      injection Hr as <-. apply agent_reward_in_unit_interval.
    + rewrite Es. constructor.
Qed.

Section Package.

Variable C : Collaborators.
Variable data : TaskData C.

(** Whatever happens in [generate_individual_feedback], it leaves the
    rewards it went through in the store and writes, beside them, to
    [individual_feedbacks] alone. *)
Lemma generate_individual_feedback_frame (self : FeedbackProvider) (w : World C) :
  exists fb,
    fst (snd (generate_individual_feedback C data (self, w)))
    = with_individual_feedbacks (with_agent_rewards self (rewards_for_feedback self)) fb.
Proof.
  rewrite generate_individual_feedback_unfold. cbv zeta. unfold rewards_for_feedback.
  destruct (agent_rewards self) as [|p d] eqn:Es.
  - destruct (fst (store_after self)) as [[]|e].
    + apply (after_rewards_frame C data
               (with_agent_rewards self (snd (store_after self))) w).
    + exists (individual_feedbacks self). simpl. symmetry.
      apply (with_individual_feedbacks_same
               (with_agent_rewards self (snd (store_after self)))).
  - rewrite <- Es, with_agent_rewards_same. apply (after_rewards_frame C data self w).
Qed.

Lemma get_full_feedback_package_frame (self : FeedbackProvider) (w : World C) :
  is_feedback self = true ->
  exists fb text,
    fst (snd (get_full_feedback_package C data (self, w)))
    = with_team_feedback
        (with_individual_feedbacks
           (with_agent_rewards self (rewards_for_feedback self)) fb) text.
Proof.
  intros En. unfold get_full_feedback_package. rewrite io_bind_read, En.
  change (negb true) with false. cbv iota. unfold io_bind at 1.
  destruct (generate_individual_feedback_frame self w) as [fb Hfb].
  destruct (generate_individual_feedback C data (self, w)) as [[r1|e] [s1 w1]];
    simpl in Hfb; subst s1.
  2: { exists fb, (team_feedback self). simpl. symmetry.
       apply (with_team_feedback_same
                (with_individual_feedbacks
                   (with_agent_rewards self (rewards_for_feedback self)) fb)). }
  set (s1 := with_individual_feedbacks
               (with_agent_rewards self (rewards_for_feedback self)) fb).
  unfold io_bind at 1.
  destruct (generate_team_feedback_frame C data s1 w1) as [text Htext].
  destruct (generate_team_feedback C data (s1, w1)) as [[r2|e] [s2 w2]];
    simpl in Htext; subst s2.
  2: { exists fb, text. reflexivity. }
  set (s2 := with_team_feedback s1 text).
  rewrite !io_bind_read, io_bind_try_read.
  destruct (sorted_agent_contribution s2) as [ranking|e].
  2: { exists fb, text. reflexivity. }
  unfold io_bind at 1.
  pose proof (explanations_loop_frame C (keys (agent_rewards s2)) empty s2 w2) as Hloop.
  destruct (explanations_loop C (keys (agent_rewards s2)) empty (s2, w2))
    as [[d|e] [s3 w3]]; simpl in Hloop; rewrite Hloop;
    try (intros a Ha; apply mem_In; exact Ha);
    exists fb, text; reflexivity.
Qed.

Lemma get_full_feedback_package_ok (self : FeedbackProvider) (w : World C) :
  is_feedback self = true -> counts_fit self ->
  individual_template_fills C self -> team_template_fills C self ->
  explanation_template_fills C self ->
  exists package fb text w',
    get_full_feedback_package C data (self, w)
    = (Ok (Some package),
       (with_team_feedback
          (with_individual_feedbacks
             (with_agent_rewards self (rewards_for_feedback self)) fb) text, w')) /\
    FullFeedback.agent_rewards package = rewards_for_feedback self /\
    FullFeedback.individual_feedbacks package = fb /\
    FullFeedback.team_feedback package = text /\
    FullFeedback.reward_weights package = REWARD_WEIGHTS /\
    (MetricsSummary.latest_planning_score (FullFeedback.metrics_summary package),
     MetricsSummary.latest_communication_score (FullFeedback.metrics_summary package))
    = _get_latest_scores self /\
    sorted_agent_contribution self
    = Ok (MetricsSummary.sorted_agent_contribution (FullFeedback.metrics_summary package)) /\
    answered C self 1024 "teamFeedbackGenerationFailed：" text /\
    (forall k, In k (keys (rewards_for_feedback self)) ->
       exists feedback explanation,
         get fb k = Some feedback /\
         answered C self 1024 "feedbackGenerationFailed:" feedback /\
         get (FullFeedback.agent_reward_explanations package) k = Some explanation /\
         answered C self 512 "Reward explanation generation failed：" explanation) /\
    (forall k, In k (keys (FullFeedback.agent_reward_explanations package)) ->
       In k (keys (rewards_for_feedback self))).
Proof.
  intros En Hfit Hi Ht He. unfold get_full_feedback_package.
  rewrite io_bind_read, En. change (negb true) with false. cbv iota.
  destruct (generate_individual_feedback_ok C data self w Hfit Hi)
    as (fb & w1 & E1 & _ & Ha1 & _).
  unfold io_bind at 1. rewrite E1.
  set (s1 := with_individual_feedbacks
               (with_agent_rewards self (rewards_for_feedback self)) fb).
  destruct (generate_team_feedback_ok C data s1 w1 Hfit Ht) as (text & w2 & E2 & Ha2).
  unfold io_bind at 1. rewrite E2.
  set (s2 := with_team_feedback s1 text).
  rewrite !io_bind_read, io_bind_try_read.
  destruct (fit_sorted_ok self Hfit) as [ranking Hs].
  rewrite (sorted_same_inputs self s2 eq_refl), Hs.
  destruct (explanations_loop_ok C (keys (agent_rewards s2)) empty s2 w2)
    as (d & w3 & E3 & Hk3 & Ha3 & _).
  { intros a Ha. apply mem_In. exact Ha. }
  { exact Hfit. }
  { exact He. }
  unfold io_bind at 1. rewrite E3.
  eexists. exists fb, text, w3. split; [reflexivity|].
  split; [reflexivity|]. split; [reflexivity|]. split; [reflexivity|].
  split; [reflexivity|].
  split; [symmetry; exact (surjective_pairing (_get_latest_scores self))|].
  split; [reflexivity|]. split; [exact Ha2|]. split.
  - intros k Hk.
    destruct (Ha1 k Hk) as (feedback & Hg1 & Hans1).
    destruct (Ha3 k Hk) as (explanation & Hg3 & Hans3).
    exists feedback, explanation. auto.
  - intros k Hk. apply Hk3 in Hk. destruct Hk as [[]|Hk]. exact Hk.
Qed.

End Package.

(** X8.  With the feedback switched off, [get_full_feedback_package]
    returns [None] at once: no reward is computed, nothing is stored, and
    the completion service is not called. *)
Theorem full_feedback_package_disabled (C : Collaborators) (data : TaskData C)
    (self : FeedbackProvider) (w : World C) :
  is_feedback self = false ->
  get_full_feedback_package C data (self, w) = (Ok None, (self, w)).
Proof.
  intros Hoff. unfold get_full_feedback_package.
  rewrite io_bind_read, Hoff. reflexivity.
Qed.

Lemma full_feedback_package_disabled_witness :
  get_full_feedback_package echo tt (scenario_disabled, 0%nat)
  = (Ok None, (scenario_disabled, 0%nat)).
Proof.
  apply (full_feedback_package_disabled echo tt scenario_disabled 0%nat).
  reflexivity.
Defined.

(** X9.  With the feedback switched on, milestone counts that fit and the
    three templates filling, [get_full_feedback_package] raises nothing,
    whatever the completion service does.  The package holds the stores of
    the provider as the call leaves them: the rewards (computed only when
    none was stored), the individual feedbacks and the team feedback; the
    weights [REWARD_WEIGHTS]; the latest scores and the ranking of the
    snapshot.  Every agent with a reward has an individual feedback and an
    explanation, each the answer of the service or the text of its failure,
    and there is no explanation for any other agent.  The inputs of the
    provider are unchanged. *)
Theorem full_feedback_package_total (C : Collaborators) (data : TaskData C)
    (self : FeedbackProvider) (w : World C) :
  is_feedback self = true -> counts_fit self ->
  individual_template_fills C self -> team_template_fills C self ->
  explanation_template_fills C self ->
  exists package self' w',
    get_full_feedback_package C data (self, w) = (Ok (Some package), (self', w')) /\
    same_inputs self self' /\
    agent_rewards self' = rewards_for_feedback self /\
    FullFeedback.agent_rewards package = agent_rewards self' /\
    FullFeedback.individual_feedbacks package = individual_feedbacks self' /\
    FullFeedback.team_feedback package = team_feedback self' /\
    FullFeedback.reward_weights package = REWARD_WEIGHTS /\
    (MetricsSummary.latest_planning_score (FullFeedback.metrics_summary package),
     MetricsSummary.latest_communication_score (FullFeedback.metrics_summary package))
    = _get_latest_scores self /\
    sorted_agent_contribution self
    = Ok (MetricsSummary.sorted_agent_contribution (FullFeedback.metrics_summary package)) /\
    answered C self 1024 "teamFeedbackGenerationFailed："
      (FullFeedback.team_feedback package) /\
    (forall k, In k (keys (FullFeedback.agent_rewards package)) ->
       exists feedback explanation,
         get (FullFeedback.individual_feedbacks package) k = Some feedback /\
         answered C self 1024 "feedbackGenerationFailed:" feedback /\
         get (FullFeedback.agent_reward_explanations package) k = Some explanation /\
         answered C self 512 "Reward explanation generation failed：" explanation) /\
    (forall k, In k (keys (FullFeedback.agent_reward_explanations package)) ->
       In k (keys (FullFeedback.agent_rewards package))).
Proof.
  intros En Hfit Hi Ht He.
  destruct (get_full_feedback_package_ok C data self w En Hfit Hi Ht He)
    as (package & fb & text & w' & E & Hr & Hfb & Htext & Hw & Hs & Hrank & Hans
        & Hall & Hexp).
  exists package. eexists. exists w'. split; [exact E|].
  split; [repeat split|]. split; [reflexivity|].
  rewrite Hr, Hfb, Htext.
  split; [reflexivity|]. split; [reflexivity|]. split; [reflexivity|].
  split; [exact Hw|]. split; [exact Hs|]. split; [exact Hrank|].
  split; [exact Hans|]. split; [exact Hall|exact Hexp].
Qed.

Lemma individual_template_fills_scenario (C : Collaborators) :
  (forall t task agent_id agent_profile lp lc data ratio reward milestones total,
     is_ok (format_individual C t task agent_id agent_profile lp lc data ratio
              reward milestones total) = true) ->
  individual_template_fills C scenario_with_prompts.
Proof. intros H. exists "individual: "%string. split; [reflexivity|apply H]. Qed.

Lemma team_template_fills_scenario (C : Collaborators) :
  (forall t task lp lc data total ranking,
     is_ok (format_team C t task lp lc data total ranking) = true) ->
  team_template_fills C scenario_with_prompts.
Proof. intros H. exists "team: "%string. split; [reflexivity|apply H]. Qed.

Lemma explanation_template_fills_scenario (C : Collaborators) :
  (forall t lp lc ratio reward,
     is_ok (format_explanation C t lp lc ratio reward) = true) ->
  explanation_template_fills C scenario_with_prompts.
Proof. intros H. exists "explain"%string. split; [reflexivity|apply H]. Qed.

Lemma counts_fit_scenario_with_prompts : counts_fit scenario_with_prompts.
Proof. repeat constructor. Qed.

(** The scenario with a service that echoes: the package of the two agents,
    after five calls of the service. *)
Lemma full_feedback_package_total_witness :
  exists package self' calls,
    get_full_feedback_package echo tt (scenario_with_prompts, 0%nat)
    = (Ok (Some package), (self', calls)) /\
    FullFeedback.agent_rewards package
    = [("A"%string, lit_0_545); ("B"%string, lit_0_39500000000000007)] /\
    calls = 5%nat.
Proof.
  destruct (full_feedback_package_total echo tt scenario_with_prompts 0%nat)
    as (package & self' & calls & E & _ & Hs & Hr & _).
  - reflexivity.
  - exact counts_fit_scenario_with_prompts.
  - apply individual_template_fills_scenario. reflexivity.
  - apply team_template_fills_scenario. reflexivity.
  - apply explanation_template_fills_scenario. reflexivity.
  - exists package, self', calls. split; [exact E|]. split.
    + rewrite Hr, Hs. reflexivity.
    + assert (H : snd (snd (get_full_feedback_package echo tt
                              (scenario_with_prompts, 0%nat))) = calls)
        by exact (f_equal (fun r => snd (snd r)) E).
      vm_compute in H. now subst.
Defined.

(** X10.  On a provider that holds rewards, [get_full_feedback_package]
    computes no reward: whatever the snapshot says now, whatever the service
    does and whether the call returns or raises, the stored rewards are
    afterwards the ones stored before, and the inputs of the provider are
    unchanged. *)
Theorem full_feedback_package_keeps_stored_rewards (C : Collaborators)
    (data : TaskData C) (self : FeedbackProvider) (w : World C) :
  agent_rewards self <> [] ->
  let self' := fst (snd (get_full_feedback_package C data (self, w))) in
  agent_rewards self' = agent_rewards self /\ same_inputs self self'.
Proof.
  intros Hne self'. unfold self'.
  destruct (is_feedback self) eqn:En.
  - destruct (get_full_feedback_package_frame C data self w En) as (fb & text & ->).
    simpl. split; [|repeat split].
    unfold rewards_for_feedback. destruct (agent_rewards self); [contradiction|reflexivity].
  - unfold get_full_feedback_package. rewrite io_bind_read, En. simpl.
    split; [reflexivity|apply same_inputs_refl].
Qed.

(** The scenario holding a reward of [0.0] for [A] alone: [A] keeps it, and
    [B] gets none. *)
Lemma full_feedback_package_keeps_stored_rewards_witness :
  agent_rewards (fst (snd (get_full_feedback_package echo tt (scenario_stale, 0%nat))))
  = [("A"%string, lit_0_0)].
Proof.
  apply (full_feedback_package_keeps_stored_rewards echo tt scenario_stale 0%nat).
  discriminate.
Defined.

(** X11.  On a provider built by [__init__], with the feedback switched on,
    milestone counts that fit and the three templates filling, the package
    rewards exactly the agents of the roster, each within [0.0, 1.0]. *)
Theorem full_feedback_package_of_new_provider (C : Collaborators) (data : TaskData C)
    (task : string) (agent_profiles : dict string) (metrics : Metrics) (llm : string)
    (feedback_prompts : dict (dict string)) (w : World C) :
  let self := init task agent_profiles metrics true llm feedback_prompts in
  counts_fit self ->
  individual_template_fills C self -> team_template_fills C self ->
  explanation_template_fills C self ->
  exists package,
    fst (get_full_feedback_package C data (self, w)) = Ok (Some package) /\
    (forall k, In k (keys (FullFeedback.agent_rewards package)) <-> In k (keys agent_profiles)) /\
    rewards_in_range (FullFeedback.agent_rewards package) /\
    (forall k, In k (keys agent_profiles) ->
       In k (keys (FullFeedback.individual_feedbacks package)) /\
       In k (keys (FullFeedback.agent_reward_explanations package))).
Proof.
  intros self Hfit Hi Ht He.
  destruct (get_full_feedback_package_ok C data self w eq_refl Hfit Hi Ht He)
    as (package & fb & text & w' & E & Hr & Hfb & _ & _ & _ & _ & _ & Hall & _).
  destruct (calculate_agent_rewards_ok self) as [_ Hok].
  { intros a _. now apply fit_ratios_ok. }
  destruct (rewards_for_feedback_fresh self eq_refl Hok) as [Hkeys Hrange].
  exists package. split; [now rewrite E|]. rewrite Hr, Hfb.
  split; [exact Hkeys|]. split; [exact Hrange|].
  intros k Hk. apply Hkeys in Hk.
  destruct (Hall k Hk) as (feedback & explanation & Hg1 & _ & Hg2 & _).
  split; apply mem_In; unfold mem.
  - now rewrite Hg1.
  - now rewrite Hg2.
Qed.

Lemma full_feedback_package_of_new_provider_witness :
  exists package,
    fst (get_full_feedback_package echo tt (scenario_with_prompts, 0%nat))
    = Ok (Some package) /\
    (forall k, In k (keys (FullFeedback.agent_rewards package)) <->
               In k (keys scenario_roster)).
Proof.
  destruct (full_feedback_package_of_new_provider echo tt "task" scenario_roster
              scenario_metrics "gpt-3.5-turbo" scenario_prompts 0%nat)
    as (package & E & Hkeys & _).
  - exact counts_fit_scenario_with_prompts.
  - apply individual_template_fills_scenario. reflexivity.
  - apply team_template_fills_scenario. reflexivity.
  - apply explanation_template_fills_scenario. reflexivity.
  - exists package. split; [exact E|exact Hkeys].
Defined.

(** ** The package without the explanation template *)

Lemma dict_head {V} (d : dict V) :
  d <> [] -> exists k v ks, keys d = k :: ks /\ get d k = Some v.
Proof.
  destruct d as [|[k v] d]; [contradiction|]. intros _.
  exists k, v, (keys d). split; [reflexivity|].
  simpl. now rewrite String.eqb_refl.
Qed.

(** X12.  Without the explanation template, on a provider that has or
    computes a reward for some agent, [get_full_feedback_package] raises
    [KeyError] and returns no package, but only after the feedbacks were
    generated: the rewards, an individual feedback for every agent with a
    reward and the team feedback are stored in the provider by then. *)
Theorem full_feedback_package_without_explanation_template (C : Collaborators)
    (data : TaskData C) (self : FeedbackProvider) (w : World C) :
  is_feedback self = true -> counts_fit self ->
  individual_template_fills C self -> team_template_fills C self ->
  is_ok (prompt_of "reward_explanation" self) = false ->
  rewards_for_feedback self <> [] ->
  exists self' w',
    get_full_feedback_package C data (self, w) = (Raise KeyError, (self', w')) /\
    agent_rewards self' = rewards_for_feedback self /\
    answered C self 1024 "teamFeedbackGenerationFailed：" (team_feedback self') /\
    (forall k, In k (keys (agent_rewards self')) ->
       exists feedback,
         get (individual_feedbacks self') k = Some feedback /\
         answered C self 1024 "feedbackGenerationFailed:" feedback).
Proof.
  intros En Hfit Hi Ht He Hne. unfold get_full_feedback_package.
  rewrite io_bind_read, En. change (negb true) with false. cbv iota.
  destruct (generate_individual_feedback_ok C data self w Hfit Hi)
    as (fb & w1 & E1 & _ & Ha1 & _).
  unfold io_bind at 1. rewrite E1.
  set (s1 := with_individual_feedbacks
               (with_agent_rewards self (rewards_for_feedback self)) fb).
  destruct (generate_team_feedback_ok C data s1 w1 Hfit Ht) as (text & w2 & E2 & Ha2).
  unfold io_bind at 1. rewrite E2.
  set (s2 := with_team_feedback s1 text).
  rewrite !io_bind_read, io_bind_try_read.
  destruct (fit_sorted_ok self Hfit) as [ranking Hs].
  rewrite (sorted_same_inputs self s2 eq_refl), Hs.
  destruct (dict_head _ Hne) as (a & r & ks & Hk & Hg).
  change (keys (agent_rewards s2)) with (keys (rewards_for_feedback self)).
  rewrite Hk. cbn [explanations_loop]. rewrite io_bind_assoc. unfold io_bind at 1.
  rewrite (generate_reward_explanation_io_known C s2 a r w2 Hg).
  pose proof (fit_ratios_ok self Hfit a) as Hr.
  change (_calculate_agent_contribution_ratio s2 a)
    with (_calculate_agent_contribution_ratio self a).
  destruct (_calculate_agent_contribution_ratio self a) as [ratio|e]; [|discriminate].
  change (prompt_of "reward_explanation" s2) with (prompt_of "reward_explanation" self).
  destruct (prompt_of "reward_explanation" self) as [t|e] eqn:Ep; [discriminate|].
  apply prompt_of_raises in Ep. subst e.
  exists s2, w2. split; [reflexivity|]. split; [reflexivity|]. split; [exact Ha2|].
  exact Ha1.
Qed.

Lemma full_feedback_package_without_explanation_template_witness :
  exists self' w',
    get_full_feedback_package offline tt (scenario_without_explanation, tt)
    = (Raise KeyError, (self', w')) /\
    team_feedback self' = "teamFeedbackGenerationFailed：service unavailable"%string.
Proof.
  destruct (full_feedback_package_without_explanation_template offline tt
              scenario_without_explanation tt)
    as (self' & w' & E & _).
  - reflexivity.
  - repeat constructor.
  - exists "individual: "%string. split; reflexivity.
  - exists "team: "%string. split; reflexivity.
  - reflexivity.
  - discriminate.
  - exists self', w'. split; [exact E|].
    assert (H : fst (snd (get_full_feedback_package offline tt
                            (scenario_without_explanation, tt))) = self')
      by exact (f_equal (fun r => fst (snd r)) E).
    vm_compute in H. now subst.
Defined.

(** ** The calls of the completion service *)

Section Calls.

Variable C : Collaborators.

Let C' : Collaborators := counting C.

(** The count of calls in a state of the counting service. *)
Let calls (w : World C') : nat := snd w.

Lemma counting_step (llm_model filled_prompt : string) (max_token_num : Z)
    (w : World C') :
  calls (snd (model_prompting C' llm_model filled_prompt max_token_num w))
  = S (calls w).
Proof. reflexivity. Qed.

Lemma individual_loop_calls (data : TaskData C') (lp lc : float) (total : Z)
    (t : string) (rewards : list (string * float)) (self : FeedbackProvider)
    (w : World C') :
  (forall a, is_ok (_calculate_agent_contribution_ratio self a) = true) ->
  (forall task agent_id agent_profile lp lc data ratio reward milestones total,
     is_ok (format_individual C' t task agent_id agent_profile lp lc data ratio
              reward milestones total) = true) ->
  calls (snd (snd (individual_loop C' data lp lc total t rewards (self, w))))
  = (calls w + List.length rewards)%nat.
Proof.
  intros Hr Hf. revert self w Hr.
  induction rewards as [|[a rw] rest IH]; intros self w Hr.
  - simpl. lia.
  - cbn [individual_loop]. rewrite !io_bind_read, io_bind_try_read.
    pose proof (Hr a) as Ha.
    destruct (_calculate_agent_contribution_ratio self a) as [ratio|e];
      [clear Ha|discriminate].
    rewrite io_bind_try_read.
    match goal with
    | |- context [format_individual C' t ?x1 ?x2 ?x3 ?x4 ?x5 ?x6 ?x7 ?x8 ?x9 ?x10] =>
        pose proof (Hf x1 x2 x3 x4 x5 x6 x7 x8 x9 x10) as Hfa;
        destruct (format_individual C' t x1 x2 x3 x4 x5 x6 x7 x8 x9 x10)
          as [filled|e]; [clear Hfa|discriminate]
    end.
    rewrite io_bind_read, io_bind_try_model_prompting, io_bind_set_individual_feedback.
    rewrite IH by exact Hr. rewrite counting_step. cbn [List.length]. lia.
Qed.

Lemma generate_individual_feedback_calls (data : TaskData C')
    (self : FeedbackProvider) (w : World C') :
  counts_fit self -> individual_template_fills C' self ->
  calls (snd (snd (generate_individual_feedback C' data (self, w))))
  = (calls w + List.length (rewards_for_feedback self))%nat.
Proof.
  intros Hfit (t & Ht & Hf).
  assert (Hafter : forall self1 : FeedbackProvider,
            evaluator_metrics self1 = evaluator_metrics self ->
            feedback_prompts self1 = feedback_prompts self ->
            calls (snd (snd
              (io_bind C' (lift C' (read _get_latest_scores)) (fun scores =>
               io_bind C' (lift C' (read (fun self =>
                            metrics_get (total_milestones (evaluator_metrics self)) 0)))
                 (fun total_milestones =>
               io_bind C' (lift C' (try_read (prompt_of "agent_individual_feedback")))
                 (fun prompt_template =>
               io_bind C' (lift C' (read (fun self => items (agent_rewards self))))
                 (fun rewards =>
               io_bind C' (individual_loop C' data (fst scores) (snd scores)
                             total_milestones prompt_template rewards) (fun _ =>
               lift C' (read individual_feedbacks)))))) (self1, w))))
            = (calls w + List.length (agent_rewards self1))%nat).
  { intros self1 Hm Hp.
    assert (Hfit1 : counts_fit self1) by now apply (counts_fit_same_inputs self).
    rewrite !io_bind_read, io_bind_try_read.
    replace (prompt_of "agent_individual_feedback" self1) with (Ok (A:=string) t)
      by (unfold prompt_of in *; now rewrite Hp).
    rewrite io_bind_read.
    match goal with
    | |- context [individual_loop C' data ?lp ?lc ?tot t ?rs] =>
        destruct (individual_loop_ok C' data lp lc tot t rs self1 w
                    (fit_ratios_ok self1 Hfit1) Hf) as (fb & w' & E & _);
        pose proof (individual_loop_calls data lp lc tot t rs self1 w
                      (fit_ratios_ok self1 Hfit1) Hf) as Hc
    end.
    cbv zeta in E. rewrite E in Hc. cbn [fst snd] in Hc.
    unfold io_bind at 1. rewrite E. exact Hc. }
  rewrite generate_individual_feedback_unfold. cbv zeta.
  unfold rewards_for_feedback.
  destruct (agent_rewards self) as [|p d] eqn:Es.
  - destruct (calculate_agent_rewards_ok self) as [_ Hok].
    { intros a _. now apply fit_ratios_ok. }
    rewrite Hok. now rewrite Hafter.
  - rewrite Hafter by reflexivity. now rewrite Es.
Qed.

Lemma generate_team_feedback_calls (data : TaskData C')
    (self : FeedbackProvider) (w : World C') :
  counts_fit self -> team_template_fills C' self ->
  calls (snd (snd (generate_team_feedback C' data (self, w)))) = S (calls w).
Proof.
  intros Hfit (t & Ht & Hf).
  destruct (fit_sorted_ok self Hfit) as [ranking Hs].
  unfold generate_team_feedback.
  rewrite !io_bind_read, io_bind_try_read, Hs, io_bind_try_read, Ht, io_bind_try_read.
  match goal with
  | |- context [format_team C' t ?x1 ?x2 ?x3 ?x4 ?x5 ?x6] =>
      pose proof (Hf x1 x2 x3 x4 x5 x6) as Hfa;
      destruct (format_team C' t x1 x2 x3 x4 x5 x6) as [filled|e];
        [clear Hfa|discriminate]
  end.
  rewrite io_bind_read, io_bind_try_model_prompting, io_bind_set_team_feedback.
  reflexivity.
Qed.

Lemma explanations_loop_calls (ids : list string) (acc : dict string)
    (self : FeedbackProvider) (w : World C') :
  (forall a, In a ids -> mem (agent_rewards self) a = true) ->
  counts_fit self -> explanation_template_fills C' self ->
  calls (snd (snd (explanations_loop C' ids acc (self, w))))
  = (calls w + List.length ids)%nat.
Proof.
  intros Hin Hfit (t & Ht & Hf). revert acc w.
  induction ids as [|a ids IH]; intros acc w.
  - simpl. lia.
  - cbn [explanations_loop]. unfold io_bind at 1.
    destruct (mem_get _ _ (Hin a (or_introl eq_refl))) as [reward Hg].
    rewrite (generate_reward_explanation_io_known C' self a reward w Hg).
    pose proof (fit_ratios_ok self Hfit a) as Hr.
    destruct (_calculate_agent_contribution_ratio self a) as [ratio|e];
      [|discriminate].
    rewrite Ht.
    match goal with
    | |- context [format_explanation C' t ?x1 ?x2 ?x3 ?x4] =>
        pose proof (Hf x1 x2 x3 x4) as Hfa;
        destruct (format_explanation C' t x1 x2 x3 x4) as [filled|e];
          [clear Hfa|discriminate]
    end.
    rewrite IH by (intros b Hb; apply Hin; now right).
    rewrite counting_step. cbn [List.length]. lia.
Qed.

Lemma get_full_feedback_package_calls (data : TaskData C')
    (self : FeedbackProvider) (w : World C') :
  is_feedback self = true -> counts_fit self ->
  individual_template_fills C' self -> team_template_fills C' self ->
  explanation_template_fills C' self ->
  calls (snd (snd (get_full_feedback_package C' data (self, w))))
  = (calls w + (2 * List.length (rewards_for_feedback self) + 1))%nat.
Proof.
  intros En Hfit Hi Ht He. unfold get_full_feedback_package.
  rewrite io_bind_read, En. change (negb true) with false. cbv iota.
  destruct (generate_individual_feedback_ok C' data self w Hfit Hi)
    as (fb & w1 & E1 & _).
  pose proof (generate_individual_feedback_calls data self w Hfit Hi) as Hc1.
  rewrite E1 in Hc1. cbn [fst snd] in Hc1.
  unfold io_bind at 1. rewrite E1.
  set (s1 := with_individual_feedbacks
               (with_agent_rewards self (rewards_for_feedback self)) fb).
  destruct (generate_team_feedback_ok C' data s1 w1 Hfit Ht)
    as (text & w2 & E2 & _).
  pose proof (generate_team_feedback_calls data s1 w1 Hfit Ht) as Hc2.
  rewrite E2 in Hc2. cbn [fst snd] in Hc2.
  unfold io_bind at 1. rewrite E2.
  set (s2 := with_team_feedback s1 text).
  rewrite !io_bind_read, io_bind_try_read.
  destruct (fit_sorted_ok self Hfit) as [ranking Hs].
  rewrite (sorted_same_inputs self s2 eq_refl), Hs.
  assert (Hin : forall a, In a (keys (agent_rewards s2)) ->
                  mem (agent_rewards s2) a = true).
  { intros a Ha. apply mem_In. exact Ha. }
  destruct (explanations_loop_ok C' (keys (agent_rewards s2)) empty s2 w2
              Hin Hfit He) as (d & w3 & E3 & _).
  pose proof (explanations_loop_calls (keys (agent_rewards s2)) empty s2 w2
                Hin Hfit He) as Hc3.
  rewrite E3 in Hc3. cbn [fst snd] in Hc3.
  unfold io_bind at 1. rewrite E3. cbn [io_ret fst snd].
  rewrite Hc3, Hc2, Hc1.
  change (agent_rewards s2) with (rewards_for_feedback self).
  unfold keys. rewrite length_map. lia.
Qed.

End Calls.

(** X13.  With the feedback switched on, milestone counts that fit and the
    three templates filling, [get_full_feedback_package] calls the
    completion service once for each agent with a reward, once for the
    team, and once more for each agent with a reward: [2 * n + 1] calls for
    [n] rewards, whatever the service answers. *)
Theorem full_feedback_package_calls (C : Collaborators) (data : TaskData C)
    (self : FeedbackProvider) (w : World C) (n : nat) :
  is_feedback self = true -> counts_fit self ->
  individual_template_fills C self -> team_template_fills C self ->
  explanation_template_fills C self ->
  snd (snd (snd (get_full_feedback_package (counting C) data (self, (w, n)))))
  = (n + (2 * List.length (rewards_for_feedback self) + 1))%nat.
Proof.
  intros En Hfit Hi Ht He.
  apply (get_full_feedback_package_calls C data self (w, n) En Hfit).
  - exact Hi.
  - exact Ht.
  - exact He.
Qed.

(** The two agents of the scenario: five calls, whether the service is up
    or down. *)
Lemma full_feedback_package_calls_witness :
  snd (snd (snd (get_full_feedback_package (counting offline) tt
                   (scenario_with_prompts, (tt, 0%nat)))))
  = 5%nat.
Proof.
  apply (full_feedback_package_calls offline tt scenario_with_prompts tt 0%nat).
  - reflexivity.
  - exact counts_fit_scenario_with_prompts.
  - apply individual_template_fills_scenario. reflexivity.
  - apply team_template_fills_scenario. reflexivity.
  - apply explanation_template_fills_scenario. reflexivity.
Defined.

(** ** The compression loop of [model_prompting] *)

Section CompressionFacts.

Variable char : Type.
Variable dot : char.

(** The cut at any length [n]. *)
Section Cut.

Variable n : nat.

Let cut (text : list char) : list char :=
  if (n <? List.length text)%nat then firstn n text ++ [dot; dot; dot] else text.

Lemma cut_short (text : list char) :
  (List.length text <= n)%nat -> cut text = text.
Proof.
  unfold cut. intros H.
  destruct (Nat.ltb_spec n (List.length text)); [lia|reflexivity].
Qed.

Lemma cut_long (text : list char) :
  (n < List.length text)%nat ->
  cut text = firstn n text ++ [dot; dot; dot] /\
  List.length (cut text) = (n + 3)%nat.
Proof.
  unfold cut. intros H.
  destruct (Nat.ltb_spec n (List.length text)); [|lia].
  split; [reflexivity|].
  rewrite length_app, firstn_length_le by lia. reflexivity.
Qed.


Lemma cut_still_long (text : list char) :
  (n < List.length text)%nat -> (n < List.length (cut text))%nat.
Proof. intros H. destruct (cut_long text H) as [_ ->]. lia. Qed.

Lemma cut_idem (text : list char) : cut (cut text) = cut text.
Proof.
  destruct (Nat.le_gt_cases (List.length text) n) as [H|H].
  - rewrite (cut_short text H). now apply cut_short.
  - destruct (cut_long text H) as [E L].
    destruct (cut_long (cut text) (cut_still_long text H)) as [E2 _].
    rewrite E2. rewrite E at 1.
    rewrite firstn_app, firstn_firstn, Nat.min_id.
    rewrite firstn_length_le by lia. rewrite Nat.sub_diag. simpl firstn.
    rewrite app_nil_r. symmetry. exact E.
Qed.

End Cut.




Lemma compress_still_long (text : list char) :
  (max_length < List.length text)%nat ->
  (max_length < List.length (compress char dot text))%nat.
Proof. exact (cut_still_long max_length text). Qed.

Lemma compress_idem (text : list char) :
  compress char dot (compress char dot text) = compress char dot text.
Proof. exact (cut_idem max_length text). Qed.


(** X15.  A content that the loop has cut is still longer than
    [max_length], so the loop cuts it again when it runs once more on the
    same messages; it cuts it to the same text: the loop changes nothing on
    its own result. *)
Theorem compress_messages_idempotent (messages : list (Message char)) :
  compress_messages char dot (compress_messages char dot messages)
  = compress_messages char dot messages /\
  Forall2 (fun msg msg' =>
             (max_length < List.length (content char msg))%nat ->
             (max_length < List.length (content char msg'))%nat)
    messages (compress_messages char dot messages).
Proof.
  unfold compress_messages. split.
  - rewrite map_map. apply map_ext. intros msg. cbn [role content].
    now rewrite compress_idem.
  - induction messages as [|msg l IH]; cbn [map]; constructor; [|exact IH].
    intros H. exact (compress_still_long _ H).
Qed.

End CompressionFacts.

